(** * cryptoAid: campaign aggregation, status resolution and batch metadata retrieval

    A shallow embedding of the TypeScript front end of cryptoAid:

    - [CampaignDetails]: the campaign details page, [fetchCampaign]
      (app/campaigns/[id]);
    - [Campaigns]: the campaign list page, [fetchSingleCampaign] and
      [fetchAllCampaigns] (app/campaigns);
    - [PinataServiceByUri] and [PinataService]: the two versions of the
      client service, with [fetchMetadataFromIPFS],
      [fetchMetadataByCampaignId] and their [fetchMetadataBatch];
    - [UploadRoute] and [FetchRoute]: the handlers [POST] of
      api/pinata/upload-metadata and [GET] of api/fetch-metadata;
    - [CampaignDetailsScreen] and [CampaignsScreen]: what the two pages
      render in a given state;
    - [Donation]: [handleDonateClick] and [executeDonation] of the details
      page;
    - [PinataUpload]: [uploadMetadataToPinata] of the client service;
    - [CreateCampaign]: the creation page, with [validateGoal],
      [validateDeadline], [resetForm], [handleSubmit] and
      [executeCreateCampaign].

    JavaScript numbers are IEEE 754 binary64 values ([spec_float] with
    [prec = 53] and [emax = 1024]); a [bigint] is a [Z]; a text is the
    sequence of bytes of its UTF-8 encoding; an exception is an
    explicit [Throw] outcome; React state, the result [Map] of a batch and
    the calls issued to the content store are threaded through a state and
    exception monad.  The ledger, the network and the content store are
    oracles: functions that give the outcome of each call.

    The definitions come first; the facts about them and the properties of
    the specification follow. *)

From Stdlib Require Import ZArith Lia.
From Stdlib Require Import Floats.SpecFloat.
From stdpp Require Import gmap strings list fin_maps pretty sorting.

Set Warnings "-register-all".

(* ===================================================================== *)
(** * JavaScript values, exceptions and effects *)
(* ===================================================================== *)

Module Js.

(** JSON values as [JSON.parse] produces them.  A text is the sequence of
    bytes of its UTF-8 encoding.  Numbers are the integral ones the
    application exchanges (timestamps, counts): [JNum n] is the number
    written with the digits of [n], which JavaScript reads as the double
    nearest to [n]. *)
Inductive json :=
| JNull
| JBool (b : bool)
| JNum (n : Z)
| JStr (s : string)
| JArr (items : list json)
| JObj (fields : list (string * json)).

(** A thrown value: an [Error] with its [message]; errors raised by axios
    also carry the body of the HTTP response, when there was one
    ([error.response?.data]). *)
Record Error := mkError { message : string; response_data : option json }.

Definition new_Error (msg : string) : Error :=
  {| message := msg; response_data := None |}.

Inductive result (A : Type) :=
| Ok (a : A)
| Throw (e : Error).
Arguments Ok {A} a.
Arguments Throw {A} e.

#[export] Instance result_ret : MRet result := fun A a => Ok a.
#[export] Instance result_bind : MBind result := fun A B f m =>
  match m with
  | Ok a => f a
  | Throw e => Throw e
  end.

(** [try { body } catch (e) { handler e }] without state. *)
Definition try_catch {A} (body : result A) (handler : Error -> result A) : result A :=
  match body with
  | Ok a => Ok a
  | Throw e => handler e
  end.

(** Computations that update a state [S] and may throw; the state written
    before a throw is kept, as in JavaScript. *)
Definition M (S A : Type) : Type := S -> result A * S.

#[export] Instance M_ret {S} : MRet (M S) := fun A a s => (Ok a, s).
#[export] Instance M_bind {S} : MBind (M S) := fun A B f m s =>
  match m s with
  | (Ok a, s') => f a s'
  | (Throw e, s') => (Throw e, s')
  end.

Definition lift {S A} (r : result A) : M S A := fun s => (r, s).
Definition modify {S} (f : S -> S) : M S unit := fun s => (Ok tt, f s).

(** [try { body } catch (e) { handler e }]. *)
Definition try_catch_M {S A} (body : M S A) (handler : Error -> M S A) : M S A :=
  fun s =>
    match body s with
    | (Ok a, s') => (Ok a, s')
    | (Throw e, s') => handler e s'
    end.

(** [try { body } finally { cleanup }]: the cleanup runs on both exits and
    the outcome of the body is kept. *)
Definition try_finally {S A} (body : M S A) (cleanup : M S unit) : M S A :=
  fun s =>
    let '(r, s') := body s in
    match cleanup s' with
    | (Ok _, s'') => (r, s'')
    | (Throw e, s'') => (Throw e, s'')
    end.

(** [Promise.allSettled]: every task runs to its own outcome, in the order
    in which the tasks settle; the combined promise always fulfils. *)
Fixpoint allSettled {S A} (tasks : list (M S A)) : M S (list (result A)) :=
  match tasks with
  | [] => fun s => (Ok [], s)
  | t :: ts => fun s =>
      let '(r, s1) := t s in
      match allSettled ts s1 with
      | (Ok rs, s2) => (Ok (r :: rs), s2)
      | (Throw e, s2) => (Throw e, s2)
      end
  end.

(** [Promise.all]: fulfils with all the values in request order, rejects
    with the first rejection. *)
Fixpoint all {A} (promises : list (result A)) : result (list A) :=
  match promises with
  | [] => Ok []
  | p :: ps => a ← p; rest ← all ps; mret (a :: rest)
  end.

(** Truthiness of a string: [""] is falsy. *)
Definition truthy_string (s : string) : bool :=
  if decide (s = "") then false else true.

(** [s || d] on strings. *)
Definition or_string (s d : string) : string :=
  if truthy_string s then s else d.

(** Truthiness of a JSON value that may be absent ([undefined]). *)
Definition truthy (v : option json) : bool :=
  match v with
  | None | Some JNull => false
  | Some (JBool b) => b
  | Some (JNum n) => negb (n =? 0)%Z
  | Some (JStr s) => truthy_string s
  | Some (JArr _) | Some (JObj _) => true
  end.

(** [a || b] on values that may be absent. *)
Definition or_value (a b : option json) : option json :=
  if truthy a then a else b.

(** The value bound to [key] in a parsed object: the last binding wins. *)
Fixpoint last_binding (key : string) (fields : list (string * json)) : option json :=
  match fields with
  | [] => None
  | (k, v) :: rest =>
      match last_binding key rest with
      | Some v' => Some v'
      | None => if decide (k = key) then Some v else None
      end
  end.

(** [v.key] for the property names used here ([campaignId], [title],
    [metadata], [details], [error]): reading a property of [null] throws a
    TypeError, an object yields its binding, every other value yields
    [undefined]. *)
Definition get (v : json) (key : string) : result (option json) :=
  match v with
  | JNull => Throw (new_Error ("Cannot read properties of null (reading '" +:+ key +:+ "')"))
  | JObj fields => Ok (last_binding key fields)
  | _ => Ok None
  end.

(** [v?.key] on a value that may be absent. *)
Definition get_opt (v : option json) (key : string) : option json :=
  match v with
  | Some (JObj fields) => last_binding key fields
  | _ => None
  end.

(** The double nearest to the positive integer [a], ties to the even
    significand: [a] itself below 2^53, else the 53 leading bits of [a]
    rounded.  [None] is [Infinity], from 2^1024 on. *)
Definition nearest_double (a : Z) : option Z :=
  let b := Z.log2 a in
  if (b <? 53)%Z then Some a
  else
    let e := (b - 52)%Z in
    let q := (a / 2 ^ e)%Z in
    let r := (a mod 2 ^ e)%Z in
    let half := (2 ^ (e - 1))%Z in
    let q' := if (half <? r)%Z || ((r =? half)%Z && Z.odd q) then (q + 1)%Z else q in
    let v := (q' * 2 ^ e)%Z in
    if (2 ^ 1024 <=? v)%Z then None else Some v.

(** The decimal literal [c] denotes the double [v]. *)
Definition reads_as (v c : Z) : bool :=
  match nearest_double c with
  | Some v' => (v' =? v)%Z
  | None => false
  end.

(** The multiple of [10^p] that denotes [v], when there is one: the one
    nearest to [v], and of two equally near the one with the even quotient. *)
Definition candidate (v p : Z) : option Z :=
  let unit := (10 ^ p)%Z in
  let below := (v / unit * unit)%Z in
  let above := (below + unit)%Z in
  let ok_below := (0 <? below)%Z && reads_as v below in
  let ok_above := reads_as v above in
  if ok_below && ok_above then
    if (v - below <? above - v)%Z then Some below
    else if (above - v <? v - below)%Z then Some above
    else if Z.even (below / unit) then Some below else Some above
  else if ok_below then Some below
  else if ok_above then Some above
  else None.

(** The integer with the fewest significant digits that denotes [v]: as
    many final zeros as possible, [best] having [p] of them. *)
Fixpoint shortest (fuel : nat) (v p best : Z) : Z :=
  match fuel with
  | O => best
  | S fuel' =>
      match candidate v (p + 1) with
      | Some c => shortest fuel' v (p + 1) c
      | None => best
      end
  end.

(** [digits] without its final zeros. *)
Fixpoint significant (digits : string) : string :=
  match digits with
  | EmptyString => EmptyString
  | String d rest =>
      match significant rest with
      | EmptyString => if (Ascii.nat_of_ascii d =? 48)%nat then EmptyString
                       else String d EmptyString
      | String _ _ as rest' => String d rest'
      end
  end.

(** [String(x)] for the number [JNum n]: the shortest digits that denote the
    double, written in full up to 21 digits and with an exponent beyond. *)
Definition Number_toString (n : Z) : string :=
  if (n =? 0)%Z then "0"
  else
    let sign := if (n <? 0)%Z then "-" else "" in
    match nearest_double (Z.abs n) with
    | None => sign +:+ "Infinity"
    | Some v =>
        let digits := pretty (shortest (Z.to_nat (Z.log2 v)) v 0 v) in
        let n_digits := String.length digits in
        if (n_digits <=? 21)%nat then sign +:+ digits
        else
          match significant digits with
          | String d EmptyString =>
              sign +:+ String d EmptyString +:+ "e+" +:+ pretty (n_digits - 1)%nat
          | String d rest =>
              sign +:+ String d ("." +:+ rest) +:+ "e+" +:+ pretty (n_digits - 1)%nat
          | EmptyString => sign +:+ digits
          end
    end.

(** [String(v)], the conversion applied by [new Error(v)] and by a template
    literal; inside an array [null] prints as the empty string. *)
Fixpoint String_of (v : json) : string :=
  match v with
  | JNull => "null"
  | JBool true => "true"
  | JBool false => "false"
  | JNum n => Number_toString n
  | JStr s => s
  | JArr items =>
      (fix join (l : list json) : string :=
         match l with
         | [] => ""
         | x :: rest =>
             let x' := match x with JNull => "" | _ => String_of x end in
             match rest with
             | [] => x'
             | _ :: _ => x' +:+ "," +:+ join rest
             end
         end) items
  | JObj _ => "[object Object]"
  end.

(** [s.replace(pattern, replacement)] with a string pattern: only the first
    occurrence is replaced. *)
Fixpoint replace (pattern replacement s : string) : string :=
  if String.prefix pattern s
  then replacement +:+ String.substring (String.length pattern) (String.length s) s
  else match s with
       | EmptyString => EmptyString
       | String c rest => String c (replace pattern replacement rest)
       end.

End Js.

(* ===================================================================== *)
(** * JavaScript numbers: IEEE 754 binary64 *)
(* ===================================================================== *)

Module Float64.

Local Open Scope Z_scope.

Definition prec : Z := 53.
Definition emax : Z := 1024.

Abbreviation number := spec_float.

(** The literal [0]. *)
Definition zero : number := S754_zero false.

(** [Number(b)] for a [bigint] [b], and integer literals: the nearest
    double, ties to even. *)
Definition of_Z (n : Z) : number := binary_normalize prec emax n 0 false.

(** The literal [100]. *)
Definition hundred : number := Eval vm_compute in of_Z 100.

Definition mul (a b : number) : number := SFmul prec emax a b.
Definition div (a b : number) : number := SFdiv prec emax a b.

(** [a >= b] and [a > b]: false as soon as one side is NaN. *)
Definition ge (a b : number) : bool := SFleb b a.
Definition gt (a b : number) : bool := SFltb b a.

(** [Math.min(a, b)]: NaN if either is NaN, and [-0] is below [+0]. *)
Definition Math_min (a b : number) : number :=
  match SFcompare a b with
  | None => S754_nan
  | Some Lt => a
  | Some Gt => b
  | Some Eq => match a with S754_zero true => a | _ => b end
  end.

(** One ether in wei. *)
Definition ETHER : Z := 10 ^ 18.

(** [formatEther(value)] prints [value / 10^18] exactly, in decimal.  The
    string is represented by the amount in wei that it denotes. *)
Record EtherString := { wei : Z }.

Definition formatEther (value : Z) : EtherString := {| wei := value |}.

(** [Number(s)] for a decimal string [s]: the double nearest to the value
    written, ties to even.  For the strings of [formatEther] this is the
    correctly rounded quotient [wei / 10^18], obtained as IEEE division
    obtains it: a quotient with enough digits and the position of the
    remainder ([SFdiv_core_binary]), then one rounding
    ([binary_round_aux]). *)
Definition Number (s : EtherString) : number :=
  match wei s with
  | Z0 => S754_zero false
  | Zpos p =>
      let '(q, e, l) := SFdiv_core_binary prec emax (Zpos p) 0 ETHER 0 in
      binary_round_aux prec emax false q e l
  | Zneg p =>
      let '(q, e, l) := SFdiv_core_binary prec emax (Zpos p) 0 ETHER 0 in
      binary_round_aux prec emax true q e l
  end.

(** Values of an unsigned 256-bit contract field. *)
Definition uint256 (v : Z) : Prop := 0 <= v < 2 ^ 256.

(** The three outcomes of [binary_round_aux] once the mantissa [m2] and the
    exponent [e2] have been brought to the format. *)
Definition round_result (s : bool) (m2 e2 : Z) : number :=
  match m2 with
  | Z0 => S754_zero s
  | Zpos m => if e2 <=? emax - prec then S754_finite s m e2 else S754_infinity s
  | Zneg _ => S754_nan
  end.

(** [x] is a number (not NaN) of sign [s]. *)
Definition sign_is (s : bool) (x : number) : Prop :=
  match x with
  | S754_zero s' | S754_infinity s' | S754_finite s' _ _ => s' = s
  | S754_nan => False
  end.

(** [x] is a non-zero finite number of sign [s]. *)
Definition finite_nonzero (s : bool) (x : number) : Prop :=
  match x with
  | S754_finite s' _ _ => s' = s
  | _ => False
  end.

Definition is_finite (x : number) : bool :=
  match x with
  | S754_zero _ | S754_finite _ _ _ => true
  | _ => false
  end.

(** [mrs] is the integer part of [A / B] with the round and sticky bits of
    its fractional part. *)
Definition represents (A B : Z) (mrs : shr_record) : Prop :=
  0 <= A /\ 0 < B /\ shr_m mrs = A / B /\
  (shr_r mrs = true <-> B <= 2 * (A mod B)) /\
  (shr_s mrs = true <-> A mod B <> 0 /\ 2 * (A mod B) <> B).

(** [A / B] rounded to the nearest integer, ties to even. *)
Definition rne (A B : Z) : Z :=
  let q := A / B in
  let r := A mod B in
  match 2 * r ?= B with
  | Lt => q
  | Eq => if Z.even q then q else q + 1
  | Gt => q + 1
  end.

End Float64.

(* ===================================================================== *)
(** * The ledger: the read-only contract *)
(* ===================================================================== *)

Module Ledger.

(** The record [getCampaign] returns.  The pages read the amount raised
    under two names, [raised] and [raisedAmount]; a name the contract does
    not declare reads as [undefined]. *)
Record Campaign := {
  creator : string;
  title : string;
  description : string;
  goal : Z;
  raised : option Z;
  raisedAmount : option Z;
  deadline : Z;
}.

Record Contract := {
  getCampaign : Z -> Js.result Campaign;
  getDonorCount : Z -> Js.result Z;
  campaignCount : Js.result Z;
}.

(** The amounts of a record are unsigned 256-bit values, as the contract
    ABI types them. *)
Definition well_formed (c : Campaign) : Prop :=
  Float64.uint256 (goal c) /\
  (forall r, raised c = Some r -> Float64.uint256 r) /\
  (forall r, raisedAmount c = Some r -> Float64.uint256 r).

(** What a page can reach: the provider ([getReadOnlyContract()]) and the
    public IPFS gateway ([axios.get] on a gateway URL). *)
Record World := {
  getReadOnlyContract : Js.result Contract;
  gateway_get : string -> Js.result Js.json;
}.

End Ledger.

(* ===================================================================== *)
(** * Campaign details page *)
(* ===================================================================== *)

Module CampaignDetails.

Import Js Float64.

Inductive Status := ACTIVE | ENDED | SUCCESSFUL.

Record CampaignData := {
  id : Z;
  creator : string;
  title : string;
  description : string;
  imageUrl : string;
  videoUrl : string;
  goal : EtherString;
  raised : EtherString;
  deadline : number;
  donorCount : number;
  isActive : bool;
  status : Status;
  progress : number;
}.

(** The component state: [campaign], [loading], [error]. *)
Record PageState := {
  campaign : option CampaignData;
  loading : bool;
  error : option string;
}.

(** [useState(null)], [useState(true)], [useState(null)]. *)
Definition initial : PageState :=
  {| campaign := None; loading := true; error := None |}.

Definition setCampaign (c : option CampaignData) (st : PageState) : PageState :=
  {| campaign := c; loading := loading st; error := error st |}.
Definition setLoading (b : bool) (st : PageState) : PageState :=
  {| campaign := campaign st; loading := b; error := error st |}.
Definition setError (e : option string) (st : PageState) : PageState :=
  {| campaign := campaign st; loading := loading st; error := e |}.

(** [a || b || BigInt(0)] on amounts: [undefined] and [0n] are falsy. *)
Definition raisedValue (onChainData : Ledger.Campaign) : Z :=
  match Ledger.raised onChainData with
  | Some (Zpos _ as r) | Some (Zneg _ as r) => r
  | _ =>
      match Ledger.raisedAmount onChainData with
      | Some (Zpos _ as r) | Some (Zneg _ as r) => r
      | _ => 0%Z
      end
  end.

(** [fetchCampaign], for the campaign [campaignId] of the route and the
    clock reading [now = Math.floor(Date.now() / 1000)]. *)
Definition fetchCampaign (w : Ledger.World) (campaignId : Z) (now : Z)
  : M PageState unit :=
  try_finally
    (try_catch_M
       (modify (setLoading true);;
        modify (setError None);;
        contract ← lift (Ledger.getReadOnlyContract w);
        onChainData ← lift (Ledger.getCampaign contract campaignId);
        let metadata_title := or_string (Ledger.title onChainData) "Untitled Campaign" in
        let metadata_description :=
          or_string (Ledger.description onChainData) "No description available" in
        let metadata_imageUrl := "" in
        let metadata_videoUrl := "" in
        let goal := formatEther (Ledger.goal onChainData) in
        let raised := formatEther (raisedValue onChainData) in
        let deadline := of_Z (Ledger.deadline onChainData) in
        let isExpired := ge (of_Z now) deadline in
        let goalReached := ge (Number raised) (Number goal) in
        count ← lift (Ledger.getDonorCount contract campaignId);
        let donorCount := of_Z count in
        let progress :=
          if gt (Number goal) zero
          then Math_min (mul (div (Number raised) (Number goal)) hundred) hundred
          else zero in
        let status :=
          if goalReached then SUCCESSFUL
          else if isExpired then ENDED
          else ACTIVE in
        modify (setCampaign (Some {|
          id := campaignId;
          creator := Ledger.creator onChainData;
          title := metadata_title;
          description := metadata_description;
          imageUrl := metadata_imageUrl;
          videoUrl := metadata_videoUrl;
          goal := goal;
          raised := raised;
          deadline := deadline;
          donorCount := donorCount;
          isActive := negb isExpired && negb goalReached;
          status := status;
          progress := progress;
        |})))
       (fun err =>
          modify (setError (Some (or_string (message err)
                                            "Failed to load campaign details")))))
    (modify (setLoading false)).

(** The expressions of [fetchCampaign], named: [Number(raised) >=
    Number(goal)], [now >= deadline], the progress and the status. *)
Definition goalReached (raised goal : EtherString) : bool :=
  ge (Number raised) (Number goal).

Definition isExpired (now : Z) (deadline : number) : bool :=
  ge (of_Z now) deadline.

Definition computeProgress (raised goal : EtherString) : number :=
  if gt (Number goal) zero
  then Math_min (mul (div (Number raised) (Number goal)) hundred) hundred
  else zero.

Definition computeStatus (goalReached isExpired : bool) : Status :=
  if goalReached then SUCCESSFUL
  else if isExpired then ENDED
  else ACTIVE.

(** The view [fetchCampaign] stores when the provider, the record read and
    the donor-count read all succeed. *)
Definition view_of (onChainData : Ledger.Campaign) (campaignId now count : Z)
  : CampaignData :=
  let goal := formatEther (Ledger.goal onChainData) in
  let raised := formatEther (raisedValue onChainData) in
  let deadline := of_Z (Ledger.deadline onChainData) in
  {| id := campaignId;
     creator := Ledger.creator onChainData;
     title := or_string (Ledger.title onChainData) "Untitled Campaign";
     description := or_string (Ledger.description onChainData) "No description available";
     imageUrl := "";
     videoUrl := "";
     goal := goal;
     raised := raised;
     deadline := deadline;
     donorCount := of_Z count;
     isActive := negb (isExpired now deadline) && negb (goalReached raised goal);
     status := computeStatus (goalReached raised goal) (isExpired now deadline);
     progress := computeProgress raised goal |}.

(** The state [fetchCampaign] leaves after a failure [err]. *)
Definition failed (err : Error) (st : PageState) : PageState :=
  {| campaign := campaign st;
     loading := false;
     error := Some (or_string (message err) "Failed to load campaign details") |}.

End CampaignDetails.

(* ===================================================================== *)
(** * Campaign list page *)
(* ===================================================================== *)

Module Campaigns.

Import Js Float64.

Inductive Status := ACTIVE | ENDED.

Record CampaignView := {
  id : Z;
  title : string;
  description : string;
  goal : EtherString;
  raised : EtherString;
  deadline : number;
  isActive : bool;
  status : Status;
}.

Record PageState := {
  campaigns : list CampaignView;
  loading : bool;
  error : option string;
}.

(** [useState([])], [useState(true)], [useState(null)]. *)
Definition initial : PageState :=
  {| campaigns := []; loading := true; error := None |}.

Definition setCampaigns (l : list CampaignView) (st : PageState) : PageState :=
  {| campaigns := l; loading := loading st; error := error st |}.
Definition setLoading (b : bool) (st : PageState) : PageState :=
  {| campaigns := campaigns st; loading := b; error := error st |}.
Definition setError (e : option string) (st : PageState) : PageState :=
  {| campaigns := campaigns st; loading := loading st; error := e |}.

(** [formatEther(v)] where [v] may be [undefined]: ethers rejects a value
    that is not a number. *)
Definition formatEther_arg (v : option Z) : result EtherString :=
  match v with
  | Some value => Ok (formatEther value)
  | None => Throw (new_Error "invalid BigNumberish value")
  end.

(** [fetchSingleCampaign(contract, campaignId)], reading the clock as [now]. *)
Definition fetchSingleCampaign (contract : Ledger.Contract) (campaignId : Z) (now : Z)
  : result (option CampaignView) :=
  try_catch
    (campaign ← Ledger.getCampaign contract campaignId;
     let goal := formatEther (Ledger.goal campaign) in
     raised ← formatEther_arg (Ledger.raisedAmount campaign);
     let deadline := of_Z (Ledger.deadline campaign) in
     let isExpired := ge (of_Z now) deadline in
     mret (Some {|
       id := campaignId;
       title := Ledger.title campaign;
       description := Ledger.description campaign;
       goal := goal;
       raised := raised;
       deadline := deadline;
       isActive := negb isExpired;
       status := if isExpired then ENDED else ACTIVE;
     |}))
    (fun err => Ok None).

(** The loop [for (let i = 0; i < total; i++)]. *)
Definition indices (total : Z) : list Z :=
  Z.of_nat <$> seq 0 (Z.to_nat total).

(** [results.filter(Boolean)]: the [null] entries are dropped. *)
Definition filter_Boolean {A} (results : list (option A)) : list A :=
  omap (fun r => r) results.

(** [fetchAllCampaigns]; [clock i] is the clock reading taken while
    campaign [i] is being built. *)
Definition fetchAllCampaigns (getReadOnlyContract : result Ledger.Contract)
                             (clock : Z -> Z) : M PageState unit :=
  try_finally
    (try_catch_M
       (modify (setLoading true);;
        modify (setError None);;
        contract ← lift getReadOnlyContract;
        total ← lift (Ledger.campaignCount contract);
        if (total =? 0)%Z
        then modify (setCampaigns []);; modify (setLoading false)
        else
          let requests :=
            (fun i => fetchSingleCampaign contract i (clock i)) <$> indices total in
          results ← lift (Js.all requests);
          modify (setCampaigns (reverse (filter_Boolean results))))
       (fun err =>
          modify (setError (Some (or_string (message err)
                      "Failed to load campaigns. Please try again later.")))))
    (modify (setLoading false)).

(** What the list keeps of campaign [i]: its view, or nothing when the
    fetch yielded [null]. *)
Definition kept (contract : Ledger.Contract) (clock : Z -> Z) (i : Z)
  : option CampaignView :=
  match fetchSingleCampaign contract i (clock i) with
  | Ok v => v
  | Throw _ => None
  end.

End Campaigns.

(* ===================================================================== *)
(** * The result map of a batch *)
(* ===================================================================== *)

Module Batch.

(** What a settled callback leaves in the [results] map: the callback for
    key [k] that obtained [Some m] stored it, the one that obtained nothing
    left the map as it was. *)
Definition store (results : gmap string Js.json) (entry : string * option Js.json)
  : gmap string Js.json :=
  match entry.2 with
  | Some m => <[entry.1 := m]> results
  | None => results
  end.

(** Every scheduler only rearranges the callbacks. *)
Definition rearranges {A} (settle : list A -> list A) : Prop :=
  forall l, settle l ≡ₚ l.

End Batch.

(* ===================================================================== *)
(** * Pinata client service, first version: metadata by IPFS URI *)
(* ===================================================================== *)

Module PinataServiceByUri.

Import Js.

Definition PINATA_GATEWAY : string := "https://gateway.pinata.cloud/ipfs".

(** [fetchMetadataFromIPFS(ipfsUri)].  [axios_get url] is [response.data]
    of [axios.get(url, { timeout })], which throws on a network error, a
    timeout or a status outside 2xx. *)
Definition fetchMetadataFromIPFS (axios_get : string -> result json) (ipfsUri : string)
  : result json :=
  try_catch
    (let hash := replace "ipfs://" "" ipfsUri in
     data ← axios_get (PINATA_GATEWAY +:+ "/" +:+ hash);
     mret data)
    (fun error => Throw (new_Error "Failed to fetch metadata from IPFS")).

(** The callback run for one entry of the map; its state is the [results]
    map the batch accumulates into. *)
Definition task (axios_get : string -> result json) (entry : string * string)
  : M (gmap string json) unit :=
  let '(campaignId, uri) := entry in
  try_catch_M
    (metadata ← lift (fetchMetadataFromIPFS axios_get uri);
     modify (insert campaignId metadata))
    (fun err => mret tt).

(** [fetchMetadataBatch(ipfsUris)].  All the fetches are started at once and
    complete in an order the network decides: [settle] is that order, a
    rearrangement of the entries. *)
Definition fetchMetadataBatch (axios_get : string -> result json)
                              (settle : list (string * string) -> list (string * string))
                              (ipfsUris : gmap string string)
  : result (gmap string json) :=
  let results : gmap string json := ∅ in
  let '(settled, results) :=
    allSettled (task axios_get <$> settle (map_to_list ipfsUris)) results in
  _ ← settled;
  mret results.

(** What the batch stores for an entry with address [uri]: the metadata of
    a fetch that succeeded. *)
Definition found (axios_get : string -> result json) (uri : string) : option json :=
  match fetchMetadataFromIPFS axios_get uri with
  | Ok metadata => Some metadata
  | Throw _ => None
  end.

End PinataServiceByUri.

(* ===================================================================== *)
(** * Pinata client service, second version: metadata by campaign id *)
(* ===================================================================== *)

Module PinataService.

Import Js.

(** A [fetch] response: its status and what [response.json()] yields. *)
Record Response := {
  status : Z;
  json : result Js.json;
}.

(** [response.ok]. *)
Definition ok (response : Response) : bool :=
  ((200 <=? status response) && (status response <=? 299))%Z.

(** [fetchMetadataByCampaignId(campaignId)]; [fetch url] rejects on a
    network failure.  [null] and [undefined] are both [None]. *)
Definition fetchMetadataByCampaignId (fetch : string -> result Response)
                                     (campaignId : string)
  : result (option Js.json) :=
  try_catch
    (response ← fetch ("/api/fetch-metadata?campaignId=" +:+ campaignId);
     if (status response =? 404)%Z then mret None
     else if negb (ok response) then
       error ← json response;
       details ← get error "details";
       reason ← (if truthy details then mret details
                 else error' ← get error "error";
                      mret (or_value error' (Some (JStr "Fetch failed"))));
       Throw (new_Error (from_option String_of "undefined" reason))
     else
       data ← json response;
       metadata ← get data "metadata";
       mret metadata)
    (fun error => Ok None).

(** The callback run for one id of the list. *)
Definition task (fetch : string -> result Response) (id : string)
  : M (gmap string Js.json) unit :=
  try_catch_M
    (metadata ← lift (fetchMetadataByCampaignId fetch id);
     match metadata with
     | Some m => if truthy (Some m) then modify (insert id m) else mret tt
     | None => mret tt
     end)
    (fun err => mret tt).

(** [fetchMetadataBatch(campaignIds)]; [settle] is the order in which the
    fetches complete, a rearrangement of the ids. *)
Definition fetchMetadataBatch (fetch : string -> result Response)
                              (settle : list string -> list string)
                              (campaignIds : list string)
  : result (gmap string Js.json) :=
  let results : gmap string Js.json := ∅ in
  let '(settled, results) :=
    allSettled (task fetch <$> settle campaignIds) results in
  _ ← settled;
  mret results.

(** What the batch stores for [id]: the metadata of a lookup that
    succeeded, that is, returned a value which is not [null] (nor otherwise
    falsy). *)
Definition found (fetch : string -> result Response) (id : string) : option Js.json :=
  match fetchMetadataByCampaignId fetch id with
  | Ok (Some m) => if truthy (Some m) then Some m else None
  | _ => None
  end.

End PinataService.

(* ===================================================================== *)
(** * API routes *)
(* ===================================================================== *)

Module Route.

Import Js.

(** [NextResponse.json(body, { status })]; the status defaults to 200. *)
Record NextResponse := {
  status : Z;
  body : json;
}.

Definition json_response (body : json) (status : Z) : NextResponse :=
  {| status := status; body := body |}.

(** [process.env.PINATA_JWT] is usable when it is set and not empty. *)
Definition configured (PINATA_JWT : option string) : option string :=
  match PINATA_JWT with
  | Some jwt => if truthy_string jwt then Some jwt else None
  | None => None
  end.

(** [error.response?.data?.error || error.message], the [details] field of
    a failure response. *)
Definition failure_details (error : Error) : option json :=
  or_value (get_opt (response_data error) "error") (Some (JStr (message error))).

Definition failure_body (summary : string) (error : Error) : json :=
  JObj (("error", JStr summary) ::
        match failure_details error with
        | Some d => [("details", d)]
        | None => []
        end).

End Route.

Module UploadRoute.

Import Js Route.

(** What the handler does to the request and to the store, in order. *)
Inductive Event :=
| ReadBody
| PinJSONToIPFS (pinataContent : json) (name : string) (campaignId : option json)
                (jwt : string).

Definition is_write (ev : Event) : bool :=
  match ev with
  | PinJSONToIPFS _ _ _ _ => true
  | ReadBody => false
  end.

Record Request := { json : result Js.json }.

Record PinataResponse := { IpfsHash : string }.

(** [await req.json()]. *)
Definition req_json (req : Request) : M (list Event) Js.json :=
  fun trace => (json req, trace ++ [ReadBody]).

(** [axios.post(".../pinning/pinJSONToIPFS", { pinataContent, pinataMetadata },
    { headers, timeout })]; [pinata] answers the call. *)
Definition axios_post (pinata : Js.json -> result PinataResponse)
                      (pinataContent : Js.json) (name : string)
                      (campaignId : option Js.json) (jwt : string)
  : M (list Event) PinataResponse :=
  fun trace => (pinata pinataContent,
                trace ++ [PinJSONToIPFS pinataContent name campaignId jwt]).

(** [{ ...body, createdAt }]; the bodies that reach the spread are objects. *)
Definition with_createdAt (body : Js.json) (createdAt : Z) : Js.json :=
  match body with
  | JObj fields => JObj (fields ++ [("createdAt", JNum createdAt)])
  | _ => JObj [("createdAt", JNum createdAt)]
  end.

(** [POST(req)], with [Date_now] the clock in milliseconds. *)
Definition POST (PINATA_JWT : option string)
                (pinata : Js.json -> result PinataResponse)
                (Date_now : Z) (req : Request)
  : M (list Event) NextResponse :=
  match configured PINATA_JWT with
  | None =>
      mret (json_response (JObj [("error", JStr "Server configuration error")]) 500)
  | Some jwt =>
      try_catch_M
        (body ← req_json req;
         campaignId ← lift (get body "campaignId");
         missing ← (if negb (truthy campaignId) then mret true
                    else title ← lift (get body "title");
                         mret (negb (truthy title)));
         if missing : bool then
           mret (json_response
                   (JObj [("error", JStr "Missing required fields: campaignId, title")])
                   400)
         else
           let metadata := with_createdAt body Date_now in
           response ← axios_post pinata metadata
                        ("campaign-" +:+ from_option String_of "undefined" campaignId)
                        campaignId jwt;
           mret (json_response
                   (JObj [("success", JBool true);
                          ("ipfsHash", JStr (IpfsHash response));
                          ("ipfsUri", JStr ("ipfs://" +:+ IpfsHash response))])
                   200))
        (fun error =>
           mret (json_response (failure_body "Failed to upload to IPFS" error) 500))
  end.

End UploadRoute.

Module FetchRoute.

Import Js Route.

Definition PINATA_GATEWAY : string := "https://gateway.pinata.cloud/ipfs".

Record PinRow := { ipfs_pin_hash : string }.

(** [response.data] of the [pinList] query. *)
Record PinList := {
  count : Z;
  rows : list PinRow;
}.

(** The store as the route reaches it: the credentialed query for the pins
    whose [campaignId] key equals a value, and the public gateway. *)
Record Pinata := {
  pinList : string -> string -> result PinList;
  gateway_get : string -> result json;
}.

(** [GET(req)], with [campaignId] the value of
    [searchParams.get("campaignId")]. *)
Definition GET (PINATA_JWT : option string) (pinata : Pinata)
               (campaignId : option string)
  : result NextResponse :=
  match configured PINATA_JWT with
  | None =>
      mret (json_response (JObj [("error", JStr "Server configuration error")]) 500)
  | Some jwt =>
      try_catch
        (match campaignId with
         | Some id =>
             if negb (truthy_string id) then
               mret (json_response
                       (JObj [("error", JStr "campaignId query parameter required")])
                       400)
             else
               data ← pinList pinata id jwt;
               if (count data =? 0)%Z then
                 mret (json_response (JObj [("error", JStr "Metadata not found")]) 404)
               else
                 row ← match rows data with
                       | row :: _ => mret row
                       | [] => Throw (new_Error
                                 "Cannot read properties of undefined (reading 'ipfs_pin_hash')")
                       end;
                 let ipfsHash := ipfs_pin_hash row in
                 metadata ← gateway_get pinata (PINATA_GATEWAY +:+ "/" +:+ ipfsHash);
                 mret (json_response
                         (JObj [("success", JBool true);
                                ("ipfsHash", JStr ipfsHash);
                                ("ipfsUri", JStr ("ipfs://" +:+ ipfsHash));
                                ("metadata", metadata)])
                         200)
         | None =>
             mret (json_response
                     (JObj [("error", JStr "campaignId query parameter required")])
                     400)
         end)
        (fun error =>
           mret (json_response (failure_body "Failed to fetch metadata" error) 500))
  end.

(** ** The request URL

    [new URL(req.url)] and [searchParams.get(name)], after the URL standard.
    The input loses the C0 controls and the spaces at both ends, then every
    tab and newline.  The query is the text after the first [?], up to the
    first [#].  It is split at each [&]; an empty piece is skipped; a piece
    gives a name and a value, separated by its first [=]; in both a [+] is a
    space, [%] followed by two hexadecimal digits is the byte they write,
    and the bytes are decoded as UTF-8, an ill-formed sequence giving
    U+FFFD. *)

Definition code (c : Ascii.ascii) : nat := Ascii.nat_of_ascii c.

Definition is_char (n : nat) (c : Ascii.ascii) : bool := (code c =? n)%nat.

Definition in_range (lo hi : nat) (c : Ascii.ascii) : bool :=
  ((lo <=? code c) && (code c <=? hi))%nat.

Definition c0_control_or_space (c : Ascii.ascii) : bool := (code c <=? 32)%nat.

Definition tab_or_newline (c : Ascii.ascii) : bool :=
  is_char 9 c || is_char 10 c || is_char 13 c.

Fixpoint strip_leading (s : string) : string :=
  match s with
  | EmptyString => EmptyString
  | String c rest => if c0_control_or_space c then strip_leading rest else s
  end.

Fixpoint strip_trailing (s : string) : string :=
  match s with
  | EmptyString => EmptyString
  | String c rest =>
      match strip_trailing rest with
      | EmptyString => if c0_control_or_space c then EmptyString else String c EmptyString
      | String _ _ as rest' => String c rest'
      end
  end.

Fixpoint remove_chars (drop : Ascii.ascii -> bool) (s : string) : string :=
  match s with
  | EmptyString => EmptyString
  | String c rest =>
      if drop c then remove_chars drop rest else String c (remove_chars drop rest)
  end.

Definition url_input (url : string) : string :=
  remove_chars tab_or_newline (strip_trailing (strip_leading url)).

(** The text before the first character that satisfies [stop]. *)
Fixpoint text_before (stop : Ascii.ascii -> bool) (s : string) : string :=
  match s with
  | EmptyString => EmptyString
  | String c rest => if stop c then EmptyString else String c (text_before stop rest)
  end.

(** The text after it, when there is such a character. *)
Fixpoint text_after (stop : Ascii.ascii -> bool) (s : string) : option string :=
  match s with
  | EmptyString => None
  | String c rest => if stop c then Some rest else text_after stop rest
  end.

Definition query_of (input : string) : option string :=
  text_after (is_char 63) (text_before (is_char 35) input).

Fixpoint split_at (sep : Ascii.ascii -> bool) (s : string) : list string :=
  match s with
  | EmptyString => [EmptyString]
  | String c rest =>
      if sep c then EmptyString :: split_at sep rest
      else
        match split_at sep rest with
        | piece :: pieces => String c piece :: pieces
        | [] => [String c EmptyString]
        end
  end.

Fixpoint plus_to_space (s : string) : string :=
  match s with
  | EmptyString => EmptyString
  | String c rest =>
      String (if is_char 43 c then Ascii.ascii_of_nat 32 else c) (plus_to_space rest)
  end.

Definition hex_value (c : Ascii.ascii) : option nat :=
  if in_range 48 57 c then Some (code c - 48)%nat
  else if in_range 65 70 c then Some (code c - 55)%nat
  else if in_range 97 102 c then Some (code c - 87)%nat
  else None.

Fixpoint percent_decode (s : string) : string :=
  match s with
  | EmptyString => EmptyString
  | String c rest =>
      if is_char 37 c then
        match rest with
        | String h (String l rest') =>
            match hex_value h, hex_value l with
            | Some a, Some b =>
                String (Ascii.ascii_of_nat (16 * a + b)) (percent_decode rest')
            | _, _ => String c (percent_decode rest)
            end
        | _ => String c (percent_decode rest)
        end
      else String c (percent_decode rest)
  end.

(** U+FFFD in UTF-8. *)
Definition REPLACEMENT : string :=
  String (Ascii.ascii_of_nat 239)
    (String (Ascii.ascii_of_nat 191) (String (Ascii.ascii_of_nat 189) EmptyString)).

(** How many bytes follow the lead byte [b0] of a sequence ([0] for a byte
    that starts none), and the range of the first of them: narrower after
    [E0], [ED], [F0] and [F4]. *)
Definition continuation_bytes (b0 : Ascii.ascii) : nat :=
  if in_range 194 223 b0 then 1
  else if in_range 224 239 b0 then 2
  else if in_range 240 244 b0 then 3
  else 0.

Definition second_byte_range (b0 : Ascii.ascii) : nat * nat :=
  if is_char 224 b0 then (160, 191)
  else if is_char 237 b0 then (128, 159)
  else if is_char 240 b0 then (144, 191)
  else if is_char 244 b0 then (128, 143)
  else (128, 191).

(** UTF-8 decoding, written on the encoded text: a well-formed sequence is
    kept, and the longest start of a sequence that cannot be completed is
    replaced by U+FFFD. *)
Fixpoint utf8_decode (s : string) : string :=
  match s with
  | EmptyString => EmptyString
  | String b0 r =>
      if (code b0 <? 128)%nat then String b0 (utf8_decode r)
      else
        match continuation_bytes b0 with
        | O => REPLACEMENT +:+ utf8_decode r
        | S more =>
            match r with
            | EmptyString => REPLACEMENT
            | String b1 r1 =>
                if negb (in_range (second_byte_range b0).1 (second_byte_range b0).2 b1)
                then REPLACEMENT +:+ utf8_decode r
                else
                  match more with
                  | O => String b0 (String b1 (utf8_decode r1))
                  | S more' =>
                      match r1 with
                      | EmptyString => REPLACEMENT
                      | String b2 r2 =>
                          if negb (in_range 128 191 b2)
                          then REPLACEMENT +:+ utf8_decode r1
                          else
                            match more' with
                            | O => String b0 (String b1 (String b2 (utf8_decode r2)))
                            | S _ =>
                                match r2 with
                                | EmptyString => REPLACEMENT
                                | String b3 r3 =>
                                    if negb (in_range 128 191 b3)
                                    then REPLACEMENT +:+ utf8_decode r2
                                    else String b0 (String b1 (String b2
                                           (String b3 (utf8_decode r3))))
                                end
                            end
                      end
                  end
            end
        end
  end.

Definition form_decode (s : string) : string :=
  utf8_decode (percent_decode (plus_to_space s)).

Definition pair_of (piece : string) : string * string :=
  (form_decode (text_before (is_char 61) piece),
   form_decode (default EmptyString (text_after (is_char 61) piece))).

Definition searchParams (input : string) : list (string * string) :=
  match query_of input with
  | Some query =>
      pair_of <$> filter (fun piece => piece <> EmptyString) (split_at (is_char 38) query)
  | None => []
  end.

(** The value of the first pair named [name]. *)
Fixpoint first_value (name : string) (pairs : list (string * string)) : option string :=
  match pairs with
  | [] => None
  | (k, v) :: rest => if decide (k = name) then Some v else first_value name rest
  end.

Definition searchParams_get (name url : string) : option string :=
  first_value name (searchParams (url_input url)).

(** The route seen from the browser: a request to
    [/api/fetch-metadata?<query>] reaches [GET], which reads the parameter
    [campaignId] of the query, and the response carries the status and the
    JSON body.  [online] tells whether the request gets through at all. *)
Definition serve (online : bool) (PINATA_JWT : option string) (pinata : Pinata)
                 (url : string)
  : result PinataService.Response :=
  if online then
    response ← GET PINATA_JWT pinata (searchParams_get "campaignId" url);
    mret {| PinataService.status := status response;
            PinataService.json := Ok (body response) |}
  else Throw (new_Error "Failed to fetch").

(** The characters a URL carries as they are: the ASCII letters and digits,
    [-], [.], [_] and [~]. *)
Definition unreserved (c : Ascii.ascii) : bool :=
  in_range 48 57 c || in_range 65 90 c || in_range 97 122 c
  || is_char 45 c || is_char 46 c || is_char 95 c || is_char 126 c.

Fixpoint all_chars (P : Ascii.ascii -> bool) (s : string) : bool :=
  match s with
  | EmptyString => true
  | String c rest => P c && all_chars P rest
  end.

Definition url_safe (id : string) : bool := all_chars unreserved id.

End FetchRoute.


(* ===================================================================== *)
(** * Sample ledgers, stores and requests *)
(* ===================================================================== *)

Module Samples.

Import Js.
Local Open Scope Z_scope.

(** A campaign of goal [goal] wei that raised [amount] wei. *)
Definition record (goal amount deadline : Z) : Ledger.Campaign :=
  {| Ledger.creator := "0x00000000000000000000000000000000000000A1";
     Ledger.title := "Community center";
     Ledger.description := "";
     Ledger.goal := goal;
     Ledger.raised := None;
     Ledger.raisedAmount := Some amount;
     Ledger.deadline := deadline |}.

(** A ledger holding that one campaign under every id, with 3 donors. *)
Definition contract_with (c : Ledger.Campaign) : Ledger.Contract :=
  {| Ledger.getCampaign := fun _ => Ok c;
     Ledger.getDonorCount := fun _ => Ok 3;
     Ledger.campaignCount := Ok 1 |}.

(** The same ledger when the donor-count read reverts. *)
Definition contract_without_donors (c : Ledger.Campaign) : Ledger.Contract :=
  {| Ledger.getCampaign := fun _ => Ok c;
     Ledger.getDonorCount := fun _ => Throw (new_Error "call revert exception");
     Ledger.campaignCount := Ok 1 |}.

(** A ledger of four campaigns where the read of campaign 1 reverts. *)
Definition contract_of_four : Ledger.Contract :=
  {| Ledger.getCampaign := fun i =>
       if i =? 1 then Throw (new_Error "call revert exception")
       else Ok (record (10 * 10 ^ 18) (i * 10 ^ 18) 2000000000);
     Ledger.getDonorCount := fun _ => Ok 0;
     Ledger.campaignCount := Ok 4 |}.

Definition world (contract : Ledger.Contract) : Ledger.World :=
  {| Ledger.getReadOnlyContract := Ok contract;
     Ledger.gateway_get := fun _ => Throw (new_Error "Network Error") |}.

(** The clock of the samples, in seconds. *)
Definition now : Z := 1700000000.

Definition metadata (title : string) : json :=
  JObj [("campaignId", JStr "1"); ("title", JStr title)].

(** The metadata API as the browser sees it: campaigns ["A"] and ["C"] have
    metadata, ["B"] has none (404), and the request for ["D"] never gets
    through. *)
Definition fetch_ABC (url : string) : result PinataService.Response :=
  if decide (url = "/api/fetch-metadata?campaignId=A") then
    Ok {| PinataService.status := 200;
          PinataService.json := Ok (JObj [("success", JBool true);
                                          ("metadata", metadata "A")]) |}
  else if decide (url = "/api/fetch-metadata?campaignId=C") then
    Ok {| PinataService.status := 200;
          PinataService.json := Ok (JObj [("success", JBool true);
                                          ("metadata", metadata "C")]) |}
  else if decide (url = "/api/fetch-metadata?campaignId=D") then
    Throw (new_Error "Failed to fetch")
  else
    Ok {| PinataService.status := 404;
          PinataService.json := Ok (JObj [("error", JStr "Metadata not found")]) |}.

(** The public gateway: the addresses [QmA] and [QmC] resolve, every other
    request fails. *)
Definition gateway_AC (url : string) : result json :=
  if decide (url = "https://gateway.pinata.cloud/ipfs/QmA") then Ok (metadata "A")
  else if decide (url = "https://gateway.pinata.cloud/ipfs/QmC") then Ok (metadata "C")
  else Throw (new_Error "Request failed with status code 404").

Definition uris_ABC : gmap string string :=
  <["A" := "ipfs://QmA"]> (<["B" := "ipfs://QmB"]> (<["C" := "QmC"]> ∅)).

(** Two schedulers: completion in request order, and in reverse. *)
Definition in_order {A} (l : list A) : list A := l.
Definition reversed {A} (l : list A) : list A := reverse l.

(** A store where no pin carries the queried campaign id. *)
Definition pinata_empty : FetchRoute.Pinata :=
  {| FetchRoute.pinList := fun _ _ => Ok {| FetchRoute.count := 0; FetchRoute.rows := [] |};
     FetchRoute.gateway_get := fun _ => Throw (new_Error "Network Error") |}.

(** A store whose query fails. *)
Definition pinata_down : FetchRoute.Pinata :=
  {| FetchRoute.pinList := fun _ _ => Throw (new_Error "timeout of 10000ms exceeded");
     FetchRoute.gateway_get := fun _ => Throw (new_Error "Network Error") |}.

(** An upload request without a title, and a store that accepts any pin. *)
Definition request_without_title : UploadRoute.Request :=
  {| UploadRoute.json := Ok (JObj [("campaignId", JStr "7"); ("goal", JStr "1.5")]) |}.

Definition pinata_accepts (content : json) : result UploadRoute.PinataResponse :=
  Ok {| UploadRoute.IpfsHash := "QmHash" |}.

End Samples.

(* ===================================================================== *)
(** * What the pages render *)
(* ===================================================================== *)

Module CampaignDetailsScreen.

Import Js Float64 CampaignDetails.

(** The panel under the progress bar: the donate button, or the reason why
    there is none. *)
Inductive Panel :=
| DonateButton (label : string)
| Closed (text : string).

(** The three returns of the component. *)
Inductive Screen :=
| Spinner
| ErrorBox (text : string)
| Details (c : CampaignData) (panel : Panel).

(** [campaign.isActive ? <button> : <div>]. *)
Definition panel_of (isReady : bool) (c : CampaignData) : Panel :=
  if isActive c
  then DonateButton (if isReady then "Donate Now" else "Connect to Donate")
  else Closed (match status c with
               | SUCCESSFUL => "Campaign goal reached!"
               | _ => "Campaign has ended"
               end).

(** [if (loading) ...; if (error || !campaign) ...; return ...]. *)
Definition render (isReady : bool) (st : PageState) : Screen :=
  if loading st then Spinner
  else
    let error_text := from_option (fun e => or_string e "Campaign not found")
                                  "Campaign not found" (error st) in
    match campaign st with
    | Some c =>
        if from_option truthy_string false (error st)
        then ErrorBox error_text
        else Details c (panel_of isReady c)
    | None => ErrorBox error_text
    end.

End CampaignDetailsScreen.

Module CampaignsScreen.

Import Js Campaigns.

(** The four states of the list: spinner, error box with its retry button,
    the empty state, and the grid of cards. *)
Inductive Screen :=
| Spinner
| ErrorBox (text : string)
| NoCampaignsYet
| Grid (cards : list CampaignView).

(** [loading ? ... : error ? ... : campaigns.length === 0 ? ... : ...]. *)
Definition render (st : PageState) : Screen :=
  if loading st then Spinner
  else
    match error st with
    | Some e =>
        if truthy_string e then ErrorBox e
        else match campaigns st with
             | [] => NoCampaignsYet
             | _ :: _ => Grid (campaigns st)
             end
    | None =>
        match campaigns st with
        | [] => NoCampaignsYet
        | _ :: _ => Grid (campaigns st)
        end
    end.

End CampaignsScreen.

(* ===================================================================== *)
(** * Strings and numbers typed into the forms *)
(* ===================================================================== *)

Module Input.

Import Js Float64.

(** A text is the sequence of bytes of its UTF-8 encoding.

    [String.prototype.trim] removes the white space and the line
    terminators of ECMAScript from both ends.  Encoded on one byte: TAB, LF,
    VT, FF, CR and SPACE. *)
Definition white_space_1 (a : Ascii.ascii) : bool :=
  let n := Ascii.nat_of_ascii a in
  ((n =? 9) || (n =? 10) || (n =? 11) || (n =? 12) || (n =? 13) || (n =? 32))%nat.

(** On two bytes: U+00A0, the no-break space ([C2 A0]). *)
Definition white_space_2 (a b : Ascii.ascii) : bool :=
  ((Ascii.nat_of_ascii a =? 194) && (Ascii.nat_of_ascii b =? 160))%nat.

(** On three bytes: U+1680 ([E1 9A 80]), U+2000 to U+200A ([E2 80 80] to
    [E2 80 8A]), the line and paragraph separators U+2028 and U+2029
    ([E2 80 A8], [E2 80 A9]), U+202F ([E2 80 AF]), U+205F ([E2 81 9F]),
    U+3000 ([E3 80 80]) and U+FEFF ([EF BB BF]). *)
Definition white_space_3 (a b c : Ascii.ascii) : bool :=
  let x := Ascii.nat_of_ascii a in
  let y := Ascii.nat_of_ascii b in
  let z := Ascii.nat_of_ascii c in
  (((x =? 225) && (y =? 154) && (z =? 128))
   || ((x =? 226) && (y =? 128)
       && (((128 <=? z) && (z <=? 138)) || (z =? 168) || (z =? 169) || (z =? 175)))
   || ((x =? 226) && (y =? 129) && (z =? 159))
   || ((x =? 227) && (y =? 128) && (z =? 128))
   || ((x =? 239) && (y =? 187) && (z =? 191)))%nat.

(** [s] is one white space or line terminator. *)
Definition is_white_space (s : string) : bool :=
  match s with
  | String a EmptyString => white_space_1 a
  | String a (String b EmptyString) => white_space_2 a b
  | String a (String b (String c EmptyString)) => white_space_3 a b c
  | _ => false
  end.

Fixpoint trimStart (s : string) : string :=
  match s with
  | EmptyString => EmptyString
  | String a rest =>
      if white_space_1 a then trimStart rest
      else
        match rest with
        | String b rest1 =>
            if white_space_2 a b then trimStart rest1
            else
              match rest1 with
              | String c rest2 => if white_space_3 a b c then trimStart rest2 else s
              | EmptyString => s
              end
        | EmptyString => s
        end
  end.

(** From the end: what is kept of [String a rest] is [a] followed by what
    is kept of [rest], unless that is one white space as a whole. *)
Fixpoint trimEnd (s : string) : string :=
  match s with
  | EmptyString => EmptyString
  | String a rest =>
      let kept := String a (trimEnd rest) in
      if is_white_space kept then EmptyString else kept
  end.

(** [s.trim()]. *)
Definition trim (s : string) : string := trimEnd (trimStart s).

(** The functions of the platform and of ethers the handlers call:
    [parseFloat(s)], [parseEther(s)], which throws on a string it does not
    accept, and [new Date(s).getTime()], an integral number of milliseconds
    or NaN ([None]). *)
Record Library := {
  parseFloat : string -> number;
  parseEther : string -> result Z;
  Date_getTime : string -> option Z;
}.

Definition isNaN (x : number) : bool :=
  match x with
  | S754_nan => true
  | _ => false
  end.

(** [a <= b]: false as soon as one side is NaN. *)
Definition le (a b : number) : bool := SFleb a b.

(** [!x] on a number: NaN and the two zeros are falsy. *)
Definition is_falsy (x : number) : bool :=
  match x with
  | S754_nan | S754_zero _ => true
  | _ => false
  end.

(** [Math.floor(ms / 1000)] on an integral number of milliseconds within
    the range of dates (at most 8.64e15 in absolute value): the quotient in
    doubles is less than 2^43 and never rounds up to the next integer, so
    its floor is the integer quotient. *)
Definition seconds (ms : Z) : Z := (ms / 1000)%Z.

End Input.

(* ===================================================================== *)
(** * Donations from the details page *)
(* ===================================================================== *)

Module Donation.

Import Js Float64 Input.

(** What the handlers ask of the wallet and of the browser. *)
Inductive Call :=
| ConnectWallet
| Donate (campaignId : Z) (amountWei : Z)
| Reload.

(** The donation state of the component ([useState] and [useRef]) and the
    calls issued so far. *)
Record Page := {
  donationAmount : string;
  showDonateModal : bool;
  isDonating : bool;
  donationError : string;
  isExecutingRef : bool;
  calls : list Call;
}.

Definition setShowDonateModal (b : bool) (p : Page) : Page :=
  {| donationAmount := donationAmount p; showDonateModal := b;
     isDonating := isDonating p; donationError := donationError p;
     isExecutingRef := isExecutingRef p; calls := calls p |}.
Definition setIsDonating (b : bool) (p : Page) : Page :=
  {| donationAmount := donationAmount p; showDonateModal := showDonateModal p;
     isDonating := b; donationError := donationError p;
     isExecutingRef := isExecutingRef p; calls := calls p |}.
Definition setDonationError (e : string) (p : Page) : Page :=
  {| donationAmount := donationAmount p; showDonateModal := showDonateModal p;
     isDonating := isDonating p; donationError := e;
     isExecutingRef := isExecutingRef p; calls := calls p |}.
Definition setExecuting (b : bool) (p : Page) : Page :=
  {| donationAmount := donationAmount p; showDonateModal := showDonateModal p;
     isDonating := isDonating p; donationError := donationError p;
     isExecutingRef := b; calls := calls p |}.
Definition record_call (c : Call) (p : Page) : Page :=
  {| donationAmount := donationAmount p; showDonateModal := showDonateModal p;
     isDonating := isDonating p; donationError := donationError p;
     isExecutingRef := isExecutingRef p; calls := calls p ++ [c] |}.

(** [actions] of the wallet context, when the wallet is connected: the
    outcome of [actions.donate(campaignId, amountWei)]. *)
Record Actions := { donate : Z -> Z -> result unit }.

(** A call that is recorded and answered. *)
Definition call {A} (c : Call) (outcome : result A) : M Page A :=
  fun p => (outcome, record_call c p).

(** [handleDonateClick]. *)
Definition handleDonateClick (isReady : bool) : M Page unit :=
  if negb isReady then call ConnectWallet (Ok tt)
  else modify (setShowDonateModal true);; modify (setDonationError "").

(** [executeDonation]; [campaign] is the view on display and the amount is
    the one typed in the modal. *)
Definition executeDonation (lib : Library) (actions : option Actions)
                           (campaign : option CampaignDetails.CampaignData)
  : M Page unit :=
  fun p =>
    match actions, campaign with
    | Some actions, Some campaign =>
        if isExecutingRef p then (Ok tt, p)
        else
          let amount := parseFloat lib (donationAmount p) in
          if is_falsy amount || le amount zero
          then modify (setDonationError "Please enter a valid amount") p
          else
            (modify (setExecuting true);;
             modify (setIsDonating true);;
             modify (setDonationError "");;
             try_finally
               (try_catch_M
                  (amountWei ← lift (parseEther lib (donationAmount p));
                   call (Donate (CampaignDetails.id campaign) amountWei)
                        (donate actions (CampaignDetails.id campaign) amountWei);;
                   call Reload (Ok tt))
                  (fun err =>
                     modify (setDonationError (or_string (message err) "Donation failed"))))
               (modify (setIsDonating false);;
                modify (setExecuting false))) p
    | _, _ => (Ok tt, p)
    end.

End Donation.

(* ===================================================================== *)
(** * Pinata client service: upload *)
(* ===================================================================== *)

Module PinataUpload.

Import Js.

(** The endpoint the first version of the service posts to, and the one the
    second version posts to. *)
Definition ENDPOINT_BY_URI : string := "/api/pinata/upload".
Definition ENDPOINT : string := "/api/upload-metadata".

(** [uploadMetadataToPinata(metadata)], the same in both versions but for
    the endpoint.  [fetch url body] is the POST of the body, which rejects on
    a network failure; the body travels as JSON text and is given here as the
    value it denotes. *)
Definition uploadMetadataToPinata {S} (endpoint : string)
                                  (fetch : string -> json -> M S PinataService.Response)
                                  (metadata : json)
  : M S (option json) :=
  try_catch_M
    (response ← fetch endpoint metadata;
     if negb (PinataService.ok response) then
       error ← lift (PinataService.json response);
       details ← lift (get error "details");
       reason ← lift (if truthy details then mret details
                      else error' ← get error "error";
                           mret (or_value error' (Some (JStr "Upload failed"))));
       lift (Throw (new_Error (from_option String_of "undefined" reason)))
     else
       data ← lift (PinataService.json response);
       ipfsUri ← lift (get data "ipfsUri");
       mret ipfsUri)
    (fun error => lift (Throw (new_Error "Failed to upload metadata to IPFS"))).

(** The upload route seen from the browser: the request reaches [POST] with
    the body that was sent, and the response carries the status and the JSON
    body of the answer. *)
Definition serve (PINATA_JWT : option string)
                 (pinata : json -> result UploadRoute.PinataResponse)
                 (Date_now : Z) (url : string) (body : json)
  : M (list UploadRoute.Event) PinataService.Response :=
  response ← UploadRoute.POST PINATA_JWT pinata Date_now {| UploadRoute.json := Ok body |};
  mret {| PinataService.status := Route.status response;
          PinataService.json := Ok (Route.body response) |}.

End PinataUpload.

(* ===================================================================== *)
(** * Campaign creation page *)
(* ===================================================================== *)

Module CreateCampaign.

Import Js Float64 Input.

(** The six fields of the form. *)
Record Fields := {
  title : string;
  description : string;
  videoUrl : string;
  imageUrl : string;
  goal : string;
  deadline : string;
}.

(** The arguments of [actions.createCampaign]. *)
Record Transaction := {
  tx_title : string;
  tx_description : string;
  tx_videoUrl : string;
  tx_imageUrl : string;
  tx_goalWei : Z;
  tx_deadline : Z;
}.

(** A value read from an event log: [undefined], [null] or a [bigint]. *)
Inductive Field :=
| Undefined
| Null
| BigInt (n : Z).

Definition is_undefined (v : Field) : bool :=
  match v with
  | Undefined => true
  | _ => false
  end.

(** A log of the receipt, as the loop reads it: [log.fragment?.name] and
    [log.args?.campaignId]. *)
Record Log := {
  fragment_name : option string;
  args_campaignId : Field;
}.

(** The receipt: [logs] may be missing, and an entry may be [null]. *)
Record Receipt := { logs : option (list (option Log)) }.

(** What the page asks of the wallet, of the service and of the router. *)
Inductive Call :=
| ConnectWallet
| CreateCampaignTx (tx : Transaction)
| UploadMetadata (metadata : json)
| RouterPush (href : string).

(** The state of the component ([useState] and [useRef]) and the calls
    issued so far. *)
Record Page := {
  fields : Fields;
  showConfirmModal : bool;
  isProcessing : bool;
  walletMissing : bool;
  errorMessage : string;
  isExecutingRef : bool;
  calls : list Call;
}.

Definition setFields (f : Fields) (p : Page) : Page :=
  {| fields := f; showConfirmModal := showConfirmModal p;
     isProcessing := isProcessing p; walletMissing := walletMissing p;
     errorMessage := errorMessage p; isExecutingRef := isExecutingRef p;
     calls := calls p |}.
Definition setShowConfirmModal (b : bool) (p : Page) : Page :=
  {| fields := fields p; showConfirmModal := b;
     isProcessing := isProcessing p; walletMissing := walletMissing p;
     errorMessage := errorMessage p; isExecutingRef := isExecutingRef p;
     calls := calls p |}.
Definition setIsProcessing (b : bool) (p : Page) : Page :=
  {| fields := fields p; showConfirmModal := showConfirmModal p;
     isProcessing := b; walletMissing := walletMissing p;
     errorMessage := errorMessage p; isExecutingRef := isExecutingRef p;
     calls := calls p |}.
Definition setWalletMissing (b : bool) (p : Page) : Page :=
  {| fields := fields p; showConfirmModal := showConfirmModal p;
     isProcessing := isProcessing p; walletMissing := b;
     errorMessage := errorMessage p; isExecutingRef := isExecutingRef p;
     calls := calls p |}.
Definition setErrorMessage (e : string) (p : Page) : Page :=
  {| fields := fields p; showConfirmModal := showConfirmModal p;
     isProcessing := isProcessing p; walletMissing := walletMissing p;
     errorMessage := e; isExecutingRef := isExecutingRef p;
     calls := calls p |}.
Definition setExecuting (b : bool) (p : Page) : Page :=
  {| fields := fields p; showConfirmModal := showConfirmModal p;
     isProcessing := isProcessing p; walletMissing := walletMissing p;
     errorMessage := errorMessage p; isExecutingRef := b;
     calls := calls p |}.
Definition record_call (c : Call) (p : Page) : Page :=
  {| fields := fields p; showConfirmModal := showConfirmModal p;
     isProcessing := isProcessing p; walletMissing := walletMissing p;
     errorMessage := errorMessage p; isExecutingRef := isExecutingRef p;
     calls := calls p ++ [c] |}.

(** A call that is recorded and answered. *)
Definition call {A} (c : Call) (outcome : result A) : M Page A :=
  fun p => (outcome, record_call c p).

(** [actions] of the wallet context: the outcome of
    [actions.createCampaign(...)], a receipt that may be [null]. *)
Record Actions := { createCampaign : Transaction -> result (option Receipt) }.

(** The wallet context of the render: [isReady], [actions] and the outcome
    of [connectWallet()]. *)
Record Wallet := {
  isReady : bool;
  actions : option Actions;
  connectWallet : result unit;
}.

(** [validateGoal]. *)
Definition validateGoal (lib : Library) (goal : string) : result Z :=
  if negb (truthy_string goal) || negb (truthy_string (trim goal))
  then Throw (new_Error "Goal amount is required.")
  else
    let goalValue := parseFloat lib goal in
    if isNaN goalValue || le goalValue zero
    then Throw (new_Error "Goal must be greater than 0 ETH.")
    else
      try_catch (parseEther lib goal)
        (fun _ => Throw (new_Error "Invalid goal format. Use numbers only (e.g., 1.5).")).

(** [validateDeadline], with [Date_now] the clock in milliseconds. *)
Definition validateDeadline (lib : Library) (Date_now : Z) (deadline : string)
  : result Z :=
  if negb (truthy_string deadline)
  then Throw (new_Error "Deadline is required.")
  else
    let timestamp := seconds <$> Date_getTime lib deadline in
    let now := seconds Date_now in
    match timestamp with
    | None => Throw (new_Error "Deadline must be a valid future date.")
    | Some timestamp =>
        if (timestamp <=? now)%Z
        then Throw (new_Error "Deadline must be a valid future date.")
        else Ok timestamp
    end.

(** [resetForm]. *)
Definition resetForm : M Page unit :=
  modify (setFields {| title := ""; description := ""; videoUrl := "";
                       imageUrl := ""; goal := ""; deadline := "" |});;
  modify (setErrorMessage "").

(** [handleSubmit]; the handler reads the fields of the render it belongs
    to, which are those of the state when the form is submitted. *)
Definition handleSubmit (lib : Library) (wallet : Wallet) (Date_now : Z)
  : M Page unit :=
  fun p =>
    let f := fields p in
    (modify (setErrorMessage "");;
     if negb (truthy_string (trim (title f)))
     then modify (setErrorMessage "Title is required.")
     else
       match validateGoal lib (goal f) with
       | Throw err => modify (setErrorMessage (message err))
       | Ok _ =>
           match validateDeadline lib Date_now (deadline f) with
           | Throw err => modify (setErrorMessage (message err))
           | Ok _ =>
               if negb (isReady wallet) || negb (bool_decide (is_Some (actions wallet)))
               then modify (setWalletMissing true);;
                    modify (setShowConfirmModal true)
               else modify (setWalletMissing false);;
                    modify (setShowConfirmModal true)
           end
       end) p.

(** The loop over [receipt.logs || []]: the id of the first log named
    [CampaignCreated] whose [campaignId] is not [undefined]; reading a
    [null] entry throws. *)
Fixpoint scan (logs : list (option Log)) : result Field :=
  match logs with
  | [] => Ok Undefined
  | None :: _ =>
      Throw (new_Error "Cannot read properties of null (reading 'fragment')")
  | Some log :: rest =>
      if bool_decide (fragment_name log = Some "CampaignCreated") &&
         negb (is_undefined (args_campaignId log))
      then Ok (args_campaignId log)
      else scan rest
  end.

(** The [campaignId] left by the [try] around the loop: it is only assigned
    on the way out of the loop, so an exception leaves it [undefined]. *)
Definition extract_campaignId (receipt : option Receipt) : Field :=
  match receipt with
  | None => Undefined
  | Some receipt =>
      match scan (from_option (fun l => l) [] (logs receipt)) with
      | Ok campaignId => campaignId
      | Throw _ => Undefined
      end
  end.

(** The object handed to [uploadMetadataToPinata]. *)
Definition metadata_of (f : Fields) (campaignId deadlineTimestamp : Z) : json :=
  JObj [("campaignId", JStr (pretty campaignId));
        ("title", JStr (trim (title f)));
        ("description", JStr (trim (description f)));
        ("imageUrl", JStr (trim (imageUrl f)));
        ("videoUrl", JStr (trim (videoUrl f)));
        ("goal", JStr (goal f));
        ("deadline", JNum deadlineTimestamp)].

(** [executeCreateCampaign]; [uploadMetadataToPinata] is the function of the
    client service. *)
Definition executeCreateCampaign (lib : Library) (wallet : Wallet) (Date_now : Z)
                                 (uploadMetadataToPinata : json -> M Page (option json))
  : M Page unit :=
  fun p =>
    let f := fields p in
    if isExecutingRef p then (Ok tt, p)
    else if walletMissing p then
      (modify (setShowConfirmModal false);;
       modify (setIsProcessing true);;
       try_finally
         (try_catch_M
            (call ConnectWallet (connectWallet wallet);;
             modify (setWalletMissing false);;
             modify (setShowConfirmModal true))
            (fun _ =>
               modify (setErrorMessage "Failed to connect wallet. Please try again.")))
         (modify (setIsProcessing false))) p
    else
      match (goalWei ← validateGoal lib (goal f);
             deadlineTimestamp ← validateDeadline lib Date_now (deadline f);
             mret (goalWei, deadlineTimestamp)) with
      | Throw err =>
          (modify (setErrorMessage (message err));;
           modify (setShowConfirmModal false)) p
      | Ok (goalWei, deadlineTimestamp) =>
          (modify (setExecuting true);;
           modify (setIsProcessing true);;
           modify (setShowConfirmModal false);;
           try_finally
             (try_catch_M
                (actions ← lift (match actions wallet with
                                 | Some actions => Ok actions
                                 | None => Throw (new_Error
                                     "Cannot read properties of null (reading 'createCampaign')")
                                 end);
                 let tx := {| tx_title := trim (title f);
                              tx_description := trim (description f);
                              tx_videoUrl := trim (videoUrl f);
                              tx_imageUrl := trim (imageUrl f);
                              tx_goalWei := goalWei;
                              tx_deadline := deadlineTimestamp |} in
                 receipt ← call (CreateCampaignTx tx) (createCampaign actions tx);
                 match extract_campaignId receipt with
                 | BigInt campaignId =>
                     try_catch_M
                       (uploadMetadataToPinata (metadata_of f campaignId deadlineTimestamp);;
                        mret tt)
                       (fun metadataErr => mret tt)
                 | Undefined | Null => mret tt
                 end;;
                 resetForm;;
                 call (RouterPush "/campaigns") (Ok tt))
                (fun err =>
                   modify (setErrorMessage
                             (or_string (message err)
                                "Failed to create campaign. Please try again."));;
                   modify (setShowConfirmModal false)))
             (modify (setIsProcessing false);;
              modify (setExecuting false))) p
      end.

(** The client service as the page reaches it: the upload is recorded, and
    its request is answered by [fetch]. *)
Definition upload_through (endpoint : string)
                          (fetch : string -> json -> result PinataService.Response)
                          (metadata : json)
  : M Page (option json) :=
  PinataUpload.uploadMetadataToPinata endpoint
    (fun url body => call (UploadMetadata body) (fetch url body)) metadata.

End CreateCampaign.

(* ===================================================================== *)
(** * Lower bounds on doubles *)
(* ===================================================================== *)

Module Float64Bounds.

Import Float64.
Local Open Scope Z_scope.

(** A mantissa of exactly 53 bits. *)
Definition canonical (m : positive) : Prop := 2 ^ 52 <= Z.pos m < 2 ^ 53.

(** [x] is [+Infinity], or a normal positive number that is at least
    [M * 2 ^ E]. *)
Definition above (M : Z) (E : Z) (x : number) : Prop :=
  match x with
  | S754_infinity false => True
  | S754_finite false m e => canonical m /\ (E < e \/ (E = e /\ M <= Z.pos m))
  | _ => False
  end.

End Float64Bounds.

(* ===================================================================== *)
(** * More samples *)
(* ===================================================================== *)

Module MoreSamples.

Import Js.
Local Open Scope Z_scope.

(** An upload request whose body claims a creation time of its own. *)
Definition forged_fields : list (string * json) :=
  [("campaignId", JStr "7"); ("title", JStr "Community center");
   ("createdAt", JNum 1)].

Definition request_with_createdAt : UploadRoute.Request :=
  {| UploadRoute.json := Ok (JObj forged_fields) |}.

(** The platform functions on the strings of the samples: the goal
    ["1.5"] and the deadline ["2033-05-18T03:33"] (UTC). *)
Definition library : Input.Library :=
  {| Input.parseFloat := fun s =>
       if decide (s = "1.5") then S754_finite false 6755399441055744 (-52)
       else S754_nan;
     Input.parseEther := fun s =>
       if decide (s = "1.5") then Ok 1500000000000000000
       else Throw (new_Error "invalid FixedNumber string value");
     Input.Date_getTime := fun s =>
       if decide (s = "2033-05-18T03:33") then Some 1999999980000 else None |}.

(** The clock of the samples, in milliseconds. *)
Definition Date_now : Z := 1700000000000.

(** A receipt whose second log is the [CampaignCreated] event of campaign
    [id]. *)
Definition receipt_created (id : Z) : CreateCampaign.Receipt :=
  {| CreateCampaign.logs :=
       Some [Some {| CreateCampaign.fragment_name := Some "Transfer";
                     CreateCampaign.args_campaignId := CreateCampaign.Undefined |};
             Some {| CreateCampaign.fragment_name := Some "CampaignCreated";
                     CreateCampaign.args_campaignId := CreateCampaign.BigInt id |}] |}.

Definition actions_creating (id : Z) : CreateCampaign.Actions :=
  {| CreateCampaign.createCampaign := fun _ => Ok (Some (receipt_created id)) |}.

(** A connected wallet whose transactions create campaign 7. *)
Definition wallet : CreateCampaign.Wallet :=
  {| CreateCampaign.isReady := true;
     CreateCampaign.actions := Some (actions_creating 7);
     CreateCampaign.connectWallet := Ok tt |}.

Definition form : CreateCampaign.Fields :=
  {| CreateCampaign.title := " Community center ";
     CreateCampaign.description := "A place to meet";
     CreateCampaign.videoUrl := "";
     CreateCampaign.imageUrl := "";
     CreateCampaign.goal := "1.5";
     CreateCampaign.deadline := "2033-05-18T03:33" |}.

(** The creation page with the form filled and the confirmation open. *)
Definition confirming : CreateCampaign.Page :=
  {| CreateCampaign.fields := form;
     CreateCampaign.showConfirmModal := true;
     CreateCampaign.isProcessing := false;
     CreateCampaign.walletMissing := false;
     CreateCampaign.errorMessage := "";
     CreateCampaign.isExecutingRef := false;
     CreateCampaign.calls := [] |}.

(** The transaction that page sends. *)
Definition transaction : CreateCampaign.Transaction :=
  {| CreateCampaign.tx_title := "Community center";
     CreateCampaign.tx_description := "A place to meet";
     CreateCampaign.tx_videoUrl := "";
     CreateCampaign.tx_imageUrl := "";
     CreateCampaign.tx_goalWei := 1500000000000000000;
     CreateCampaign.tx_deadline := 1999999980 |}.

(** An upload endpoint that cannot be reached. *)
Definition fetch_down (url : string) (body : json) : result PinataService.Response :=
  Throw (new_Error "Failed to fetch").

(** U+00A0, the no-break space, and U+3000, the ideographic space. *)
Definition NBSP : string :=
  String (Ascii.ascii_of_nat 194) (String (Ascii.ascii_of_nat 160) EmptyString).
Definition IDEOGRAPHIC_SPACE : string :=
  String (Ascii.ascii_of_nat 227)
    (String (Ascii.ascii_of_nat 128) (String (Ascii.ascii_of_nat 128) EmptyString)).

(** An upload request whose campaignId is the number 10^21. *)
Definition request_with_number : UploadRoute.Request :=
  {| UploadRoute.json :=
       Ok (JObj [("campaignId", JNum (10 ^ 21)); ("title", JStr "Community center")]) |}.

(** A store that lists one pin for campaign 7 and none for the others; the
    gateway serves the content of that pin. *)
Definition pinata_with_pin : FetchRoute.Pinata :=
  {| FetchRoute.pinList := fun campaignId _ =>
       if decide (campaignId = "7")
       then Ok {| FetchRoute.count := 1;
                  FetchRoute.rows := [{| FetchRoute.ipfs_pin_hash := "QmHash" |}] |}
       else Ok {| FetchRoute.count := 0; FetchRoute.rows := [] |};
     FetchRoute.gateway_get := fun url =>
       if decide (url = "https://gateway.pinata.cloud/ipfs/QmHash")
       then Ok (Samples.metadata "Community center")
       else Throw (new_Error "Request failed with status code 404") |}.

End MoreSamples.
(* ===================================================================== *)
(** * Facts about binary64 rounding *)
(* ===================================================================== *)

Module Float64Facts.

Import Float64.
Local Open Scope Z_scope.

(** ** Number of binary digits *)

Lemma digits2_pos_size p : digits2_pos p = Pos.size p.
Proof. induction p; simpl; congruence. Qed.

Lemma Zdigits2_bounds m : 0 < m -> 2 ^ (Zdigits2 m - 1) <= m < 2 ^ Zdigits2 m.
Proof.
  destruct m as [|p|p]; try lia. intros _. simpl. rewrite digits2_pos_size.
  pose proof (Pos.size_gt p) as Hgt. pose proof (Pos.size_le p) as Hle.
  split.
  - assert (2 ^ Z.pos (Pos.size p) <= 2 * Z.pos p) as H.
    { change (2 * Z.pos p) with (Z.pos p~0). rewrite <- Pos2Z.inj_pow.
      apply Pos2Z.pos_le_pos. exact Hle. }
    replace (Z.pos (Pos.size p)) with (Z.succ (Z.pos (Pos.size p) - 1)) in H by lia.
    rewrite Z.pow_succ_r in H by lia. lia.
  - change 2 with (Z.pos 2). rewrite <- Pos2Z.inj_pow.
    apply Pos2Z.pos_lt_pos. exact Hgt.
Qed.

Lemma Zdigits2_nonneg m : 0 <= Zdigits2 m.
Proof. destruct m; simpl; lia. Qed.

Lemma Zdigits2_le_of_lt m k : 0 <= m -> 0 <= k -> m < 2 ^ k -> Zdigits2 m <= k.
Proof.
  intros Hm Hk Hlt. destruct (Z.eq_dec m 0) as [->|Hne]; [simpl; lia|].
  assert (0 < m) as Hpos by lia.
  destruct (Zdigits2_bounds m Hpos) as [Hlo _].
  destruct (Z_le_gt_dec (Zdigits2 m) k) as [|Hgt]; [assumption|exfalso].
  assert (2 ^ k <= 2 ^ (Zdigits2 m - 1)) by (apply Z.pow_le_mono_r; lia).
  lia.
Qed.

(** ** Right shifts of the mantissa *)

Lemma shr_1_m mrs : 0 <= shr_m mrs -> shr_m (shr_1 mrs) = shr_m mrs / 2.
Proof.
  destruct mrs as [m r s]. simpl. intros Hm.
  destruct m as [|p|p]; [reflexivity| |lia].
  destruct p as [p|p|]; simpl.
  - rewrite Pos2Z.inj_xI. apply Z.div_unique with (r := 1); lia.
  - rewrite Pos2Z.inj_xO. apply Z.div_unique with (r := 0); lia.
  - reflexivity.
Qed.

Lemma iter_pos_shr_1_m p : forall mrs, 0 <= shr_m mrs ->
  shr_m (SpecFloat.iter_pos shr_1 p mrs) = shr_m mrs / 2 ^ Z.pos p.
Proof.
  induction p as [p IH|p IH|]; intros mrs Hm; simpl SpecFloat.iter_pos.
  - assert (0 <= shr_m (shr_1 mrs)) as H1
      by (rewrite shr_1_m by assumption; apply Z.div_pos; lia).
    assert (0 <= shr_m (SpecFloat.iter_pos shr_1 p (shr_1 mrs))) as H2
      by (rewrite IH by assumption; apply Z.div_pos; lia).
    rewrite IH by assumption. rewrite IH by assumption. rewrite shr_1_m by assumption.
    rewrite !Z.div_div by lia. f_equal.
    replace (Z.pos p~1) with (1 + Z.pos p + Z.pos p) by lia.
    rewrite !Z.pow_add_r by lia. lia.
  - assert (0 <= shr_m (SpecFloat.iter_pos shr_1 p mrs)) as H2
      by (rewrite IH by assumption; apply Z.div_pos; lia).
    rewrite IH by assumption. rewrite IH by assumption.
    rewrite !Z.div_div by lia. f_equal.
    replace (Z.pos p~0) with (Z.pos p + Z.pos p) by lia.
    rewrite !Z.pow_add_r by lia. lia.
  - rewrite shr_1_m by assumption. reflexivity.
Qed.

Lemma shr_record_of_loc_m m l : shr_m (shr_record_of_loc m l) = m.
Proof. destruct l as [|[]]; reflexivity. Qed.

Lemma fexp_eq e : fexp prec emax e = Z.max (e - 53) (-1074).
Proof. reflexivity. Qed.

(** What [shr_fexp] does to a non-negative mantissa: it divides it by a
    power of two and raises the exponent by as much. *)
Lemma shr_fexp_spec m e l :
  0 <= m ->
  let n := fexp prec emax (Zdigits2 m + e) - e in
  shr_m (fst (shr_fexp prec emax m e l)) = m / 2 ^ Z.max 0 n /\
  snd (shr_fexp prec emax m e l) = e + Z.max 0 n.
Proof.
  intros Hm n. unfold shr_fexp. fold n. unfold shr.
  destruct n as [|p|p] eqn:En; simpl fst; simpl snd.
  - rewrite shr_record_of_loc_m. simpl. rewrite Z.div_1_r. lia.
  - rewrite iter_pos_shr_1_m by (rewrite shr_record_of_loc_m; assumption).
    rewrite shr_record_of_loc_m. rewrite Z.max_r by lia. split; reflexivity.
  - rewrite shr_record_of_loc_m. rewrite Z.max_l by lia. simpl.
    rewrite Z.div_1_r. lia.
Qed.

(** One shift: the mantissa stays non-negative, does not vanish when the
    exponent is above the subnormal one, and the new exponent is bounded by
    the size of the input. *)
Lemma shr_fexp_facts m e l :
  0 <= m ->
  let m1 := shr_m (fst (shr_fexp prec emax m e l)) in
  let e1 := snd (shr_fexp prec emax m e l) in
  0 <= m1 <= m /\ e <= e1 /\
  (0 < m -> -1074 <= e -> 0 < m1) /\
  (forall k, 0 <= k -> m < 2 ^ k -> e1 <= Z.max e (Z.max (k + e - 53) (-1074))).
Proof.
  intros Hm m1 e1. destruct (shr_fexp_spec m e l Hm) as [Hm1 He1].
  fold m1 in Hm1. fold e1 in He1. rewrite fexp_eq in Hm1, He1.
  set (n := Z.max (Zdigits2 m + e - 53) (-1074) - e) in *.
  assert (0 < 2 ^ Z.max 0 n) as Hpow by (apply Z.pow_pos_nonneg; lia).
  repeat split.
  - rewrite Hm1. apply Z.div_pos; lia.
  - rewrite Hm1. apply Z.div_le_upper_bound; [lia|]. nia.
  - lia.
  - intros Hpos He. rewrite Hm1. apply Z.div_str_pos. split; [lia|].
    destruct (Z_le_gt_dec n 0) as [Hn|Hn].
    + rewrite Z.max_l by lia. simpl. lia.
    + rewrite Z.max_r by lia.
      destruct (Zdigits2_bounds m Hpos) as [Hlo _].
      assert (n = Zdigits2 m - 53) as Hn' by lia.
      etransitivity; [|exact Hlo]. apply Z.pow_le_mono_r; lia.
  - intros k Hk Hlt. pose proof (Zdigits2_le_of_lt m k Hm Hk Hlt). lia.
Qed.

Lemma round_nearest_even_bounds m l : m <= round_nearest_even m l <= m + 1.
Proof. destruct l as [|[]]; simpl; try lia. destruct (Z.even m); lia. Qed.

(** ** Rounding to the format *)

Lemma binary_round_aux_spec s mx ex lx :
  0 <= mx ->
  exists m2 e2,
    binary_round_aux prec emax s mx ex lx = round_result s m2 e2 /\
    0 <= m2 /\
    (0 < mx -> -1074 <= ex -> 0 < m2) /\
    (forall k E, 53 <= k -> mx < 2 ^ k -> -1074 <= E -> ex <= E ->
                 e2 <= 2 * k + E - 105).
Proof.
  intros Hm. unfold binary_round_aux.
  pose proof (shr_fexp_facts mx ex lx Hm) as H1. cbv zeta in H1.
  destruct (shr_fexp prec emax mx ex lx) as [mrs1 e1].
  simpl fst in H1. simpl snd in H1.
  destruct H1 as ([Hm1 Hm1'] & He1 & Hpos1 & Hb1).
  set (m1' := round_nearest_even (shr_m mrs1) (loc_of_shr_record mrs1)).
  pose proof (round_nearest_even_bounds (shr_m mrs1) (loc_of_shr_record mrs1)) as Hr.
  fold m1' in Hr.
  assert (0 <= m1') as Hm1'' by lia.
  pose proof (shr_fexp_facts m1' e1 loc_Exact Hm1'') as H2. cbv zeta in H2.
  destruct (shr_fexp prec emax m1' e1 loc_Exact) as [mrs2 e2].
  simpl fst in H2. simpl snd in H2.
  destruct H2 as ([Hm2 Hm2'] & He2 & Hpos2 & Hb2).
  exists (shr_m mrs2), e2. split; [reflexivity|]. split; [assumption|]. split.
  - intros Hpos He. apply Hpos2; lia.
  - intros k E Hk Hlt HE HeE.
    assert (e1 <= k + E - 53) as He1b.
    { specialize (Hb1 k ltac:(lia) Hlt). lia. }
    assert (m1' < 2 ^ (k + 1)) as Hlt'.
    { rewrite Z.pow_add_r by lia. simpl (2 ^ 1). lia. }
    specialize (Hb2 (k + 1) ltac:(lia) Hlt'). lia.
Qed.

Lemma round_result_sign s m2 e2 : 0 <= m2 -> sign_is s (round_result s m2 e2).
Proof.
  intros H. destruct m2 as [|p|p]; simpl; try reflexivity; try lia.
  destruct (e2 <=? emax - prec); reflexivity.
Qed.

Lemma round_result_finite_nonzero s m2 e2 :
  0 < m2 -> e2 <= emax - prec -> finite_nonzero s (round_result s m2 e2).
Proof.
  intros H He. destruct m2 as [|p|p]; simpl; try lia.
  destruct (Z.leb_spec e2 (emax - prec)); [reflexivity|lia].
Qed.

Lemma binary_round_aux_sign s mx ex lx :
  0 <= mx -> sign_is s (binary_round_aux prec emax s mx ex lx).
Proof.
  intros Hm. destruct (binary_round_aux_spec s mx ex lx Hm) as (m2 & e2 & -> & H & _).
  apply round_result_sign. assumption.
Qed.

(** ** Division core *)

Lemma SFdiv_core_binary_spec m1 e1 m2 e2 :
  0 <= m1 -> 0 < m2 ->
  let e' := Z.min (fexp prec emax (Zdigits2 m1 + e1 - (Zdigits2 m2 + e2))) (e1 - e2) in
  exists l, SFdiv_core_binary prec emax m1 e1 m2 e2 =
            (m1 * 2 ^ (e1 - e2 - e') / m2, e', l).
Proof.
  intros H1 H2 e'. unfold SFdiv_core_binary. fold e'.
  set (s := e1 - e2 - e').
  assert (0 <= s) as Hs by (unfold s, e'; lia).
  set (m' := match s with Z.pos _ => Z.shiftl m1 s | 0 => m1 | Z.neg _ => 0 end).
  assert (m' = m1 * 2 ^ s) as Hm'.
  { unfold m'. destruct s as [|p|p] eqn:Es; [simpl; lia| |lia].
    rewrite Z.shiftl_mul_pow2 by lia. reflexivity. }
  unfold Z.div. rewrite <- Hm'.
  destruct (Z.div_eucl m' m2) as [q r]. eexists. reflexivity.
Qed.

(** ** [Number] on the strings of [formatEther] *)

Lemma Number_spec (s : EtherString) :
  0 < wei s ->
  exists m2 e2, Number s = round_result false m2 e2 /\ 0 < m2 /\
                (wei s < 2 ^ 256 -> e2 <= emax - prec).
Proof.
  intros Hpos. unfold Number. destruct (wei s) as [|p|p]; try lia.
  destruct (SFdiv_core_binary_spec (Z.pos p) 0 ETHER 0 ltac:(lia) ltac:(reflexivity))
    as [l Hl].
  cbv zeta in Hl. rewrite Hl. clear Hl.
  change (Zdigits2 ETHER + 0) with 60. rewrite fexp_eq.
  destruct (Zdigits2_bounds (Z.pos p) Hpos) as [Hlo Hhi].
  pose proof (Zdigits2_nonneg (Z.pos p)) as Hd.
  set (d := Zdigits2 (Z.pos p)) in *.
  assert (1 <= d) as Hd1.
  { destruct (Z_le_gt_dec 1 d); [assumption|].
    assert (d = 0) as Hd0 by lia. rewrite Hd0 in Hhi. simpl in Hhi. lia. }
  set (e' := Z.min (Z.max (d + 0 - 60 - 53) (-1074)) (0 - 0)).
  set (q := Z.pos p * 2 ^ (0 - 0 - e') / ETHER).
  assert (-112 <= e' <= 0) as He' by (unfold e'; lia).
  assert (2 ^ 112 <= Z.pos p * 2 ^ (0 - 0 - e')) as Hbig.
  { destruct (Z_le_gt_dec 113 d) as [Hc|Hc].
    - assert (e' = 0) as -> by (unfold e'; lia). simpl (2 ^ _).
      assert (2 ^ 112 <= 2 ^ (d - 1)) by (apply Z.pow_le_mono_r; lia). lia.
    - assert (e' = d - 113) as -> by (unfold e'; lia).
      replace (0 - 0 - (d - 113)) with (113 - d) by lia.
      replace 112 with ((d - 1) + (113 - d)) at 1 by lia.
      rewrite Z.pow_add_r by lia.
      apply Z.mul_le_mono_nonneg_r; [apply Z.pow_nonneg; lia|assumption]. }
  assert (0 < q) as Hq.
  { unfold q. apply Z.div_str_pos. split; [reflexivity|].
    etransitivity; [|exact Hbig]. unfold ETHER. vm_compute. discriminate. }
  destruct (binary_round_aux_spec false q e' l ltac:(lia))
    as (m2 & e2 & Heq & Hm2 & Hp & Hb).
  exists m2, e2. split; [exact Heq|]. split; [apply Hp; lia|].
  intros Hlt.
  assert (q < 2 ^ 369) as Hq369.
  { unfold q. apply Z.div_lt_upper_bound; [reflexivity|].
    assert (Z.pos p * 2 ^ (0 - 0 - e') < 2 ^ 369); [|unfold ETHER; lia].
    replace 369 with (256 + 113) by lia. rewrite Z.pow_add_r by lia.
    assert (2 ^ (0 - 0 - e') <= 2 ^ 113) by (apply Z.pow_le_mono_r; lia).
    assert (0 < 2 ^ (0 - 0 - e')) by (apply Z.pow_pos_nonneg; lia).
    nia. }
  specialize (Hb 369 0 ltac:(lia) Hq369 ltac:(lia) ltac:(lia)).
  change (emax - prec) with 971. lia.
Qed.

Lemma Number_zero (s : EtherString) : wei s = 0 -> Number s = zero.
Proof. intros H. unfold Number. rewrite H. reflexivity. Qed.

Lemma Number_sign (s : EtherString) : 0 <= wei s -> sign_is false (Number s).
Proof.
  intros H. destruct (Z.eq_dec (wei s) 0) as [H0|H0].
  - rewrite Number_zero by assumption. reflexivity.
  - destruct (Number_spec s ltac:(lia)) as (m2 & e2 & -> & Hm2 & _).
    apply round_result_sign. lia.
Qed.

Lemma Number_finite_nonzero (s : EtherString) :
  0 < wei s < 2 ^ 256 -> finite_nonzero false (Number s).
Proof.
  intros [H1 H2]. destruct (Number_spec s H1) as (m2 & e2 & -> & Hm2 & He2).
  apply round_result_finite_nonzero; auto.
Qed.

Lemma Number_is_finite (s : EtherString) : uint256 (wei s) -> is_finite (Number s) = true.
Proof.
  intros [H1 H2]. destruct (Z.eq_dec (wei s) 0) as [H0|H0].
  - rewrite Number_zero by assumption. reflexivity.
  - pose proof (Number_finite_nonzero s ltac:(lia)) as H.
    destruct (Number s); simpl in H; try contradiction. reflexivity.
Qed.

(** ** Comparison, division, multiplication and [Math.min] on non-negative
    numbers *)

Lemma ge_zero_of_sign x : sign_is false x -> ge x zero = true.
Proof. destruct x as [[]|[]| |[] m e]; simpl; intros H; try discriminate; try contradiction; reflexivity. Qed.

Lemma gt_zero_of_finite_nonzero x : finite_nonzero false x -> gt x zero = true.
Proof. destruct x as [[]|[]| |[] m e]; simpl; intros H; try discriminate; try contradiction; reflexivity. Qed.

Lemma SFcompare_refl x : x <> S754_nan -> SFcompare x x = Some Eq.
Proof.
  destruct x as [s|[]| |[] m e]; simpl; intros H; try reflexivity; try congruence.
  - rewrite Z.compare_refl. rewrite Pos.compare_cont_refl. reflexivity.
  - rewrite Z.compare_refl. rewrite Pos.compare_cont_refl. reflexivity.
Qed.

Lemma ge_refl x : x <> S754_nan -> ge x x = true.
Proof. intros H. unfold ge, SFleb. rewrite SFcompare_refl by assumption. reflexivity. Qed.

Lemma sign_is_not_nan s x : sign_is s x -> x <> S754_nan.
Proof. intros H ->. exact H. Qed.

Lemma div_sign a b :
  sign_is false a -> is_finite a = true -> finite_nonzero false b ->
  sign_is false (div a b).
Proof.
  intros Ha Hfa Hb.
  destruct b as [sb|sb| |sb mb eb]; simpl in Hb; try contradiction. subst sb.
  destruct a as [sa|sa| |sa ma ea]; simpl in Ha, Hfa; try discriminate; subst sa.
  - reflexivity.
  - unfold div, SFdiv.
    destruct (SFdiv_core_binary_spec (Z.pos ma) ea (Z.pos mb) eb ltac:(lia) ltac:(lia))
      as [l Hl].
    cbv zeta in Hl. rewrite Hl. apply binary_round_aux_sign.
    apply Z.div_pos; [|lia].
    apply Z.mul_nonneg_nonneg; [lia|]. apply Z.pow_nonneg. lia.
Qed.

Lemma mul_hundred_sign a : sign_is false a -> sign_is false (mul a hundred).
Proof.
  intros Ha. destruct a as [sa|sa| |sa ma ea]; simpl in Ha; try contradiction; subst sa.
  - reflexivity.
  - reflexivity.
  - unfold mul, hundred, SFmul. apply binary_round_aux_sign. lia.
Qed.

Lemma Math_min_hundred x :
  sign_is false x ->
  Math_min x hundred <> S754_nan /\
  ge (Math_min x hundred) zero = true /\
  ge hundred (Math_min x hundred) = true.
Proof.
  intros Hx. destruct x as [sx|sx| |sx mx ex]; simpl in Hx; try contradiction; subst sx.
  - cbv. repeat split; congruence.
  - cbv. repeat split; congruence.
  - unfold Math_min. destruct (SFcompare (S754_finite false mx ex) hundred) as [[| |]|] eqn:E.
    + cbv. repeat split; congruence.
    + split; [congruence|]. split; [reflexivity|].
      unfold ge, SFleb. rewrite E. reflexivity.
    + cbv. repeat split; congruence.
    + unfold hundred, SFcompare in E. discriminate E.
Qed.

(** ** Integers below 2^53 are represented exactly *)

Lemma Zdigits2_unique m k : 0 < m -> 2 ^ (k - 1) <= m < 2 ^ k -> Zdigits2 m = k.
Proof.
  intros Hm [Hlo Hhi]. destruct (Zdigits2_bounds m Hm) as [Hlo' Hhi'].
  pose proof (Zdigits2_nonneg m) as Hd.
  assert (0 < k) as Hk.
  { destruct (Z_lt_le_dec 0 k) as [|Hle]; [assumption|exfalso].
    rewrite Z.pow_neg_r in Hlo by lia.
    assert (2 ^ k <= 2 ^ 0) by (apply Z.pow_le_mono_r; lia).
    simpl in *. lia. }
  destruct (Z.lt_trichotomy (Zdigits2 m) k) as [Hlt|[Heq|Hgt]];
    [exfalso|assumption|exfalso].
  - assert (2 ^ Zdigits2 m <= 2 ^ (k - 1)) by (apply Z.pow_le_mono_r; lia). lia.
  - assert (2 ^ k <= 2 ^ (Zdigits2 m - 1)) by (apply Z.pow_le_mono_r; lia). lia.
Qed.

Lemma Pos_iter_xO m k : Z.pos (Pos.iter xO m k) = Z.pos m * 2 ^ Z.pos k.
Proof.
  induction k as [|k IH] using Pos.peano_ind.
  - simpl. lia.
  - rewrite Pos.iter_succ, Pos2Z.inj_xO, IH, Pos2Z.inj_succ, Z.pow_succ_r by lia. lia.
Qed.

Lemma binary_round_aux_exact s m e :
  Zdigits2 (Z.pos m) = 53 -> -1074 <= e <= 971 ->
  binary_round_aux prec emax s (Z.pos m) e loc_Exact = S754_finite s m e.
Proof.
  intros Hd He.
  assert (forall l, shr_fexp prec emax (Z.pos m) e l = (shr_record_of_loc (Z.pos m) l, e)) as Hshr.
  { intros l. unfold shr_fexp. rewrite Hd, fexp_eq.
    replace (Z.max (53 + e - 53) (-1074) - e) with 0 by lia. reflexivity. }
  unfold binary_round_aux. rewrite Hshr. cbn [shr_record_of_loc loc_of_shr_record shr_m round_nearest_even].
  rewrite Hshr. cbn [shr_record_of_loc shr_m].
  destruct (Z.leb_spec e (emax - prec)) as [_|Hgt]; [reflexivity|].
  change (emax - prec) with 971 in Hgt. lia.
Qed.

(** The double of a positive integer below 2^53: the integer itself, written
    with a 53-bit mantissa. *)
Lemma of_Z_small n :
  0 < n < 2 ^ 53 ->
  exists m, of_Z n = S754_finite false m (Zdigits2 n - 53) /\
            Z.pos m = n * 2 ^ (53 - Zdigits2 n).
Proof.
  intros [Hpos Hlt]. destruct n as [|p|p]; try lia.
  destruct (Zdigits2_bounds (Z.pos p) Hpos) as [Hlo Hhi].
  assert (Zdigits2 (Z.pos p) <= 53) as Hd53
    by (apply Zdigits2_le_of_lt; lia).
  assert (1 <= Zdigits2 (Z.pos p)) as Hd1.
  { destruct (Z_le_gt_dec 1 (Zdigits2 (Z.pos p))); [assumption|].
    pose proof (Zdigits2_nonneg (Z.pos p)).
    assert (Zdigits2 (Z.pos p) = 0) as H0 by lia. rewrite H0 in Hhi. simpl in Hhi. lia. }
  unfold of_Z, binary_normalize, binary_round.
  change (Z.pos (digits2_pos p)) with (Zdigits2 (Z.pos p)).
  set (d := Zdigits2 (Z.pos p)) in *.
  rewrite fexp_eq. replace (Z.max (d + 0 - 53) (-1074)) with (d - 53) by lia.
  unfold shl_align. replace (d - 53 - 0) with (d - 53) by lia.
  destruct (d - 53) as [|k|k] eqn:Ek; try lia.
  - exists p. split.
    + apply binary_round_aux_exact; [fold d; lia|lia].
    + replace (53 - d) with 0 by lia. simpl. lia.
  - exists (Pos.iter xO p k).
    assert (Z.pos (Pos.iter xO p k) = Z.pos p * 2 ^ (53 - d)) as Hm.
    { rewrite Pos_iter_xO. f_equal. f_equal. lia. }
    split; [|exact Hm].
    apply binary_round_aux_exact; [|lia].
    apply Zdigits2_unique; [lia|]. rewrite Hm.
    assert (0 < 2 ^ (53 - d)) by (apply Z.pow_pos_nonneg; lia).
    split.
    + replace (53 - 1) with ((d - 1) + (53 - d)) by lia. rewrite Z.pow_add_r by lia. nia.
    + replace 53 with (d + (53 - d)) at 2 by lia. rewrite Z.pow_add_r by lia. nia.
Qed.

(** On such integers [>=] on doubles is [>=] on integers. *)
Lemma ge_of_Z a b :
  0 <= a < 2 ^ 53 -> 0 <= b < 2 ^ 53 ->
  ge (of_Z a) (of_Z b) = true <-> b <= a.
Proof.
  intros Ha Hb.
  destruct (Z.eq_dec b 0) as [->|Hb0].
  { change (of_Z 0) with zero. split; [lia|intros _].
    destruct (Z.eq_dec a 0) as [->|Ha0]; [reflexivity|].
    destruct (of_Z_small a ltac:(lia)) as (m & -> & _). reflexivity. }
  destruct (of_Z_small b ltac:(lia)) as (mb & -> & Hmb).
  destruct (Z.eq_dec a 0) as [->|Ha0].
  { change (of_Z 0) with zero. split; [discriminate|lia]. }
  destruct (of_Z_small a ltac:(lia)) as (ma & -> & Hma).
  destruct (Zdigits2_bounds a ltac:(lia)) as [Halo Hahi].
  destruct (Zdigits2_bounds b ltac:(lia)) as [Hblo Hbhi].
  unfold ge, SFleb, SFcompare.
  destruct (Z.compare_spec (Zdigits2 b - 53) (Zdigits2 a - 53)) as [Heq|Hlt|Hgt].
  - assert (Zdigits2 b = Zdigits2 a) as Hd by lia. rewrite Hd in Hmb.
    assert (0 < 2 ^ (53 - Zdigits2 a)).
    { apply Z.pow_pos_nonneg; [lia|].
      pose proof (Zdigits2_le_of_lt a 53 ltac:(lia) ltac:(lia) ltac:(lia)). lia. }
    rewrite Pos.compare_cont_spec. simpl.
    change (mb ?= ma)%positive with (Z.pos mb ?= Z.pos ma).
    destruct (Z.compare_spec (Z.pos mb) (Z.pos ma)); split; intros; try reflexivity; try discriminate; nia.
  - assert (2 ^ Zdigits2 b <= 2 ^ (Zdigits2 a - 1)) by (apply Z.pow_le_mono_r; lia).
    split; [lia|reflexivity].
  - assert (2 ^ Zdigits2 a <= 2 ^ (Zdigits2 b - 1)) by (apply Z.pow_le_mono_r; lia).
    split; [discriminate|lia].
Qed.

(** ** The rounding performed by [Number] *)

Lemma div_mod_double A B :
  0 <= A -> 0 < B ->
  A / (2 * B) = (A / B) / 2 /\ A mod (2 * B) = ((A / B) mod 2) * B + A mod B.
Proof.
  intros HA HB.
  pose proof (Z.div_mod A B ltac:(lia)) as H1.
  pose proof (Z.mod_pos_bound A B HB) as H2.
  pose proof (Z.div_mod (A / B) 2 ltac:(lia)) as H3.
  pose proof (Z.mod_pos_bound (A / B) 2 ltac:(lia)) as H4.
  assert (A = (2 * B) * ((A / B) / 2) + (((A / B) mod 2) * B + A mod B)) as H5 by nia.
  assert (0 <= ((A / B) mod 2) * B + A mod B < 2 * B) as H6 by nia.
  split.
  - symmetry. apply Z.div_unique with (r := ((A / B) mod 2) * B + A mod B); [lia|exact H5].
  - symmetry. apply Z.mod_unique with (q := (A / B) / 2); [lia|exact H5].
Qed.

Lemma shr_1_fields m r s :
  0 <= m ->
  shr_1 {| shr_m := m; shr_r := r; shr_s := s |}
  = {| shr_m := m / 2; shr_r := Z.odd m; shr_s := orb r s |}.
Proof.
  intros Hm. destruct m as [|p|p]; [reflexivity| |lia].
  destruct p as [p|p|]; simpl shr_1.
  - f_equal. rewrite Pos2Z.inj_xI. apply Z.div_unique with (r := 1); lia.
  - f_equal. rewrite Pos2Z.inj_xO. apply Z.div_unique with (r := 0); lia.
  - reflexivity.
Qed.

Lemma represents_shr_1 A B mrs : represents A B mrs -> represents A (2 * B) (shr_1 mrs).
Proof.
  intros (HA & HB & Hm & Hr & Hs).
  destruct (div_mod_double A B HA HB) as [Hdiv Hmod].
  pose proof (Z.mod_pos_bound A B HB) as Hrem.
  pose proof (Z.mod_pos_bound (A / B) 2 ltac:(lia)) as Hbit.
  assert (0 <= A / B) as Hq0 by (apply Z.div_pos; lia).
  destruct mrs as [m r s]. simpl in Hm, Hr, Hs. subst m.
  assert (orb r s = true <-> A mod B <> 0) as Hrs.
  { rewrite Bool.orb_true_iff, Hr, Hs. lia. }
  rewrite shr_1_fields by assumption.
  unfold represents. simpl shr_m. simpl shr_r. simpl shr_s.
  split; [assumption|]. split; [lia|]. split; [symmetry; exact Hdiv|].
  rewrite Hmod, Hrs.
  assert (Z.odd (A / B) = true <-> (A / B) mod 2 = 1) as Hodd.
  { rewrite Zmod_odd. destruct (Z.odd (A / B)); split; intros; try reflexivity; try discriminate; lia. }
  rewrite Hodd. set (bit := (A / B) mod 2) in *.
  assert (bit = 0 \/ bit = 1) as [Hb|Hb] by lia; rewrite Hb; split; split; intros; lia.
Qed.

Lemma represents_iter_pos p : forall A B mrs,
  represents A B mrs -> represents A (B * 2 ^ Z.pos p) (SpecFloat.iter_pos shr_1 p mrs).
Proof.
  induction p as [p IH|p IH|]; intros A B mrs H; simpl SpecFloat.iter_pos.
  - apply represents_shr_1 in H. apply IH in H. apply IH in H.
    replace (B * 2 ^ Z.pos p~1) with (2 * B * 2 ^ Z.pos p * 2 ^ Z.pos p); [exact H|].
    replace (Z.pos p~1) with (1 + Z.pos p + Z.pos p) by lia.
    rewrite !Z.pow_add_r by lia. lia.
  - apply IH in H. apply IH in H.
    replace (B * 2 ^ Z.pos p~0) with (B * 2 ^ Z.pos p * 2 ^ Z.pos p); [exact H|].
    replace (Z.pos p~0) with (Z.pos p + Z.pos p) by lia.
    rewrite !Z.pow_add_r by lia. lia.
  - apply represents_shr_1 in H. replace (B * 2 ^ 1) with (2 * B) by lia. exact H.
Qed.

Lemma round_nearest_even_represents A B mrs :
  represents A B mrs ->
  round_nearest_even (shr_m mrs) (loc_of_shr_record mrs) = rne A B.
Proof.
  intros (HA & HB & Hm & Hr & Hs). unfold rne.
  pose proof (Z.mod_pos_bound A B HB) as Hrem.
  destruct mrs as [m r s]. simpl in *. subst m.
  destruct (Z.compare_spec (2 * (A mod B)) B) as [Heq|Hlt|Hgt].
  - assert (r = true) as -> by (apply Hr; lia).
    assert (s = false) as -> by (destruct s; [|reflexivity]; destruct Hs as [Hs _]; specialize (Hs eq_refl); lia).
    reflexivity.
  - assert (r = false) as -> by (destruct r; [|reflexivity]; destruct Hr as [Hr _]; specialize (Hr eq_refl); lia).
    destruct s; reflexivity.
  - assert (r = true) as -> by (apply Hr; lia).
    assert (s = true) as -> by (apply Hs; lia).
    reflexivity.
Qed.

Lemma rne_bounds A B : 0 < B -> A / B <= rne A B <= A / B + 1.
Proof. intros HB. unfold rne. destruct (2 * (A mod B) ?= B); [destruct (Z.even (A / B))| |]; lia. Qed.

Lemma rne_mono A A' B : 0 < B -> A <= A' -> rne A B <= rne A' B.
Proof.
  intros HB HA. unfold rne.
  pose proof (Z.div_mod A B ltac:(lia)) as H1.
  pose proof (Z.mod_pos_bound A B HB) as H2.
  pose proof (Z.div_mod A' B ltac:(lia)) as H1'.
  pose proof (Z.mod_pos_bound A' B HB) as H2'.
  assert (A / B <= A' / B) as Hq by (apply Z.div_le_mono; lia).
  destruct (Z.eq_dec (A / B) (A' / B)) as [Heq|Hne].
  - rewrite <- Heq in *. assert (A mod B <= A' mod B) by nia.
    destruct (Z.compare_spec (2 * (A mod B)) B), (Z.compare_spec (2 * (A' mod B)) B);
      try destruct (Z.even (A / B)); lia.
  - assert (A / B + 1 <= A' / B) by lia.
    destruct (2 * (A mod B) ?= B), (2 * (A' mod B) ?= B);
      try destruct (Z.even (A / B)); try destruct (Z.even (A' / B)); lia.
Qed.

Lemma rne_scale A B c : 0 < B -> 0 < c -> rne (A * c) (B * c) = rne A B.
Proof.
  intros HB Hc. unfold rne.
  rewrite Z.div_mul_cancel_r by lia.
  rewrite Zmult_mod_distr_r.
  replace (2 * (A mod B * c) ?= B * c) with (2 * (A mod B) ?= B); [reflexivity|].
  replace (2 * (A mod B * c)) with (2 * (A mod B) * c) by lia.
  apply Zmult_compare_compat_r. lia.
Qed.

Lemma shr_represents A B mrs e n :
  represents A B mrs -> 0 <= n ->
  represents A (B * 2 ^ n) (fst (shr mrs e n)) /\ snd (shr mrs e n) = e + n.
Proof.
  intros H Hn. unfold shr. destruct n as [|p|p]; [| |lia]; simpl fst; simpl snd.
  - rewrite Z.mul_1_r. split; [exact H|lia].
  - split; [apply represents_iter_pos; exact H|reflexivity].
Qed.

Lemma new_location_represents N :
  0 <= N ->
  represents N ETHER (shr_record_of_loc (N / ETHER) (new_location ETHER (N mod ETHER))).
Proof.
  intros HN. pose proof (Z.mod_pos_bound N ETHER ltac:(reflexivity)) as Hrem.
  unfold new_location. change (Z.even ETHER) with true. cbv iota.
  unfold new_location_even. unfold represents.
  split; [assumption|]. split; [reflexivity|].
  destruct (Z.eqb_spec (N mod ETHER) 0) as [H0|H0].
  - simpl. rewrite H0. split; [reflexivity|]. change ETHER with (10 ^ 18).
    split; split; intros; try discriminate; lia.
  - destruct (Z.compare_spec (2 * (N mod ETHER)) ETHER) as [Heq|Hlt|Hgt]; simpl;
      (split; [reflexivity|]); split; split; intros; try discriminate; try reflexivity; lia.
Qed.

Lemma SFdiv_core_binary_ETHER p :
  let e' := Z.min (fexp prec emax (Zdigits2 (Z.pos p) + 0 - (Zdigits2 ETHER + 0))) (0 - 0) in
  let N := Z.pos p * 2 ^ (0 - 0 - e') in
  SFdiv_core_binary prec emax (Z.pos p) 0 ETHER 0
  = (N / ETHER, e', new_location ETHER (N mod ETHER)).
Proof.
  intros e' N. unfold SFdiv_core_binary. fold e'.
  set (s := 0 - 0 - e').
  assert (0 <= s) as Hs by (unfold s, e'; lia).
  set (m' := match s with Z.pos _ => Z.shiftl (Z.pos p) s | 0 => Z.pos p | Z.neg _ => 0 end).
  assert (m' = N) as Hm'.
  { unfold m', N. fold s. destruct s as [|k|k] eqn:Es; [simpl; lia| |lia].
    rewrite Z.shiftl_mul_pow2 by lia. reflexivity. }
  rewrite Hm'. unfold Z.div, Z.modulo.
  destruct (Z.div_eucl N ETHER) as [q r]. reflexivity.
Qed.

Lemma pow2_pos k : 0 <= k -> 0 < 2 ^ k.
Proof. intros. apply Z.pow_pos_nonneg; lia. Qed.

Lemma pow2_split a b : 0 <= a -> 0 <= b -> 2 ^ (a + b) = 2 ^ a * 2 ^ b.
Proof. intros. apply Z.pow_add_r; lia. Qed.

Lemma ETHER_bounds : 2 ^ 59 < ETHER < 2 ^ 60.
Proof. unfold ETHER. split; reflexivity. Qed.

(** The double of a positive amount: the quotient by 10^18, scaled to its
    binade of exponent [e1], is rounded to the nearest integer, ties to
    even, and renormalised when it reached 2^53. *)
Lemma Number_rounds (s : EtherString) :
  0 < wei s < 2 ^ 256 ->
  exists e1 m2 e2,
    Number s = S754_finite false m2 e2 /\
    -112 <= e1 /\
    2 ^ (180 + e1) * ETHER <= wei s * 2 ^ 128 < 2 ^ (181 + e1) * ETHER /\
    2 ^ 52 <= rne (wei s * 2 ^ 128) (ETHER * 2 ^ (128 + e1)) /\
    (rne (wei s * 2 ^ 128) (ETHER * 2 ^ (128 + e1)) < 2 ^ 53 /\
     Z.pos m2 = rne (wei s * 2 ^ 128) (ETHER * 2 ^ (128 + e1)) /\ e2 = e1 \/
     rne (wei s * 2 ^ 128) (ETHER * 2 ^ (128 + e1)) = 2 ^ 53 /\
     Z.pos m2 = 2 ^ 52 /\ e2 = e1 + 1).
Proof.
  intros [Hpos Hlt]. unfold Number. destruct (wei s) as [|p|p]; try lia.
  rewrite SFdiv_core_binary_ETHER. cbv zeta.
  change (Zdigits2 ETHER + 0) with 60. rewrite fexp_eq.
  pose proof ETHER_bounds as HT.
  destruct (Zdigits2_bounds (Z.pos p) Hpos) as [Hlo Hhi].
  pose proof (Zdigits2_le_of_lt (Z.pos p) 256 ltac:(lia) ltac:(lia) Hlt) as Hd256.
  set (d := Zdigits2 (Z.pos p)) in *.
  assert (1 <= d) as Hd1.
  { destruct (Z_le_gt_dec 1 d); [assumption|].
    pose proof (Zdigits2_nonneg (Z.pos p)). fold d in H.
    assert (d = 0) as Hd0 by lia. rewrite Hd0 in Hhi. simpl in Hhi. lia. }
  set (e' := Z.min (Z.max (d + 0 - 60 - 53) (-1074)) (0 - 0)).
  assert (-112 <= e' <= 0) as He' by (unfold e'; lia).
  set (sh := 0 - 0 - e'). assert (0 <= sh <= 112) as Hsh by (unfold sh; lia).
  set (N := Z.pos p * 2 ^ sh).
  pose proof (pow2_pos sh ltac:(lia)) as Hpsh.
  assert (2 ^ 112 <= N) as HNlo.
  { unfold N. destruct (Z_le_gt_dec 113 d) as [Hc|Hc].
    - assert (2 ^ 112 <= 2 ^ (d - 1)) by (apply Z.pow_le_mono_r; lia). nia.
    - assert (sh = 113 - d) as -> by (unfold sh, e'; lia).
      replace 112 with ((d - 1) + (113 - d)) at 1 by lia.
      rewrite pow2_split by lia.
      apply Z.mul_le_mono_nonneg_r; [apply Z.pow_nonneg; lia|assumption]. }
  assert (N < 2 ^ 369) as HNhi.
  { unfold N. replace 369 with (256 + 113) by lia. rewrite pow2_split by lia.
    assert (2 ^ sh <= 2 ^ 113) by (apply Z.pow_le_mono_r; lia).
    pose proof (pow2_pos 256 ltac:(lia)). pose proof (pow2_pos 113 ltac:(lia)). nia. }
  pose proof (new_location_represents N ltac:(lia)) as Hrep0.
  set (q := N / ETHER) in *.
  assert (2 ^ 52 <= q) as Hqlo.
  { unfold q. apply Z.div_le_lower_bound; [lia|].
    replace 112 with (60 + 52) in HNlo by lia. rewrite pow2_split in HNlo by lia.
    pose proof (pow2_pos 52 ltac:(lia)). nia. }
  assert (q < 2 ^ 369) as Hqhi.
  { unfold q. apply Z.div_lt_upper_bound; [lia|]. pose proof (pow2_pos 369 ltac:(lia)). nia. }
  destruct (Zdigits2_bounds q ltac:(pose proof (pow2_pos 52 ltac:(lia)); lia)) as [Hqdlo Hqdhi].
  set (dq := Zdigits2 q) in *.
  assert (53 <= dq <= 369) as Hdq.
  { split.
    - destruct (Z_le_gt_dec 53 dq); [assumption|exfalso].
      assert (2 ^ dq <= 2 ^ 52).
      { destruct (Z_le_gt_dec 0 dq); [apply Z.pow_le_mono_r; lia|].
        rewrite Z.pow_neg_r by lia. pose proof (pow2_pos 52 ltac:(lia)). lia. }
      lia.
    - apply Zdigits2_le_of_lt; [pose proof (pow2_pos 52 ltac:(lia)); lia|lia|assumption]. }
  set (n1 := dq - 53). assert (0 <= n1 <= 316) as Hn1 by (unfold n1; lia).
  set (B := ETHER * 2 ^ n1).
  pose proof (pow2_pos n1 ltac:(lia)) as Hpn1.
  assert (0 < B) as HB by (unfold B; nia).
  (* first shift *)
  unfold binary_round_aux.
  assert (shr_fexp prec emax q e' (new_location ETHER (N mod ETHER))
          = shr (shr_record_of_loc q (new_location ETHER (N mod ETHER))) e' n1) as Hshr1.
  { unfold shr_fexp. fold dq. rewrite fexp_eq. f_equal. unfold n1. lia. }
  rewrite Hshr1.
  destruct (shr_represents N ETHER _ e' n1 Hrep0 ltac:(lia)) as [Hrep1 He1].
  fold B in Hrep1.
  destruct (shr (shr_record_of_loc q (new_location ETHER (N mod ETHER))) e' n1)
    as [mrs1 e1]. simpl fst in Hrep1. simpl snd in He1.
  rewrite (round_nearest_even_represents N B mrs1 Hrep1).
  (* the binade of the quotient *)
  assert (N / B = q / 2 ^ n1) as HNB by (unfold B, q; rewrite Z.div_div by lia; reflexivity).
  assert (2 ^ 52 <= N / B < 2 ^ 53) as Hm1.
  { rewrite HNB. split.
    - apply Z.div_le_lower_bound; [lia|].
      replace (dq - 1) with (n1 + 52) in Hqdlo by (unfold n1; lia).
      rewrite pow2_split in Hqdlo by lia. lia.
    - apply Z.div_lt_upper_bound; [lia|].
      replace dq with (n1 + 53) in Hqdhi by (unfold n1; lia).
      rewrite pow2_split in Hqdhi by lia. lia. }
  pose proof (rne_bounds N B HB) as Hrne.
  set (m1 := rne N B) in *.
  assert (2 ^ 52 <= m1 <= 2 ^ 53) as Hm1' by lia.
  (* second shift *)
  assert (0 <= m1) as Hm1nn by (pose proof (pow2_pos 52 ltac:(lia)); lia).
  destruct (shr_fexp_spec m1 e1 loc_Exact Hm1nn) as [Hm2 He2]. cbv zeta in Hm2, He2.
  rewrite fexp_eq in Hm2, He2.
  destruct (shr_fexp prec emax m1 e1 loc_Exact) as [mrs2 e2].
  simpl fst in Hm2. simpl snd in He2.
  (* the normal form of the rounding *)
  assert (m1 = rne (Z.pos p * 2 ^ 128) (ETHER * 2 ^ (128 + e1))) as Hnorm.
  { unfold m1. rewrite <- (rne_scale N B (2 ^ (128 - sh))) by (try apply pow2_pos; lia).
    f_equal.
    - unfold N. rewrite <- Z.mul_assoc, <- pow2_split by lia. f_equal. f_equal. lia.
    - unfold B. rewrite <- Z.mul_assoc, <- pow2_split by lia. f_equal. f_equal.
      unfold sh in *. lia. }
  assert (2 ^ (180 + e1) * ETHER <= Z.pos p * 2 ^ 128 < 2 ^ (181 + e1) * ETHER) as Hbinade.
  { pose proof (Z.div_mod N B ltac:(lia)) as Hdm.
    pose proof (Z.mod_pos_bound N B HB) as Hmb.
    assert (2 ^ 52 * B <= N < 2 ^ 53 * B) as [HN1 HN2] by nia.
    pose proof (pow2_pos (128 - sh) ltac:(lia)) as Hc.
    assert (Z.pos p * 2 ^ 128 = N * 2 ^ (128 - sh)) as ->.
    { unfold N. rewrite <- Z.mul_assoc, <- pow2_split by lia. f_equal. f_equal. lia. }
    assert (ETHER * 2 ^ (128 + e1) = B * 2 ^ (128 - sh)) as HBc.
    { unfold B. rewrite <- Z.mul_assoc, <- pow2_split by lia. f_equal. f_equal.
      unfold sh in *. lia. }
    assert (0 <= 128 + e1) as Hk by (unfold sh in *; lia).
    assert (2 ^ (180 + e1) * ETHER = 2 ^ 52 * B * 2 ^ (128 - sh)) as ->.
    { replace (180 + e1) with (52 + (128 + e1)) by lia.
      rewrite pow2_split by lia. rewrite <- (Z.mul_assoc (2 ^ 52) B), <- HBc. ring. }
    assert (2 ^ (181 + e1) * ETHER = 2 ^ 53 * B * 2 ^ (128 - sh)) as ->.
    { replace (181 + e1) with (53 + (128 + e1)) by lia.
      rewrite pow2_split by lia. rewrite <- (Z.mul_assoc (2 ^ 53) B), <- HBc. ring. }
    split.
    - apply Z.mul_le_mono_nonneg_r; [lia|exact HN1].
    - apply Z.mul_lt_mono_pos_r; [exact Hc|exact HN2]. }
  exists e1.
  destruct (Z.eq_dec m1 (2 ^ 53)) as [Htop|Hntop].
  - assert (Zdigits2 m1 = 54) as Hdm
      by (apply Zdigits2_unique; [lia|]; rewrite Htop; split; [reflexivity|];
          apply Z.pow_lt_mono_r; lia).
    rewrite Hdm in Hm2, He2.
    replace (Z.max 0 (Z.max (54 + e1 - 53) (-1074) - e1)) with 1 in Hm2, He2
      by (unfold sh in *; lia).
    assert (shr_m mrs2 = 2 ^ 52) as Hm2' by (rewrite Hm2, Htop; reflexivity).
    rewrite Hm2'. change (2 ^ 52) with (Z.pos (2 ^ 52)%positive).
    cbv iota beta.
    destruct (Z.leb_spec e2 (emax - prec)) as [_|Hbig];
      [|change (emax - prec) with 971 in Hbig; unfold sh in *; lia].
    eexists _, _. split; [reflexivity|]. split; [unfold sh in *; lia|].
    split; [exact Hbinade|]. rewrite <- Hnorm.
    split; [lia|]. right. split; [exact Htop|]. split; [reflexivity|lia].
  - assert (Zdigits2 m1 = 53) as Hdm
      by (apply Zdigits2_unique; [lia|]; split; [simpl (53 - 1)|]; lia).
    rewrite Hdm in Hm2, He2.
    replace (Z.max 0 (Z.max (53 + e1 - 53) (-1074) - e1)) with 0 in Hm2, He2
      by (unfold sh in *; lia).
    rewrite Z.pow_0_r, Z.div_1_r in Hm2. rewrite Hm2.
    destruct m1 as [|pm|pm] eqn:Em1;
      [pose proof (pow2_pos 52 ltac:(lia)); lia| |pose proof (pow2_pos 52 ltac:(lia)); lia].
    cbv iota beta.
    destruct (Z.leb_spec e2 (emax - prec)) as [_|Hbig];
      [|change (emax - prec) with 971 in Hbig; unfold sh in *; lia].
    eexists _, _. split; [reflexivity|]. split; [unfold sh in *; lia|].
    split; [exact Hbinade|]. rewrite <- Hnorm.
    split; [lia|]. left. split; [lia|]. split; [reflexivity|lia].
Qed.

Lemma SFleb_finite_pos mx ex my ey :
  ex < ey \/ (ex = ey /\ Z.pos mx <= Z.pos my) ->
  SFleb (S754_finite false mx ex) (S754_finite false my ey) = true.
Proof.
  intros H. unfold SFleb, SFcompare.
  destruct (Z.compare_spec ex ey) as [Heq|Hlt|Hgt]; [|reflexivity|lia].
  destruct H as [H|[_ H]]; [lia|].
  rewrite Pos.compare_cont_spec. simpl.
  change (mx ?= my)%positive with (Z.pos mx ?= Z.pos my).
  destruct (Z.compare_spec (Z.pos mx) (Z.pos my)); [reflexivity|reflexivity|lia].
Qed.

(** [Number] on the strings of [formatEther] is monotone. *)
Lemma Number_mono (x y : EtherString) :
  0 <= wei x -> wei x <= wei y -> wei y < 2 ^ 256 ->
  ge (Number y) (Number x) = true.
Proof.
  intros Hx Hxy Hy.
  destruct (Z.eq_dec (wei x) 0) as [Hx0|Hx0].
  { rewrite (Number_zero x Hx0). apply ge_zero_of_sign. apply Number_sign. lia. }
  destruct (Number_rounds x ltac:(lia)) as (e1x & mx & ex & -> & Hex & Hbx & Hlox & Hcx).
  destruct (Number_rounds y ltac:(lia)) as (e1y & my & ey & -> & Hey & Hby & Hloy & Hcy).
  pose proof ETHER_bounds as HT.
  unfold ge. apply SFleb_finite_pos.
  assert (e1x <= e1y) as He.
  { destruct (Z_le_gt_dec e1x e1y) as [|Hgt]; [assumption|exfalso].
    assert (2 ^ (181 + e1y) <= 2 ^ (180 + e1x)) as Hp by (apply Z.pow_le_mono_r; lia).
    pose proof (pow2_pos 128 ltac:(lia)) as H128.
    assert (wei y * 2 ^ 128 < wei x * 2 ^ 128) as Hlt.
    { eapply Z.lt_le_trans; [apply Hby|]. etransitivity; [|apply Hbx].
      apply Z.mul_le_mono_nonneg_r; lia. }
    apply Z.mul_lt_mono_pos_r in Hlt; lia. }
  destruct (Z.eq_dec e1x e1y) as [Heq|Hne].
  - subst e1y.
    assert (rne (wei x * 2 ^ 128) (ETHER * 2 ^ (128 + e1x))
            <= rne (wei y * 2 ^ 128) (ETHER * 2 ^ (128 + e1x))) as Hmono.
    { apply rne_mono.
      - pose proof (pow2_pos (128 + e1x) ltac:(lia)). nia.
      - apply Z.mul_le_mono_nonneg_r; [apply Z.pow_nonneg; lia|assumption]. }
    destruct Hcx as [(Hx1 & Hx2 & Hx3)|(Hx1 & Hx2 & Hx3)],
             Hcy as [(Hy1 & Hy2 & Hy3)|(Hy1 & Hy2 & Hy3)]; lia.
  - destruct Hcx as [(Hx1 & Hx2 & Hx3)|(Hx1 & Hx2 & Hx3)],
             Hcy as [(Hy1 & Hy2 & Hy3)|(Hy1 & Hy2 & Hy3)]; lia.
Qed.

End Float64Facts.

(* ===================================================================== *)
(** * Campaign details page: what [fetchCampaign] leaves in the state *)
(* ===================================================================== *)

Module CampaignDetailsFacts.

Import Js Float64 Float64Facts CampaignDetails.
Local Open Scope Z_scope.

Ltac run_page :=
  unfold fetchCampaign, try_finally, try_catch_M, modify, lift;
  unfold mbind, M_bind, mret, M_ret; cbn beta iota.

(** The three reads succeed: the view is stored and no error is reported. *)
Lemma fetchCampaign_ok w campaignId now st contract d count :
  Ledger.getReadOnlyContract w = Ok contract ->
  Ledger.getCampaign contract campaignId = Ok d ->
  Ledger.getDonorCount contract campaignId = Ok count ->
  fetchCampaign w campaignId now st =
    (Ok tt, {| campaign := Some (view_of d campaignId now count);
               loading := false; error := None |}).
Proof. intros H1 H2 H3. run_page. rewrite H1, H2, H3. reflexivity. Qed.

Lemma fetchCampaign_no_provider w campaignId now st e :
  Ledger.getReadOnlyContract w = Throw e ->
  fetchCampaign w campaignId now st = (Ok tt, failed e st).
Proof. intros H1. run_page. rewrite H1. reflexivity. Qed.

Lemma fetchCampaign_no_record w campaignId now st contract e :
  Ledger.getReadOnlyContract w = Ok contract ->
  Ledger.getCampaign contract campaignId = Throw e ->
  fetchCampaign w campaignId now st = (Ok tt, failed e st).
Proof. intros H1 H2. run_page. rewrite H1, H2. reflexivity. Qed.

Lemma fetchCampaign_no_donor_count w campaignId now st contract d e :
  Ledger.getReadOnlyContract w = Ok contract ->
  Ledger.getCampaign contract campaignId = Ok d ->
  Ledger.getDonorCount contract campaignId = Throw e ->
  fetchCampaign w campaignId now st = (Ok tt, failed e st).
Proof. intros H1 H2 H3. run_page. rewrite H1, H2, H3. reflexivity. Qed.

(** A view found in the state after a run from the initial state is the one
    built from the record and the donor count that were read. *)
Lemma fetchCampaign_view w campaignId now c :
  campaign (fetchCampaign w campaignId now initial).2 = Some c ->
  exists contract d count,
    Ledger.getReadOnlyContract w = Ok contract /\
    Ledger.getCampaign contract campaignId = Ok d /\
    Ledger.getDonorCount contract campaignId = Ok count /\
    c = view_of d campaignId now count.
Proof.
  destruct (Ledger.getReadOnlyContract w) as [contract|e] eqn:H1.
  2:{ rewrite (fetchCampaign_no_provider _ _ _ _ _ H1). discriminate. }
  destruct (Ledger.getCampaign contract campaignId) as [d|e] eqn:H2.
  2:{ rewrite (fetchCampaign_no_record _ _ _ _ _ _ H1 H2). discriminate. }
  destruct (Ledger.getDonorCount contract campaignId) as [count|e] eqn:H3.
  2:{ rewrite (fetchCampaign_no_donor_count _ _ _ _ _ _ _ H1 H2 H3). discriminate. }
  rewrite (fetchCampaign_ok _ _ _ _ _ _ _ H1 H2 H3). simpl. intros [= <-].
  exists contract, d, count. auto.
Qed.

Lemma raisedValue_uint256 d : Ledger.well_formed d -> uint256 (raisedValue d).
Proof.
  intros (_ & Hr & Ha). unfold raisedValue.
  destruct (Ledger.raised d) as [[|p|p]|] eqn:E1;
    try (apply Hr; reflexivity);
    destruct (Ledger.raisedAmount d) as [[|p'|p']|] eqn:E2;
    try (apply Ha; reflexivity); unfold uint256; lia.
Qed.

Lemma computeStatus_cases reached expired :
  computeStatus reached expired =
    if reached then SUCCESSFUL else if expired then ENDED else ACTIVE.
Proof. reflexivity. Qed.

Lemma isActive_computeStatus reached expired :
  negb expired && negb reached = true <-> computeStatus reached expired = ACTIVE.
Proof. destruct reached, expired; simpl; split; intros H; congruence. Qed.

Lemma goalReached_goal_zero raised goal :
  0 <= wei raised -> wei goal = 0 -> goalReached raised goal = true.
Proof.
  intros Hr Hg. unfold goalReached. rewrite (Number_zero goal Hg).
  apply ge_zero_of_sign. apply Number_sign. assumption.
Qed.

Lemma goalReached_same raised goal :
  0 <= wei raised -> wei raised = wei goal -> goalReached raised goal = true.
Proof.
  intros Hr Hg. unfold goalReached.
  assert (Number raised = Number goal) as -> by (unfold Number; rewrite Hg; reflexivity).
  apply ge_refl. apply (sign_is_not_nan false). apply Number_sign. lia.
Qed.

Lemma goalReached_mono raised goal :
  0 <= wei goal -> wei goal <= wei raised -> wei raised < 2 ^ 256 ->
  goalReached raised goal = true.
Proof. intros Hg Hle Hr. unfold goalReached. apply Number_mono; assumption. Qed.

(** The progress of two amounts in the range of the contract. *)
Lemma computeProgress_spec raised goal :
  uint256 (wei raised) -> uint256 (wei goal) ->
  (0 < wei goal ->
     computeProgress raised goal =
       Math_min (mul (div (Number raised) (Number goal)) hundred) hundred) /\
  (wei goal = 0 -> computeProgress raised goal = zero) /\
  computeProgress raised goal <> S754_nan /\
  ge (computeProgress raised goal) zero = true /\
  ge hundred (computeProgress raised goal) = true.
Proof.
  intros Hr Hg. unfold computeProgress.
  destruct (Z.eq_dec (wei goal) 0) as [H0|H0].
  - rewrite (Number_zero goal H0).
    split; [lia|]. split; [reflexivity|]. cbv. repeat split; congruence.
  - assert (0 < wei goal < 2 ^ 256) as Hpos by (unfold uint256 in Hg; lia).
    pose proof (Number_finite_nonzero goal Hpos) as Hfin.
    rewrite (gt_zero_of_finite_nonzero _ Hfin).
    split; [reflexivity|]. split; [lia|].
    apply Math_min_hundred. apply mul_hundred_sign. apply div_sign.
    + apply Number_sign. unfold uint256 in Hr. lia.
    + apply Number_is_finite. assumption.
    + assumption.
Qed.

End CampaignDetailsFacts.

(* ===================================================================== *)
(** * Campaign list page *)
(* ===================================================================== *)

Module CampaignsFacts.

Import Js Float64 Campaigns.
Local Open Scope Z_scope.

(** The view of a record that was read, when its [raisedAmount] is there. *)
Lemma fetchSingleCampaign_record contract campaignId now d :
  Ledger.getCampaign contract campaignId = Ok d ->
  fetchSingleCampaign contract campaignId now =
    Ok (match Ledger.raisedAmount d with
        | Some amount =>
            let deadline := of_Z (Ledger.deadline d) in
            let isExpired := ge (of_Z now) deadline in
            Some {| id := campaignId;
                    title := Ledger.title d;
                    description := Ledger.description d;
                    goal := formatEther (Ledger.goal d);
                    raised := formatEther amount;
                    deadline := deadline;
                    isActive := negb isExpired;
                    status := if isExpired then ENDED else ACTIVE |}
        | None => None
        end).
Proof.
  intros H. unfold fetchSingleCampaign, try_catch. unfold mbind, result_bind.
  rewrite H. destruct (Ledger.raisedAmount d); reflexivity.
Qed.

(** A failed read yields [null]. *)
Lemma fetchSingleCampaign_failure contract campaignId now e :
  Ledger.getCampaign contract campaignId = Throw e ->
  fetchSingleCampaign contract campaignId now = Ok None.
Proof.
  intros H. unfold fetchSingleCampaign, try_catch. unfold mbind, result_bind.
  rewrite H. reflexivity.
Qed.

(** [fetchSingleCampaign] never throws. *)
Lemma fetchSingleCampaign_kept contract clock i :
  fetchSingleCampaign contract i (clock i) = Ok (kept contract clock i).
Proof.
  unfold kept.
  destruct (Ledger.getCampaign contract i) as [d|e] eqn:H.
  - rewrite (fetchSingleCampaign_record _ _ _ _ H). reflexivity.
  - rewrite (fetchSingleCampaign_failure _ _ _ _ H). reflexivity.
Qed.

Lemma kept_id contract clock i v : kept contract clock i = Some v -> id v = i.
Proof.
  unfold kept.
  destruct (Ledger.getCampaign contract i) as [d|e] eqn:H.
  - rewrite (fetchSingleCampaign_record _ _ _ _ H).
    destruct (Ledger.raisedAmount d); intros [= <-]; reflexivity.
  - rewrite (fetchSingleCampaign_failure _ _ _ _ H). discriminate.
Qed.

Lemma kept_isActive contract clock i v :
  kept contract clock i = Some v ->
  (isActive v = true <-> status v = ACTIVE) /\
  isActive v = negb (ge (of_Z (clock i)) (deadline v)).
Proof.
  unfold kept.
  destruct (Ledger.getCampaign contract i) as [d|e] eqn:H.
  - rewrite (fetchSingleCampaign_record _ _ _ _ H).
    destruct (Ledger.raisedAmount d); intros [= <-]; simpl.
    destruct (ge (of_Z (clock i)) (of_Z (Ledger.deadline d)));
      simpl; split; try reflexivity; split; congruence.
  - rewrite (fetchSingleCampaign_failure _ _ _ _ H). discriminate.
Qed.

Lemma all_requests contract clock (l : list Z) :
  Js.all ((fun i => fetchSingleCampaign contract i (clock i)) <$> l)
  = Ok (kept contract clock <$> l).
Proof.
  induction l as [|i l IH]; [reflexivity|].
  rewrite !fmap_cons. simpl Js.all. rewrite IH, fetchSingleCampaign_kept. reflexivity.
Qed.

Lemma filter_Boolean_fmap {A B} (f : A -> option B) (l : list A) :
  filter_Boolean (f <$> l) = omap f l.
Proof.
  unfold filter_Boolean. induction l as [|x l IH]; [reflexivity|].
  simpl. destruct (f x); [f_equal|]; exact IH.
Qed.

(** The list the page ends with, once the provider and the count are there. *)
Lemma fetchAllCampaigns_ok contract clock total st :
  Ledger.campaignCount contract = Ok total ->
  fetchAllCampaigns (Ok contract) clock st =
    (Ok tt, {| campaigns := reverse (omap (kept contract clock) (indices total));
               loading := false; error := None |}).
Proof.
  intros H. unfold fetchAllCampaigns, try_finally, try_catch_M, modify, lift.
  unfold mbind, M_bind, mret, M_ret. cbn beta iota. rewrite H.
  destruct (Z.eqb_spec total 0) as [->|Hne].
  - reflexivity.
  - rewrite all_requests, filter_Boolean_fmap. reflexivity.
Qed.

Lemma fetchAllCampaigns_failure getReadOnlyContract clock st e :
  (getReadOnlyContract = Throw e \/
   exists contract, getReadOnlyContract = Ok contract /\
                    Ledger.campaignCount contract = Throw e) ->
  fetchAllCampaigns getReadOnlyContract clock st =
    (Ok tt, {| campaigns := campaigns st; loading := false;
               error := Some (or_string (message e)
                                "Failed to load campaigns. Please try again later.") |}).
Proof.
  unfold fetchAllCampaigns, try_finally, try_catch_M, modify, lift.
  unfold mbind, M_bind, mret, M_ret. cbn beta iota.
  intros [->|(contract & -> & H)]; [reflexivity|]. rewrite H. reflexivity.
Qed.

(** The ids kept are the ids of the surviving campaigns. *)
Lemma omap_kept_ids contract clock (l : list Z) :
  id <$> omap (kept contract clock) l
  = filter (fun i => is_Some (kept contract clock i)) l.
Proof.
  induction l as [|i l IH]; [reflexivity|].
  destruct (kept contract clock i) as [v|] eqn:E.
  - rewrite filter_cons_True by (rewrite E; eauto).
    rewrite <- IH. simpl. rewrite E. simpl. f_equal. exact (kept_id _ _ _ _ E).
  - rewrite filter_cons_False by (rewrite E; intros [? ?]; discriminate).
    rewrite <- IH. simpl. rewrite E. reflexivity.
Qed.

(** What is kept of campaign [i], in terms of the ledger: the view of its
    record, when the read succeeds and the record has a [raisedAmount]. *)
Lemma kept_spec contract clock i v :
  kept contract clock i = Some v <->
  exists d amount,
    Ledger.getCampaign contract i = Ok d /\
    Ledger.raisedAmount d = Some amount /\
    v = {| id := i;
           title := Ledger.title d;
           description := Ledger.description d;
           goal := formatEther (Ledger.goal d);
           raised := formatEther amount;
           deadline := of_Z (Ledger.deadline d);
           isActive := negb (ge (of_Z (clock i)) (of_Z (Ledger.deadline d)));
           status := if ge (of_Z (clock i)) (of_Z (Ledger.deadline d))
                     then ENDED else ACTIVE |}.
Proof.
  unfold kept.
  destruct (Ledger.getCampaign contract i) as [d|e] eqn:H.
  - rewrite (fetchSingleCampaign_record _ _ _ _ H).
    destruct (Ledger.raisedAmount d) as [amount|] eqn:Hamount.
    + split.
      * intros [= <-]. exists d, amount. auto.
      * intros (d' & amount' & [= <-] & Hamount' & ->).
        rewrite Hamount in Hamount'. injection Hamount' as <-. reflexivity.
    + split; [discriminate|].
      intros (d' & amount' & [= <-] & Hamount' & _). congruence.
  - rewrite (fetchSingleCampaign_failure _ _ _ _ H).
    split; [discriminate|]. intros (d' & amount' & [=] & _).
Qed.

Lemma elem_of_indices i total : i ∈ indices total <-> 0 <= i < total.
Proof.
  unfold indices. rewrite list_elem_of_fmap. split.
  - intros (j & -> & Hj). apply elem_of_seq in Hj. lia.
  - intros Hi. exists (Z.to_nat i). split; [lia|]. apply elem_of_seq. lia.
Qed.

(** The loop indices are increasing, so the reversed survivors decrease. *)
Lemma indices_from_sorted (n k : nat) :
  StronglySorted Z.lt (Z.of_nat <$> seq k n).
Proof.
  revert k. induction n as [|n IH]; intros k; simpl; constructor.
  - apply IH.
  - apply Forall_forall. intros x Hx.
    apply list_elem_of_fmap in Hx as (j & -> & Hj).
    apply elem_of_seq in Hj. lia.
Qed.

Lemma StronglySorted_filter_lt (P : Z -> Prop) `{!forall x, Decision (P x)} (l : list Z) :
  StronglySorted Z.lt l -> StronglySorted Z.lt (filter P l).
Proof.
  induction 1 as [|x l Hs IH Hall]; [constructor|].
  destruct (decide (P x)).
  - rewrite filter_cons_True by assumption. constructor; [assumption|].
    apply Forall_forall. intros y Hy. apply list_elem_of_filter in Hy as [_ Hy].
    rewrite Forall_forall in Hall. auto.
  - rewrite filter_cons_False by assumption. assumption.
Qed.

Lemma StronglySorted_reverse_gt (l : list Z) :
  StronglySorted Z.lt l -> StronglySorted Z.gt (reverse l).
Proof.
  induction 1 as [|x l Hs IH Hall]; [constructor|].
  rewrite reverse_cons. apply StronglySorted_app. split; [|split].
  - intros a b Ha Hb. apply list_elem_of_singleton in Hb as ->.
    rewrite elem_of_reverse in Ha. rewrite Forall_forall in Hall.
    specialize (Hall a Ha). lia.
  - assumption.
  - repeat constructor.
Qed.

End CampaignsFacts.

(* ===================================================================== *)
(** * Batch metadata retrieval *)
(* ===================================================================== *)

Module BatchFacts.

Import Js Batch.

(** The map after all the callbacks of [l] have settled, read at one key:
    the outcome recorded for that key decides, whatever the other entries
    did. *)
Lemma foldl_store_lookup (l : list (string * option json)) :
  forall (results : gmap string json) (k : string),
    (forall o o', (k, o) ∈ l -> (k, o') ∈ l -> o = o') ->
    (forall o, (k, o) ∈ l ->
       foldl store results l !! k = from_option Some (results !! k) o) /\
    (k ∉ l.*1 -> foldl store results l !! k = results !! k).
Proof.
  induction l as [|[a oa] l IH]; intros results k Hcons.
  - split; [intros o Ho; inversion Ho|reflexivity].
  - assert (forall o o', (k, o) ∈ l -> (k, o') ∈ l -> o = o') as Hcons'.
    { intros o o' Ho Ho'. apply Hcons; right; assumption. }
    destruct (IH (store results (a, oa)) k Hcons') as [IH1 IH2].
    assert (a <> k -> store results (a, oa) !! k = results !! k) as Hne.
    { intros Hak. unfold store. simpl. destruct oa; [|reflexivity].
      apply lookup_insert_ne. assumption. }
    split.
    + intros o Ho. simpl foldl.
      destruct (decide (k ∈ l.*1)) as [Hin|Hnin].
      * apply list_elem_of_fmap in Hin as ([k' o'] & Hk & Hin). simpl in Hk. subst k'.
        assert (o' = o) as -> by (apply Hcons; [right; assumption|assumption]).
        rewrite (IH1 o Hin). destruct o as [m|]; [reflexivity|]. simpl.
        destruct (decide (a = k)) as [->|Hak]; [|auto].
        assert (oa = None) as -> by (apply Hcons; [left|right; assumption]).
        reflexivity.
      * rewrite (IH2 Hnin).
        apply elem_of_cons in Ho as [[= <- <-]|Ho].
        -- unfold store. simpl. destruct o as [m|]; [|reflexivity].
           simpl. apply lookup_insert_eq.
        -- exfalso. apply Hnin. apply list_elem_of_fmap. exists (k, o). auto.
    + intros Hnin. simpl foldl. rewrite fmap_cons in Hnin. simpl in Hnin.
      apply not_elem_of_cons in Hnin as [Hak Hnin].
      rewrite (IH2 Hnin). auto.
Qed.

(** Callbacks that only store never make [Promise.allSettled] reject, and
    leave the fold of their stores. *)
Lemma allSettled_store {A} (task : A -> M (gmap string json) unit)
      (outcome : A -> string * option json) :
  (forall a results, task a results = (Ok tt, store results (outcome a))) ->
  forall (l : list A) (results : gmap string json),
    exists settled,
      allSettled (task <$> l) results
      = (Ok settled, foldl store results (outcome <$> l)).
Proof.
  intros Htask. induction l as [|a l IH]; intros results.
  - exists []. reflexivity.
  - rewrite !fmap_cons. simpl. rewrite Htask.
    destruct (IH (store results (outcome a))) as [settled ->].
    eexists. reflexivity.
Qed.

End BatchFacts.

Module PinataServiceFacts.

Import Js Batch BatchFacts PinataService.

(** The lookup by id never throws: every failure is turned into [null]. *)
Lemma fetchMetadataByCampaignId_never_throws fetch campaignId :
  exists o, fetchMetadataByCampaignId fetch campaignId = Ok o.
Proof.
  unfold fetchMetadataByCampaignId, try_catch.
  match goal with |- exists o, match ?b with _ => _ end = _ => destruct b end; eauto.
Qed.

Lemma task_by_id_store fetch id results :
  task fetch id results = (Ok tt, store results (id, found fetch id)).
Proof.
  unfold task, try_catch_M, lift, modify, found, store.
  unfold mbind, M_bind, mret, M_ret. cbn beta iota.
  destruct (fetchMetadataByCampaignId_never_throws fetch id) as [o ->].
  destruct o as [m|]; [|reflexivity]. destruct (truthy (Some m)); reflexivity.
Qed.

(** The batch by id: it fulfils, and its map holds at [id] what the lookup
    of [id] found, for the ids that were asked. *)
Lemma fetchMetadataBatch_by_id_spec fetch settle (campaignIds : list string) :
  rearranges settle ->
  exists m : gmap string Js.json,
    fetchMetadataBatch fetch settle campaignIds = Ok m /\
    forall id, m !! id = if decide (id ∈ campaignIds) then found fetch id else None.
Proof.
  intros Hsettle. unfold fetchMetadataBatch.
  destruct (allSettled_store (task fetch) (fun id => (id, found fetch id))
              (task_by_id_store fetch) (settle campaignIds) ∅) as [settled ->].
  eexists. split; [reflexivity|]. intros id.
  set (l := (fun id => (id, found fetch id)) <$> settle campaignIds).
  assert (forall o, (id, o) ∈ l -> o = found fetch id) as Hl.
  { intros o Ho. apply list_elem_of_fmap in Ho as (id' & [= <- ->] & _). reflexivity. }
  destruct (foldl_store_lookup l ∅ id) as [H1 H2].
  { intros o o' Ho Ho'. rewrite (Hl o Ho), (Hl o' Ho'). reflexivity. }
  destruct (decide (id ∈ campaignIds)) as [Hin|Hnin].
  - rewrite (H1 (found fetch id)).
    + rewrite lookup_empty. destruct (found fetch id); reflexivity.
    + apply list_elem_of_fmap. exists id. split; [reflexivity|].
      rewrite (Hsettle campaignIds). assumption.
  - rewrite H2; [apply lookup_empty|].
    intros Hin. apply Hnin. rewrite <- (Hsettle campaignIds).
    apply list_elem_of_fmap in Hin as ([k o] & Hk & Hin). simpl in Hk. subst k.
    apply list_elem_of_fmap in Hin as (id' & [= <- _] & Hin). assumption.
Qed.

End PinataServiceFacts.

Module PinataServiceByUriFacts.

Import Js Batch BatchFacts PinataServiceByUri.

Lemma task_by_uri_store axios_get entry results :
  task axios_get entry results = (Ok tt, store results (entry.1, found axios_get entry.2)).
Proof.
  destruct entry as [campaignId uri].
  unfold task, try_catch_M, lift, modify, found, store.
  unfold mbind, M_bind, mret, M_ret. cbn beta iota. simpl.
  destruct (fetchMetadataFromIPFS axios_get uri); reflexivity.
Qed.

(** The batch by address: it fulfils, and its map holds at [id] the
    metadata found at the address the input gives for [id]. *)
Lemma fetchMetadataBatch_by_uri_spec axios_get settle (ipfsUris : gmap string string) :
  rearranges settle ->
  exists m : gmap string json,
    fetchMetadataBatch axios_get settle ipfsUris = Ok m /\
    forall id, m !! id = ipfsUris !! id ≫= found axios_get.
Proof.
  intros Hsettle. unfold fetchMetadataBatch.
  destruct (allSettled_store (task axios_get)
              (fun entry => (entry.1, found axios_get entry.2))
              (task_by_uri_store axios_get) (settle (map_to_list ipfsUris)) ∅) as [settled ->].
  eexists. split; [reflexivity|]. intros id.
  set (l := (fun entry : string * string => (entry.1, found axios_get entry.2))
              <$> settle (map_to_list ipfsUris)).
  assert (forall o, (id, o) ∈ l -> exists uri, ipfsUris !! id = Some uri /\
                                               o = found axios_get uri) as Hl.
  { intros o Ho. apply list_elem_of_fmap in Ho as ([k uri] & [= <- ->] & Hin).
    rewrite (Hsettle _) in Hin. apply elem_of_map_to_list in Hin. eauto. }
  destruct (foldl_store_lookup l ∅ id) as [H1 H2].
  { intros o o' Ho Ho'. destruct (Hl o Ho) as (uri & Hu & ->).
    destruct (Hl o' Ho') as (uri' & Hu' & ->). congruence. }
  destruct (ipfsUris !! id) as [uri|] eqn:Hid; simpl.
  - rewrite (H1 (found axios_get uri)).
    + rewrite lookup_empty. destruct (found axios_get uri); reflexivity.
    + apply list_elem_of_fmap. exists (id, uri). split; [reflexivity|].
      rewrite (Hsettle _). apply elem_of_map_to_list. assumption.
  - rewrite H2; [apply lookup_empty|].
    intros Hin. apply list_elem_of_fmap in Hin as ([k o] & Hk & Hin).
    simpl in Hk. subst k. destruct (Hl o Hin) as (uri & Hu & _). congruence.
Qed.

End PinataServiceByUriFacts.

(* ===================================================================== *)
(** * API routes *)
(* ===================================================================== *)

Module UploadRouteFacts.

Import Js Route UploadRoute.

Lemma get_not_null body key :
  body <> JNull -> get body key = Ok (get_opt (Some body) key).
Proof. destruct body; intros H; try reflexivity. congruence. Qed.

(** Without a credential nothing is read and nothing is written. *)
Lemma POST_unconfigured PINATA_JWT pinata Date_now req trace :
  configured PINATA_JWT = None ->
  POST PINATA_JWT pinata Date_now req trace
  = (Ok (json_response (JObj [("error", JStr "Server configuration error")]) 500),
     trace).
Proof. intros H. unfold POST. rewrite H. reflexivity. Qed.

(** A parsed body without a usable [campaignId] or [title] is refused after
    the body was read, and before any write. *)
Lemma POST_missing_field PINATA_JWT jwt pinata Date_now req trace body :
  configured PINATA_JWT = Some jwt ->
  json req = Ok body ->
  body <> JNull ->
  truthy (get_opt (Some body) "campaignId") = false \/
  truthy (get_opt (Some body) "title") = false ->
  POST PINATA_JWT pinata Date_now req trace
  = (Ok (json_response
           (JObj [("error", JStr "Missing required fields: campaignId, title")]) 400),
     trace ++ [ReadBody]).
Proof.
  intros Hjwt Hbody Hnull Hmissing. unfold POST. rewrite Hjwt.
  unfold try_catch_M, req_json, lift. unfold mbind, M_bind, mret, M_ret.
  cbn beta iota. rewrite Hbody. rewrite !(get_not_null body) by assumption.
  destruct (truthy (get_opt (Some body) "campaignId")) eqn:Hc; cbn [negb];
    [|reflexivity].
  destruct Hmissing as [?|Ht]; [discriminate|]. rewrite Ht. reflexivity.
Qed.

(** A body that does not parse, or parses to [null], is answered with the
    server-error response of the catch block; nothing is written. *)
Lemma POST_unreadable PINATA_JWT jwt pinata Date_now req trace :
  configured PINATA_JWT = Some jwt ->
  (json req = Ok JNull \/ exists e, json req = Throw e) ->
  exists r, POST PINATA_JWT pinata Date_now req trace = (Ok r, trace ++ [ReadBody]) /\
            status r = 500%Z.
Proof.
  intros Hjwt Hbody. unfold POST. rewrite Hjwt.
  unfold try_catch_M, req_json, lift. unfold mbind, M_bind, mret, M_ret.
  cbn beta iota. destruct Hbody as [->|[e ->]]; eexists; split; reflexivity.
Qed.

(** The store is written to only for a configured credential and a body
    carrying both fields. *)
Lemma POST_write_needs_fields PINATA_JWT pinata Date_now req trace r trace' :
  POST PINATA_JWT pinata Date_now req trace = (r, trace') ->
  trace' = trace \/ trace' = trace ++ [ReadBody] \/
  exists jwt body content name id,
    configured PINATA_JWT = Some jwt /\ json req = Ok body /\
    truthy (get_opt (Some body) "campaignId") = true /\
    truthy (get_opt (Some body) "title") = true /\
    trace' = (trace ++ [ReadBody]) ++ [PinJSONToIPFS content name id jwt].
Proof.
  unfold POST. destruct (configured PINATA_JWT) as [jwt|] eqn:Hjwt.
  2:{ intros [= <- <-]. left. reflexivity. }
  unfold try_catch_M, req_json, lift. unfold mbind, M_bind, mret, M_ret.
  cbn beta iota. destruct (json req) as [body|e] eqn:Hbody.
  2:{ intros [= <- <-]. right. left. reflexivity. }
  assert (body = JNull \/ body <> JNull) as [->|Hnull]
    by (destruct body; (left; reflexivity) || (right; discriminate)).
  { simpl. intros [= <- <-]. right. left. reflexivity. }
  rewrite !(get_not_null body) by assumption.
  destruct (truthy (get_opt (Some body) "campaignId")) eqn:Hc; cbn [negb].
  2:{ intros [= <- <-]. right. left. reflexivity. }
  destruct (truthy (get_opt (Some body) "title")) eqn:Ht; cbn [negb].
  2:{ intros [= <- <-]. right. left. reflexivity. }
  unfold axios_post.
  destruct (pinata (with_createdAt body Date_now)); intros [= <- <-];
    right; right; eexists _, _, _, _, _; repeat split; eauto.
Qed.

End UploadRouteFacts.

Module FetchRouteFacts.

Import Js Route FetchRoute.

Lemma truthy_string_nonempty id : id <> "" -> truthy_string id = true.
Proof. intros H. unfold truthy_string. destruct (decide (id = "")); congruence. Qed.

(** The route always answers. *)
Lemma GET_answers PINATA_JWT pinata campaignId :
  exists r, GET PINATA_JWT pinata campaignId = Ok r.
Proof.
  unfold GET. destruct (configured PINATA_JWT); [|eexists; reflexivity].
  unfold try_catch.
  match goal with |- exists r, match ?b with _ => _ end = _ => destruct b end;
    eexists; reflexivity.
Qed.

(** No pin for the id: status 404. *)
Lemma GET_not_found PINATA_JWT jwt pinata id data :
  configured PINATA_JWT = Some jwt -> id <> "" ->
  pinList pinata id jwt = Ok data -> count data = 0%Z ->
  GET PINATA_JWT pinata (Some id)
  = Ok (json_response (JObj [("error", JStr "Metadata not found")]) 404).
Proof.
  intros Hjwt Hid Hlist Hcount. unfold GET. rewrite Hjwt.
  rewrite (truthy_string_nonempty id Hid). simpl.
  unfold mbind, result_bind. rewrite Hlist, Hcount. reflexivity.
Qed.

(** The query fails: status 500. *)
Lemma GET_query_failure PINATA_JWT jwt pinata id e :
  configured PINATA_JWT = Some jwt -> id <> "" ->
  pinList pinata id jwt = Throw e ->
  GET PINATA_JWT pinata (Some id)
  = Ok (json_response (failure_body "Failed to fetch metadata" e) 500).
Proof.
  intros Hjwt Hid Hlist. unfold GET. rewrite Hjwt.
  rewrite (truthy_string_nonempty id Hid). simpl.
  unfold mbind, result_bind. rewrite Hlist. reflexivity.
Qed.

(** *** The campaign id in the URL *)

Lemma all_chars_app P s t :
  all_chars P (s +:+ t) = all_chars P s && all_chars P t.
Proof.
  induction s as [|c s IH]; [reflexivity|]. simpl. rewrite IH. apply andb_assoc.
Qed.

Lemma all_chars_impl (P Q : Ascii.ascii -> bool) s :
  (forall c, P c = true -> Q c = true) ->
  all_chars P s = true -> all_chars Q s = true.
Proof.
  intros HPQ. induction s as [|c s IH]; [reflexivity|]. simpl.
  intros [Hc Hs]%andb_prop. rewrite (HPQ c Hc), (IH Hs). reflexivity.
Qed.

(** An unreserved character is none of the characters the URL gives a
    meaning to, and it is one byte of ASCII. *)
Lemma unreserved_plain c :
  unreserved c = true ->
  c0_control_or_space c = false /\ tab_or_newline c = false /\
  is_char 35 c = false /\ is_char 63 c = false /\ is_char 38 c = false /\
  is_char 61 c = false /\ is_char 43 c = false /\ is_char 37 c = false /\
  (code c <? 128)%nat = true.
Proof.
  destruct c as [[] [] [] [] [] [] [] []]; vm_compute; intros H;
    first [discriminate H | repeat split].
Qed.

Lemma strip_trailing_id s :
  all_chars (fun c => negb (c0_control_or_space c)) s = true -> strip_trailing s = s.
Proof.
  induction s as [|c s IH]; [reflexivity|]. simpl.
  intros [Hc Hs]%andb_prop. rewrite (IH Hs).
  apply negb_true_iff in Hc. rewrite Hc. destruct s; reflexivity.
Qed.

Lemma remove_chars_id drop s :
  all_chars (fun c => negb (drop c)) s = true -> remove_chars drop s = s.
Proof.
  induction s as [|c s IH]; [reflexivity|]. simpl.
  intros [Hc Hs]%andb_prop. apply negb_true_iff in Hc. rewrite Hc, (IH Hs). reflexivity.
Qed.

Lemma text_before_id stop s :
  all_chars (fun c => negb (stop c)) s = true -> text_before stop s = s.
Proof.
  induction s as [|c s IH]; [reflexivity|]. simpl.
  intros [Hc Hs]%andb_prop. apply negb_true_iff in Hc. rewrite Hc, (IH Hs). reflexivity.
Qed.

Lemma split_at_id sep s :
  all_chars (fun c => negb (sep c)) s = true -> split_at sep s = [s].
Proof.
  induction s as [|c s IH]; [reflexivity|]. simpl.
  intros [Hc Hs]%andb_prop. apply negb_true_iff in Hc. rewrite Hc, (IH Hs). reflexivity.
Qed.

Lemma plus_to_space_id s :
  all_chars (fun c => negb (is_char 43 c)) s = true -> plus_to_space s = s.
Proof.
  induction s as [|c s IH]; [reflexivity|]. simpl.
  intros [Hc Hs]%andb_prop. apply negb_true_iff in Hc. rewrite Hc, (IH Hs). reflexivity.
Qed.

Lemma percent_decode_id s :
  all_chars (fun c => negb (is_char 37 c)) s = true -> percent_decode s = s.
Proof.
  induction s as [|c s IH]; [reflexivity|]. simpl.
  intros [Hc Hs]%andb_prop. apply negb_true_iff in Hc. rewrite Hc, (IH Hs). reflexivity.
Qed.

Lemma utf8_decode_id s :
  all_chars (fun c => (code c <? 128)%nat) s = true -> utf8_decode s = s.
Proof.
  induction s as [|c s IH]; [reflexivity|]. simpl.
  intros [Hc Hs]%andb_prop. rewrite Hc, (IH Hs). reflexivity.
Qed.

Lemma form_decode_safe id : url_safe id = true -> form_decode id = id.
Proof.
  intros Hsafe. unfold form_decode.
  rewrite plus_to_space_id, percent_decode_id, utf8_decode_id; [reflexivity| | |];
    (eapply all_chars_impl; [|exact Hsafe]); intros c Hc;
    destruct (unreserved_plain c Hc) as (_ & _ & _ & _ & _ & _ & H43 & H37 & H128);
    rewrite ?H43, ?H37, ?H128; reflexivity.
Qed.

(** An id made of unreserved characters is the parameter the route reads. *)
Lemma searchParams_get_safe id :
  url_safe id = true ->
  searchParams_get "campaignId" ("/api/fetch-metadata?campaignId=" +:+ id) = Some id.
Proof.
  intros Hsafe.
  assert (forall P : Ascii.ascii -> bool,
            (forall c, unreserved c = true -> P c = true) ->
            forall prefix, all_chars P prefix = true ->
            all_chars P (prefix +:+ id) = true) as Hall.
  { intros P HP prefix Hprefix. rewrite all_chars_app, Hprefix.
    exact (all_chars_impl _ _ _ HP Hsafe). }
  unfold searchParams_get, url_input.
  change (strip_leading ("/api/fetch-metadata?campaignId=" +:+ id))
    with ("/api/fetch-metadata?campaignId=" +:+ id).
  rewrite strip_trailing_id.
  2:{ apply Hall; [|reflexivity]. intros c Hc.
      destruct (unreserved_plain c Hc) as (H & _). rewrite H. reflexivity. }
  rewrite remove_chars_id.
  2:{ apply Hall; [|reflexivity]. intros c Hc.
      destruct (unreserved_plain c Hc) as (_ & H & _). rewrite H. reflexivity. }
  unfold searchParams, query_of. rewrite text_before_id.
  2:{ apply Hall; [|reflexivity]. intros c Hc.
      destruct (unreserved_plain c Hc) as (_ & _ & H & _). rewrite H. reflexivity. }
  change (text_after (is_char 63) ("/api/fetch-metadata?campaignId=" +:+ id))
    with (Some ("campaignId=" +:+ id)).
  cbv beta iota. rewrite split_at_id.
  2:{ apply Hall; [|reflexivity]. intros c Hc.
      destruct (unreserved_plain c Hc) as (_ & _ & _ & _ & H & _). rewrite H. reflexivity. }
  change (filter (fun piece : string => piece <> "") ["campaignId=" +:+ id])
    with ["campaignId=" +:+ id].
  cbn [fmap list_fmap]. unfold pair_of.
  change (text_before (is_char 61) ("campaignId=" +:+ id)) with "campaignId".
  change (text_after (is_char 61) ("campaignId=" +:+ id)) with (Some id).
  change (default "" (Some id)) with id. rewrite (form_decode_safe id Hsafe).
  change (form_decode "campaignId") with "campaignId".
  cbn [first_value]. destruct (decide ("campaignId" = "campaignId")); [reflexivity|congruence].
Qed.

(** What follows an [&] or a [#] in the id is not part of the parameter;
    [%41] is read as [A] and [+] as a space. *)
Example searchParams_get_cut :
  searchParams_get "campaignId" "/api/fetch-metadata?campaignId=7&x=1" = Some "7" /\
  searchParams_get "campaignId" "/api/fetch-metadata?campaignId=7#top" = Some "7" /\
  searchParams_get "campaignId" "/api/fetch-metadata?campaignId=%41+b" = Some "A b" /\
  searchParams_get "campaignId" "/api/fetch-metadata" = None.
Proof. repeat split; reflexivity. Qed.

Lemma serve_online PINATA_JWT pinata url r :
  GET PINATA_JWT pinata (searchParams_get "campaignId" url) = Ok r ->
  serve true PINATA_JWT pinata url
  = Ok {| PinataService.status := status r; PinataService.json := Ok (body r) |}.
Proof.
  intros H. unfold serve. rewrite H. reflexivity.
Qed.

End FetchRouteFacts.

Module LookupFacts.

Import Js PinataService.

(** The client maps the 404 of the route to [null]. *)
Lemma fetchMetadataByCampaignId_404 fetch campaignId response :
  fetch ("/api/fetch-metadata?campaignId=" +:+ campaignId) = Ok response ->
  status response = 404%Z ->
  fetchMetadataByCampaignId fetch campaignId = Ok None.
Proof.
  intros H Hs. unfold fetchMetadataByCampaignId, try_catch.
  unfold mbind, result_bind. rewrite H, Hs. reflexivity.
Qed.

(** It maps every other status outside 2xx to [null] as well. *)
Lemma fetchMetadataByCampaignId_not_ok fetch campaignId response :
  fetch ("/api/fetch-metadata?campaignId=" +:+ campaignId) = Ok response ->
  ok response = false ->
  fetchMetadataByCampaignId fetch campaignId = Ok None.
Proof.
  intros H Hs. unfold fetchMetadataByCampaignId, try_catch.
  unfold mbind, result_bind. rewrite H, Hs. simpl.
  destruct (status response =? 404)%Z; [reflexivity|].
  destruct (json response) as [error|e]; [|reflexivity].
  destruct (get error "details") as [details|e]; [|reflexivity].
  destruct (truthy details); [reflexivity|].
  destruct (get error "error"); reflexivity.
Qed.

(** And a request that does not get through. *)
Lemma fetchMetadataByCampaignId_network fetch campaignId e :
  fetch ("/api/fetch-metadata?campaignId=" +:+ campaignId) = Throw e ->
  fetchMetadataByCampaignId fetch campaignId = Ok None.
Proof.
  intros H. unfold fetchMetadataByCampaignId, try_catch.
  unfold mbind, result_bind. rewrite H. reflexivity.
Qed.

End LookupFacts.

(* ===================================================================== *)
(** * Status resolution and progress of the details view *)
(* ===================================================================== *)

Section DetailsView.

Import Js Float64 Float64Facts CampaignDetails CampaignDetailsFacts.
Local Open Scope Z_scope.

Ltac in_uint256 := unfold uint256; vm_compute; split; [discriminate|reflexivity].

(** C1, as stated, fails: a campaign whose goal is 0 and whose deadline is
    still ahead is resolved to SUCCESSFUL, not to ACTIVE. *)
Lemma goal_zero_future_deadline_is_successful :
  exists c,
    campaign (fetchCampaign
                (Samples.world (Samples.contract_with (Samples.record 0 0 2000000000)))
                0 Samples.now initial).2 = Some c /\
    wei (goal c) = 0 /\
    ge (of_Z Samples.now) (deadline c) = false /\
    status c = SUCCESSFUL.
Proof. eexists. repeat split; vm_compute; reflexivity. Qed.

(** C1, amended.  The details view built from a ledger record carries the
    goal of the record, the amount raised that the record gives and its
    deadline, and its status is resolved from them: SUCCESSFUL as soon as
    [Number(raised) >= Number(goal)], with no condition that the goal be
    positive; otherwise ENDED when [now >= deadline]; otherwise ACTIVE.  In
    particular a campaign whose goal is 0 is SUCCESSFUL whatever its
    deadline, and so is every campaign that raised at least its goal; a
    campaign with a positive goal that raised nothing is ENDED or ACTIVE,
    by its deadline alone.  For timestamps below 2^53 the comparison of
    [now] with the deadline is the comparison of the integers. *)
Theorem status_resolution w campaignId now st contract d count :
  Ledger.getReadOnlyContract w = Ok contract ->
  Ledger.getCampaign contract campaignId = Ok d ->
  Ledger.getDonorCount contract campaignId = Ok count ->
  Ledger.well_formed d ->
  exists c,
    campaign (fetchCampaign w campaignId now st).2 = Some c /\
    goal c = formatEther (Ledger.goal d) /\
    raised c = formatEther (raisedValue d) /\
    deadline c = of_Z (Ledger.deadline d) /\
    status c = (if ge (Number (formatEther (raisedValue d)))
                      (Number (formatEther (Ledger.goal d))) then SUCCESSFUL
                else if ge (of_Z now) (of_Z (Ledger.deadline d)) then ENDED
                else ACTIVE) /\
    status c = (if ge (Number (raised c)) (Number (goal c)) then SUCCESSFUL
                else if ge (of_Z now) (deadline c) then ENDED
                else ACTIVE) /\
    (Ledger.goal d = 0 -> status c = SUCCESSFUL) /\
    (Ledger.goal d <= raisedValue d -> status c = SUCCESSFUL) /\
    (0 < Ledger.goal d -> raisedValue d = 0 ->
     status c = (if ge (of_Z now) (of_Z (Ledger.deadline d)) then ENDED else ACTIVE)) /\
    (0 <= now < 2 ^ 53 -> 0 <= Ledger.deadline d < 2 ^ 53 ->
     (ge (of_Z now) (deadline c) = true <-> Ledger.deadline d <= now)).
Proof.
  intros H1 H2 H3 Hwf. rewrite (fetchCampaign_ok _ _ _ _ _ _ _ H1 H2 H3).
  eexists. split; [reflexivity|]. simpl.
  pose proof (raisedValue_uint256 d Hwf) as [Hr Hr'].
  destruct Hwf as ([Hg Hg'] & _).
  split; [reflexivity|]. split; [reflexivity|]. split; [reflexivity|].
  split; [apply computeStatus_cases|].
  split; [apply computeStatus_cases|]. split; [|split; [|split]].
  - intros Hg0. rewrite goalReached_goal_zero; [reflexivity|exact Hr|exact Hg0].
  - intros Hle. rewrite goalReached_mono; [reflexivity|exact Hg|exact Hle|exact Hr'].
  - intros Hpos Hnone. unfold goalReached. rewrite Hnone.
    pose proof (Number_finite_nonzero (formatEther (Ledger.goal d))
                  (conj Hpos Hg')) as Hfin.
    destruct (Number (formatEther (Ledger.goal d))) as [| | |s m e];
      try contradiction.
    simpl in Hfin. subst s. reflexivity.
  - intros Hnow Hdeadline. apply ge_of_Z; assumption.
Qed.

(** The comparison is made on doubles: a campaign that raised one wei less
    than its goal of 10 ether already counts as having reached it. *)
Example one_wei_short_reaches_the_goal :
  goalReached (formatEther (10 * 10 ^ 18 - 1)) (formatEther (10 * 10 ^ 18)) = true.
Proof. vm_compute. reflexivity. Qed.

(** A campaign of goal 10 ether that raised 5 ether: ACTIVE before its
    deadline and ENDED from its deadline on; SUCCESSFUL once 10 ether are
    raised, also after the deadline. *)
Example status_of_sample_campaigns :
  (exists c,
     campaign (fetchCampaign
                 (Samples.world
                    (Samples.contract_with
                       (Samples.record (10 * 10 ^ 18) (5 * 10 ^ 18) 2000000000)))
                 7 1999999999 initial).2 = Some c /\
     status c = ACTIVE) /\
  (exists c,
     campaign (fetchCampaign
                 (Samples.world
                    (Samples.contract_with
                       (Samples.record (10 * 10 ^ 18) (5 * 10 ^ 18) 2000000000)))
                 7 2000000000 initial).2 = Some c /\
     status c = ENDED) /\
  (exists c,
     campaign (fetchCampaign
                 (Samples.world
                    (Samples.contract_with
                       (Samples.record (10 * 10 ^ 18) (10 * 10 ^ 18) 2000000000)))
                 7 2000000001 initial).2 = Some c /\
     status c = SUCCESSFUL).
Proof. repeat apply conj; eexists; split; vm_compute; reflexivity. Qed.

Lemma status_resolution_witness :
  exists c,
    campaign (fetchCampaign
                (Samples.world
                   (Samples.contract_with
                      (Samples.record (10 * 10 ^ 18) (5 * 10 ^ 18) 2000000000)))
                7 Samples.now initial).2 = Some c /\
    goal c = formatEther (10 * 10 ^ 18) /\
    raised c = formatEther (5 * 10 ^ 18) /\
    deadline c = of_Z 2000000000 /\
    status c = (if ge (Number (formatEther (5 * 10 ^ 18)))
                      (Number (formatEther (10 * 10 ^ 18))) then SUCCESSFUL
                else if ge (of_Z Samples.now) (of_Z 2000000000) then ENDED
                else ACTIVE) /\
    status c = (if ge (Number (raised c)) (Number (goal c)) then SUCCESSFUL
                else if ge (of_Z Samples.now) (deadline c) then ENDED
                else ACTIVE) /\
    (10 * 10 ^ 18 = 0 -> status c = SUCCESSFUL) /\
    (10 * 10 ^ 18 <= 5 * 10 ^ 18 -> status c = SUCCESSFUL) /\
    (0 < 10 * 10 ^ 18 -> 5 * 10 ^ 18 = 0 ->
     status c = (if ge (of_Z Samples.now) (of_Z 2000000000) then ENDED else ACTIVE)) /\
    (0 <= Samples.now < 2 ^ 53 -> 0 <= 2000000000 < 2 ^ 53 ->
     (ge (of_Z Samples.now) (deadline c) = true <-> 2000000000 <= Samples.now)).
Proof.
  apply (status_resolution
           (Samples.world
              (Samples.contract_with
                 (Samples.record (10 * 10 ^ 18) (5 * 10 ^ 18) 2000000000)))
           7 Samples.now initial
           (Samples.contract_with
              (Samples.record (10 * 10 ^ 18) (5 * 10 ^ 18) 2000000000))
           (Samples.record (10 * 10 ^ 18) (5 * 10 ^ 18) 2000000000) 3);
    try reflexivity.
  split; [in_uint256|]. split; intros r; simpl; intros [= <-]; in_uint256.
Defined.

(** C2.  The details view carries the goal of the ledger record and the
    amount raised that the record gives, and its progress is computed from
    them: [Math.min(Number(raised) / Number(goal) * 100, 100)] when the goal
    is positive and [0] when the goal is 0; it is never NaN and always lies
    between 0 and 100, whatever the amounts. *)
Theorem progress_clamped w campaignId now st contract d count :
  Ledger.getReadOnlyContract w = Ok contract ->
  Ledger.getCampaign contract campaignId = Ok d ->
  Ledger.getDonorCount contract campaignId = Ok count ->
  Ledger.well_formed d ->
  exists c,
    campaign (fetchCampaign w campaignId now st).2 = Some c /\
    goal c = formatEther (Ledger.goal d) /\
    raised c = formatEther (raisedValue d) /\
    (0 < Ledger.goal d ->
       progress c =
         Math_min (mul (div (Number (formatEther (raisedValue d)))
                            (Number (formatEther (Ledger.goal d)))) hundred) hundred) /\
    (0 < Ledger.goal d ->
       progress c =
         Math_min (mul (div (Number (raised c)) (Number (goal c))) hundred) hundred) /\
    (Ledger.goal d = 0 -> progress c = zero) /\
    progress c <> S754_nan /\
    ge (progress c) zero = true /\
    ge hundred (progress c) = true.
Proof.
  intros H1 H2 H3 Hwf. rewrite (fetchCampaign_ok _ _ _ _ _ _ _ H1 H2 H3).
  eexists. split; [reflexivity|]. simpl.
  split; [reflexivity|]. split; [reflexivity|].
  pose proof (computeProgress_spec (formatEther (raisedValue d))
                (formatEther (Ledger.goal d))
                (raisedValue_uint256 d Hwf) (proj1 Hwf)) as (Hp & Hrest).
  split; [exact Hp|]. split; [exact Hp|]. exact Hrest.
Qed.

(** A goal of 10 ether: 5 ether raised give 50, 25 ether raised give 100,
    nothing raised gives 0; a goal of 0 gives 0. *)
Example progress_of_sample_campaigns :
  computeProgress (formatEther (5 * 10 ^ 18)) (formatEther (10 * 10 ^ 18)) = of_Z 50 /\
  computeProgress (formatEther (25 * 10 ^ 18)) (formatEther (10 * 10 ^ 18)) = of_Z 100 /\
  computeProgress (formatEther 0) (formatEther (10 * 10 ^ 18)) = of_Z 0 /\
  computeProgress (formatEther (5 * 10 ^ 18)) (formatEther 0) = of_Z 0 /\
  exists c,
    campaign (fetchCampaign
                (Samples.world
                   (Samples.contract_with
                      (Samples.record (10 * 10 ^ 18) (5 * 10 ^ 18) 2000000000)))
                7 Samples.now initial).2 = Some c /\
    progress c = of_Z 50.
Proof.
  repeat apply conj; try (vm_compute; reflexivity).
  eexists. split; vm_compute; reflexivity.
Qed.

Lemma progress_clamped_witness :
  exists c,
    campaign (fetchCampaign
                (Samples.world
                   (Samples.contract_with
                      (Samples.record (10 * 10 ^ 18) (25 * 10 ^ 18) 2000000000)))
                7 Samples.now initial).2 = Some c /\
    goal c = formatEther (10 * 10 ^ 18) /\
    raised c = formatEther (25 * 10 ^ 18) /\
    (0 < 10 * 10 ^ 18 ->
       progress c =
         Math_min (mul (div (Number (formatEther (25 * 10 ^ 18)))
                            (Number (formatEther (10 * 10 ^ 18)))) hundred) hundred) /\
    (0 < 10 * 10 ^ 18 ->
       progress c =
         Math_min (mul (div (Number (raised c)) (Number (goal c))) hundred) hundred) /\
    (10 * 10 ^ 18 = 0 -> progress c = zero) /\
    progress c <> S754_nan /\
    ge (progress c) zero = true /\
    ge hundred (progress c) = true.
Proof.
  apply (progress_clamped
           (Samples.world
              (Samples.contract_with
                 (Samples.record (10 * 10 ^ 18) (25 * 10 ^ 18) 2000000000)))
           7 Samples.now initial
           (Samples.contract_with
              (Samples.record (10 * 10 ^ 18) (25 * 10 ^ 18) 2000000000))
           (Samples.record (10 * 10 ^ 18) (25 * 10 ^ 18) 2000000000) 3);
    try reflexivity.
  split; [in_uint256|]. split; intros r; simpl; intros [= <-]; in_uint256.
Defined.

End DetailsView.

(* ===================================================================== *)
(** * Aggregation of one view: what is fatal and what is not *)
(* ===================================================================== *)

Section Aggregation.

Import Js Float64 CampaignDetails CampaignDetailsFacts.
Local Open Scope Z_scope.

(** C4, as stated, fails: the ledger record is read, and the call still ends
    without a view and with an error, because the donor-count read failed. *)
Lemma record_read_succeeds_yet_no_view :
  Ledger.getCampaign
    (Samples.contract_without_donors (Samples.record (10 * 10 ^ 18) 0 2000000000)) 7
  = Ok (Samples.record (10 * 10 ^ 18) 0 2000000000) /\
  (fetchCampaign
     (Samples.world
        (Samples.contract_without_donors (Samples.record (10 * 10 ^ 18) 0 2000000000)))
     7 Samples.now initial).2
  = {| campaign := None; loading := false; error := Some "call revert exception" |}.
Proof. split; reflexivity. Qed.

(** C4, amended.  Building the details view is fatal when the provider, the
    ledger record read or the donor-count read fails: no view is stored and
    the error is reported.  When the three reads succeed a view is stored and
    no error is reported; its title and description are the ledger's (a fixed
    placeholder when the ledger's is empty) and its imageUrl and videoUrl are
    empty strings.  This path never consults the metadata store, so neither
    its content nor its failures can change the outcome. *)
Theorem fetchCampaign_outcomes w campaignId now st :
  let st' := (fetchCampaign w campaignId now st).2 in
  match Ledger.getReadOnlyContract w with
  | Throw e => st' = failed e st
  | Ok contract =>
      match Ledger.getCampaign contract campaignId with
      | Throw e => st' = failed e st
      | Ok d =>
          match Ledger.getDonorCount contract campaignId with
          | Throw e => st' = failed e st
          | Ok count =>
              error st' = None /\ loading st' = false /\
              exists c,
                campaign st' = Some c /\
                title c = or_string (Ledger.title d) "Untitled Campaign" /\
                description c
                = or_string (Ledger.description d) "No description available" /\
                imageUrl c = "" /\ videoUrl c = ""
          end
      end
  end /\
  (forall w',
     Ledger.getReadOnlyContract w' = Ledger.getReadOnlyContract w ->
     fetchCampaign w' campaignId now st = fetchCampaign w campaignId now st).
Proof.
  cbv zeta. split.
  - destruct (Ledger.getReadOnlyContract w) as [contract|e] eqn:H1.
    2:{ rewrite (fetchCampaign_no_provider _ _ _ _ _ H1). reflexivity. }
    destruct (Ledger.getCampaign contract campaignId) as [d|e] eqn:H2.
    2:{ rewrite (fetchCampaign_no_record _ _ _ _ _ _ H1 H2). reflexivity. }
    destruct (Ledger.getDonorCount contract campaignId) as [count|e] eqn:H3.
    2:{ rewrite (fetchCampaign_no_donor_count _ _ _ _ _ _ _ H1 H2 H3). reflexivity. }
    rewrite (fetchCampaign_ok _ _ _ _ _ _ _ H1 H2 H3). simpl.
    split; [reflexivity|]. split; [reflexivity|].
    eexists. split; [reflexivity|]. repeat split.
  - intros w' Hw. unfold fetchCampaign. rewrite Hw. reflexivity.
Qed.

(** C6, as stated, fails: when the donor-count read fails no view is
    returned at all, so there is none whose donorCount is 0. *)
Lemma donor_count_failure_leaves_no_view :
  Ledger.getDonorCount
    (Samples.contract_without_donors (Samples.record (10 * 10 ^ 18) (10 ^ 18) 2000000000)) 7
  = Throw (new_Error "call revert exception") /\
  campaign (fetchCampaign
              (Samples.world
                 (Samples.contract_without_donors
                    (Samples.record (10 * 10 ^ 18) (10 ^ 18) 2000000000)))
              7 Samples.now initial).2 = None /\
  error (fetchCampaign
           (Samples.world
              (Samples.contract_without_donors
                 (Samples.record (10 * 10 ^ 18) (10 ^ 18) 2000000000)))
           7 Samples.now initial).2 <> None.
Proof. repeat split. discriminate. Qed.

(** C6, amended.  A failure of the donor-count lookup is fatal for the
    details view, like a failure of the record read: the state keeps the
    campaign it had (none, initially), loading is cleared, and the error of
    the lookup is reported. *)
Theorem donor_count_failure_is_fatal w campaignId now st contract d e :
  Ledger.getReadOnlyContract w = Ok contract ->
  Ledger.getCampaign contract campaignId = Ok d ->
  Ledger.getDonorCount contract campaignId = Throw e ->
  fetchCampaign w campaignId now st =
    (Ok tt,
     {| campaign := campaign st;
        loading := false;
        error := Some (or_string (message e) "Failed to load campaign details") |}).
Proof. exact (fetchCampaign_no_donor_count w campaignId now st contract d e). Qed.

Lemma donor_count_failure_is_fatal_witness :
  fetchCampaign
    (Samples.world
       (Samples.contract_without_donors (Samples.record (10 * 10 ^ 18) (10 ^ 18) 2000000000)))
    7 Samples.now initial
  = (Ok tt,
     {| campaign := campaign initial;
        loading := false;
        error := Some (or_string (message (new_Error "call revert exception"))
                                 "Failed to load campaign details") |}).
Proof.
  apply (donor_count_failure_is_fatal
           (Samples.world
              (Samples.contract_without_donors
                 (Samples.record (10 * 10 ^ 18) (10 ^ 18) 2000000000)))
           7 Samples.now initial
           (Samples.contract_without_donors
              (Samples.record (10 * 10 ^ 18) (10 ^ 18) 2000000000))
           (Samples.record (10 * 10 ^ 18) (10 ^ 18) 2000000000)
           (new_Error "call revert exception"));
    reflexivity.
Defined.

End Aggregation.

(* ===================================================================== *)
(** * isActive and status on both pages *)
(* ===================================================================== *)

Section ActiveFlag.

Import Js Float64 CampaignsFacts CampaignDetailsFacts.
Local Open Scope Z_scope.

(** C5, as stated, fails on the list page: a campaign that has reached its
    goal and whose deadline is ahead gets a view that is active. *)
Lemma list_view_active_after_goal_reached :
  exists v,
    Campaigns.fetchSingleCampaign
      (Samples.contract_with (Samples.record (10 * 10 ^ 18) (10 * 10 ^ 18) 2000000000))
      0 Samples.now = Ok (Some v) /\
    Campaigns.isActive v = true /\
    Campaigns.status v = Campaigns.ACTIVE /\
    ge (Number (Campaigns.raised v)) (Number (Campaigns.goal v)) = true /\
    ge (of_Z Samples.now) (Campaigns.deadline v) = false.
Proof. eexists. repeat split; vm_compute; reflexivity. Qed.

(** C5, amended.  On every view-building path isActive is true exactly when
    the status is ACTIVE.  On the details page this means that the deadline
    is ahead and the goal is not reached; on the list page, whose status has
    only the values ACTIVE and ENDED, it means only that the deadline is
    ahead. *)
Theorem isActive_iff_status_ACTIVE :
  (forall w campaignId now c,
     CampaignDetails.campaign
       (CampaignDetails.fetchCampaign w campaignId now CampaignDetails.initial).2 = Some c ->
     (CampaignDetails.isActive c = true <-> CampaignDetails.status c = CampaignDetails.ACTIVE) /\
     (CampaignDetails.isActive c = true <->
        ge (of_Z now) (CampaignDetails.deadline c) = false /\
        ge (Number (CampaignDetails.raised c)) (Number (CampaignDetails.goal c)) = false)) /\
  (forall contract campaignId now v,
     Campaigns.fetchSingleCampaign contract campaignId now = Ok (Some v) ->
     (Campaigns.isActive v = true <-> Campaigns.status v = Campaigns.ACTIVE) /\
     (Campaigns.isActive v = true <-> ge (of_Z now) (Campaigns.deadline v) = false)) /\
  (forall contract clock total v,
     Ledger.campaignCount contract = Ok total ->
     v ∈ Campaigns.campaigns
           (Campaigns.fetchAllCampaigns (Ok contract) clock Campaigns.initial).2 ->
     Campaigns.isActive v = true <-> Campaigns.status v = Campaigns.ACTIVE).
Proof.
  split; [|split].
  - intros w campaignId now c Hc.
    destruct (fetchCampaign_view w campaignId now c Hc) as (contract & d & count & _ & _ & _ & ->).
    simpl. split; [apply isActive_computeStatus|].
    unfold CampaignDetails.isExpired, CampaignDetails.goalReached.
    rewrite andb_true_iff, !negb_true_iff. reflexivity.
  - intros contract campaignId now v Hv.
    assert (Campaigns.kept contract (fun _ => now) campaignId = Some v) as Hk
      by (unfold Campaigns.kept; rewrite Hv; reflexivity).
    destruct (kept_isActive _ _ _ _ Hk) as [H1 H2]. split; [exact H1|].
    rewrite H2, negb_true_iff. reflexivity.
  - intros contract clock total v Htotal Hv.
    rewrite (fetchAllCampaigns_ok _ _ _ _ Htotal) in Hv. simpl in Hv.
    rewrite elem_of_reverse in Hv. apply list_elem_of_omap in Hv as (i & _ & Hk).
    exact (proj1 (kept_isActive _ _ _ _ Hk)).
Qed.

Lemma isActive_iff_status_ACTIVE_witness :
  Campaigns.isActive
    {| Campaigns.id := 0; Campaigns.title := "Community center";
       Campaigns.description := "";
       Campaigns.goal := formatEther (10 * 10 ^ 18);
       Campaigns.raised := formatEther (10 * 10 ^ 18);
       Campaigns.deadline := of_Z 2000000000;
       Campaigns.isActive := true; Campaigns.status := Campaigns.ACTIVE |} = true
  <-> ge (of_Z Samples.now) (of_Z 2000000000) = false.
Proof.
  apply (proj1 (proj2 isActive_iff_status_ACTIVE)
           (Samples.contract_with
              (Samples.record (10 * 10 ^ 18) (10 * 10 ^ 18) 2000000000))
           0 Samples.now).
  vm_compute. reflexivity.
Defined.

End ActiveFlag.

(* ===================================================================== *)
(** * Batch metadata retrieval: partial failure and idempotence *)
(* ===================================================================== *)

Section BatchRetrieval.

Import Js Batch.

(** C3.  Whatever the order in which the fetches complete, the batch fulfils
    (it never throws) and its map holds, for each input entry, exactly what
    the lookup of that entry found: an entry whose lookup failed or found
    nothing has no key, and the value at a key depends on that entry alone.
    This holds for the batch by campaign id and for the batch by address. *)
Theorem batch_keeps_exactly_the_successes :
  (forall fetch settle (campaignIds : list string),
     rearranges settle ->
     exists m : gmap string json,
       PinataService.fetchMetadataBatch fetch settle campaignIds = Ok m /\
       (forall id, m !! id = if decide (id ∈ campaignIds)
                             then PinataService.found fetch id else None) /\
       (forall id, id ∈ dom m <->
                   id ∈ campaignIds /\ is_Some (PinataService.found fetch id))) /\
  (forall axios_get settle (ipfsUris : gmap string string),
     rearranges settle ->
     exists m : gmap string json,
       PinataServiceByUri.fetchMetadataBatch axios_get settle ipfsUris = Ok m /\
       (forall id, m !! id = ipfsUris !! id ≫= PinataServiceByUri.found axios_get) /\
       (forall id, id ∈ dom m <->
                   exists uri, ipfsUris !! id = Some uri /\
                               is_Some (PinataServiceByUri.found axios_get uri))).
Proof.
  split.
  - intros fetch settle campaignIds Hsettle.
    destruct (PinataServiceFacts.fetchMetadataBatch_by_id_spec fetch settle campaignIds Hsettle)
      as (m & Hm & Hlookup).
    exists m. split; [exact Hm|]. split; [exact Hlookup|].
    intros id. rewrite elem_of_dom, Hlookup.
    destruct (decide (id ∈ campaignIds)) as [Hin|Hnin].
    + split; [intros H; split; assumption|intros [_ H]; exact H].
    + split; [intros [x Hx]; discriminate|intros [H _]; contradiction].
  - intros axios_get settle ipfsUris Hsettle.
    destruct (PinataServiceByUriFacts.fetchMetadataBatch_by_uri_spec
                axios_get settle ipfsUris Hsettle) as (m & Hm & Hlookup).
    exists m. split; [exact Hm|]. split; [exact Hlookup|].
    intros id. rewrite elem_of_dom, Hlookup.
    destruct (ipfsUris !! id) as [uri|]; simpl.
    + split; [intros H; exists uri; split; [reflexivity|assumption]|].
      intros (uri' & [= <-] & H). exact H.
    + split; [intros [x Hx]; discriminate|intros (uri' & Hu & _); discriminate].
Qed.

Lemma reversed_rearranges {A} : rearranges (@Samples.reversed A).
Proof. intros l. unfold Samples.reversed. apply reverse_Permutation. Defined.

Lemma in_order_rearranges {A} : rearranges (@Samples.in_order A).
Proof. intros l. reflexivity. Defined.

(** [fetchMany([A, B, C])] where B has no metadata: the keys are A and C. *)
Lemma batch_keeps_exactly_the_successes_witness :
  exists m : gmap string json,
    PinataService.fetchMetadataBatch Samples.fetch_ABC Samples.reversed ["A"; "B"; "C"]
    = Ok m /\
    (forall id, m !! id = if decide (id ∈ ["A"; "B"; "C"])
                          then PinataService.found Samples.fetch_ABC id else None) /\
    (forall id, id ∈ dom m <->
                id ∈ ["A"; "B"; "C"] /\ is_Some (PinataService.found Samples.fetch_ABC id)).
Proof.
  apply (proj1 batch_keeps_exactly_the_successes
           Samples.fetch_ABC Samples.reversed ["A"; "B"; "C"]).
  apply reversed_rearranges.
Defined.

Example batch_ABC_keys :
  exists m : gmap string json,
    PinataService.fetchMetadataBatch Samples.fetch_ABC Samples.reversed ["A"; "B"; "C"]
    = Ok m /\
    dom m = {["A"; "C"]}.
Proof. eexists. split; [reflexivity|]. vm_compute. reflexivity. Qed.

Example batch_by_uri_ABC_keys :
  exists m : gmap string json,
    PinataServiceByUri.fetchMetadataBatch Samples.gateway_AC Samples.in_order Samples.uris_ABC
    = Ok m /\
    dom m = {["A"; "C"]}.
Proof. eexists. split; [reflexivity|]. vm_compute. reflexivity. Qed.

(** C9.  Two calls of the batch with the same input against the same store
    return the same map, keys and values, even when their fetches complete in
    different orders. *)
Theorem batch_idempotent :
  (forall fetch settle1 settle2 (campaignIds : list string),
     rearranges settle1 -> rearranges settle2 ->
     PinataService.fetchMetadataBatch fetch settle1 campaignIds
     = PinataService.fetchMetadataBatch fetch settle2 campaignIds) /\
  (forall axios_get settle1 settle2 (ipfsUris : gmap string string),
     rearranges settle1 -> rearranges settle2 ->
     PinataServiceByUri.fetchMetadataBatch axios_get settle1 ipfsUris
     = PinataServiceByUri.fetchMetadataBatch axios_get settle2 ipfsUris).
Proof.
  split.
  - intros fetch settle1 settle2 campaignIds H1 H2.
    destruct (PinataServiceFacts.fetchMetadataBatch_by_id_spec fetch settle1 campaignIds H1)
      as (m1 & -> & Hm1).
    destruct (PinataServiceFacts.fetchMetadataBatch_by_id_spec fetch settle2 campaignIds H2)
      as (m2 & -> & Hm2).
    f_equal. apply map_eq. intros id. rewrite Hm1, Hm2. reflexivity.
  - intros axios_get settle1 settle2 ipfsUris H1 H2.
    destruct (PinataServiceByUriFacts.fetchMetadataBatch_by_uri_spec
                axios_get settle1 ipfsUris H1) as (m1 & -> & Hm1).
    destruct (PinataServiceByUriFacts.fetchMetadataBatch_by_uri_spec
                axios_get settle2 ipfsUris H2) as (m2 & -> & Hm2).
    f_equal. apply map_eq. intros id. rewrite Hm1, Hm2. reflexivity.
Qed.

Lemma batch_idempotent_witness :
  PinataService.fetchMetadataBatch Samples.fetch_ABC Samples.in_order ["A"; "B"; "C"; "D"]
  = PinataService.fetchMetadataBatch Samples.fetch_ABC Samples.reversed ["A"; "B"; "C"; "D"].
Proof.
  apply (proj1 batch_idempotent Samples.fetch_ABC Samples.in_order Samples.reversed
           ["A"; "B"; "C"; "D"]).
  - apply in_order_rearranges.
  - apply reversed_rearranges.
Defined.

End BatchRetrieval.

(* ===================================================================== *)
(** * The upload gateway *)
(* ===================================================================== *)

Section UploadGateway.

Import Js Route UploadRoute UploadRouteFacts.
Local Open Scope Z_scope.

(** C7, as stated, fails: with the credential configured and a body that
    carries no campaignId (the JSON value [null]), the response is the
    server-error of the catch block, not a client-error. *)
Lemma upload_null_body_is_server_error :
  configured (Some "jwt") = Some "jwt" /\
  get_opt (Some JNull) "campaignId" = None /\
  exists r,
    POST (Some "jwt") Samples.pinata_accepts 1700000000000 {| json := Ok JNull |} []
    = (Ok r, [ReadBody]) /\
    status r = 500.
Proof. split; [reflexivity|]. split; [reflexivity|]. eexists. split; reflexivity. Qed.

(** C7, amended.  Without a configured credential the handler answers with
    the server-error configuration response and does nothing else: the body
    is not read and nothing is written.  With a credential and a body that
    parses to a JSON value other than [null], a missing (or falsy) campaignId
    or title is answered with a client-error response once the body was
    read, and nothing is written.  A body that is [null] or does not parse
    is answered with a server-error response, again with nothing written.
    A write is only ever issued with a credential and both fields present. *)
Theorem upload_preconditions PINATA_JWT pinata Date_now req trace :
  (configured PINATA_JWT = None ->
   POST PINATA_JWT pinata Date_now req trace
   = (Ok (json_response (JObj [("error", JStr "Server configuration error")]) 500),
      trace)) /\
  (forall jwt body,
     configured PINATA_JWT = Some jwt ->
     json req = Ok body -> body <> JNull ->
     truthy (get_opt (Some body) "campaignId") = false \/
     truthy (get_opt (Some body) "title") = false ->
     exists r,
       POST PINATA_JWT pinata Date_now req trace = (Ok r, trace ++ [ReadBody]) /\
       status r = 400) /\
  (forall jwt,
     configured PINATA_JWT = Some jwt ->
     (json req = Ok JNull \/ exists e, json req = Throw e) ->
     exists r,
       POST PINATA_JWT pinata Date_now req trace = (Ok r, trace ++ [ReadBody]) /\
       status r = 500) /\
  (forall r trace',
     POST PINATA_JWT pinata Date_now req trace = (r, trace') ->
     trace' = trace \/ trace' = trace ++ [ReadBody] \/
     exists jwt body content name id,
       configured PINATA_JWT = Some jwt /\ json req = Ok body /\
       truthy (get_opt (Some body) "campaignId") = true /\
       truthy (get_opt (Some body) "title") = true /\
       trace' = (trace ++ [ReadBody]) ++ [PinJSONToIPFS content name id jwt]).
Proof.
  split; [|split; [|split]].
  - apply POST_unconfigured.
  - intros jwt body Hjwt Hbody Hnull Hmissing.
    rewrite (POST_missing_field _ _ _ _ _ _ _ Hjwt Hbody Hnull Hmissing).
    eexists. split; reflexivity.
  - intros jwt Hjwt Hbody. exact (POST_unreadable _ _ _ _ _ _ Hjwt Hbody).
  - intros r trace'. apply POST_write_needs_fields.
Qed.

(** An upload request without a title: status 400, the body was read, no
    write was issued. *)
Lemma upload_preconditions_witness :
  exists r,
    POST (Some "jwt") Samples.pinata_accepts 1700000000000
         Samples.request_without_title []
    = (Ok r, [] ++ [ReadBody]) /\
    status r = 400.
Proof.
  apply (proj1 (proj2 (upload_preconditions (Some "jwt") Samples.pinata_accepts
                         1700000000000 Samples.request_without_title []))
           "jwt"
           (JObj [("campaignId", JStr "7"); ("goal", JStr "1.5")])).
  - reflexivity.
  - reflexivity.
  - discriminate.
  - right. reflexivity.
Defined.

End UploadGateway.

(* ===================================================================== *)
(** * Lookup by campaign id *)
(* ===================================================================== *)

Section LookupById.

Import Js Route FetchRoute FetchRouteFacts LookupFacts.
Local Open Scope Z_scope.

(** C8, as stated, fails: the caller of the lookup receives [null] when the
    campaign has no metadata (the route answers 404), and receives the same
    [null] when the store query fails (the route answers 500) and when the
    request does not get through at all. *)
Lemma not_found_and_failure_look_alike :
  (exists r, GET (Some "jwt") Samples.pinata_empty (Some "7") = Ok r /\ status r = 404) /\
  (exists r, GET (Some "jwt") Samples.pinata_down (Some "7") = Ok r /\ status r = 500) /\
  PinataService.fetchMetadataByCampaignId
    (serve true (Some "jwt") Samples.pinata_empty) "7" = Ok None /\
  PinataService.fetchMetadataByCampaignId
    (serve true (Some "jwt") Samples.pinata_down) "7" = Ok None /\
  PinataService.fetchMetadataByCampaignId
    (serve false (Some "jwt") Samples.pinata_empty) "7" = Ok None.
Proof.
  split; [eexists; split; reflexivity|].
  split; [eexists; split; reflexivity|].
  repeat split; reflexivity.
Qed.

(** C8, amended.  The route reads the campaign id from the query of the
    URL: [received] is the id as the route reads it, which is the id itself
    when it is made of unreserved characters.  When the store has no
    metadata record for it the route answers with the not-found status 404,
    which differs from the status 500 of a failed store query; the client
    lookup turns the 404 into [null] without throwing.  The client lookup
    never throws: it also returns [null] when the store query failed and
    when the request did not get through, so its caller cannot tell these
    outcomes apart. *)
Theorem lookup_by_id_not_found PINATA_JWT jwt pinata id received :
  configured PINATA_JWT = Some jwt ->
  searchParams_get "campaignId" ("/api/fetch-metadata?campaignId=" +:+ id) = Some received ->
  received <> "" ->
  (url_safe id = true -> received = id) /\
  (forall data,
     pinList pinata received jwt = Ok data -> count data = 0 ->
     (exists r, GET PINATA_JWT pinata (Some received) = Ok r /\ status r = 404) /\
     PinataService.fetchMetadataByCampaignId (serve true PINATA_JWT pinata) id = Ok None) /\
  (forall e,
     pinList pinata received jwt = Throw e ->
     (exists r, GET PINATA_JWT pinata (Some received) = Ok r /\ status r = 500) /\
     PinataService.fetchMetadataByCampaignId (serve true PINATA_JWT pinata) id = Ok None) /\
  PinataService.fetchMetadataByCampaignId (serve false PINATA_JWT pinata) id = Ok None /\
  (forall fetch campaignId,
     exists o, PinataService.fetchMetadataByCampaignId fetch campaignId = Ok o).
Proof.
  intros Hjwt Hreceived Hid. split; [|split; [|split; [|split]]].
  - intros Hsafe. rewrite (searchParams_get_safe id Hsafe) in Hreceived. congruence.
  - intros data Hlist Hcount.
    pose proof (GET_not_found _ _ _ _ _ Hjwt Hid Hlist Hcount) as HGET.
    split; [eexists; split; [exact HGET|reflexivity]|].
    eapply fetchMetadataByCampaignId_404.
    + apply serve_online. rewrite Hreceived. exact HGET.
    + reflexivity.
  - intros e Hlist.
    pose proof (GET_query_failure _ _ _ _ _ Hjwt Hid Hlist) as HGET.
    split; [eexists; split; [exact HGET|reflexivity]|].
    eapply fetchMetadataByCampaignId_not_ok.
    + apply serve_online. rewrite Hreceived. exact HGET.
    + reflexivity.
  - eapply fetchMetadataByCampaignId_network. reflexivity.
  - apply PinataServiceFacts.fetchMetadataByCampaignId_never_throws.
Qed.

Lemma lookup_by_id_not_found_witness :
  (url_safe "7" = true -> "7" = "7") /\
  (forall data,
     pinList Samples.pinata_empty "7" "jwt" = Ok data -> count data = 0 ->
     (exists r, GET (Some "jwt") Samples.pinata_empty (Some "7") = Ok r /\ status r = 404) /\
     PinataService.fetchMetadataByCampaignId
       (serve true (Some "jwt") Samples.pinata_empty) "7" = Ok None) /\
  (forall e,
     pinList Samples.pinata_empty "7" "jwt" = Throw e ->
     (exists r, GET (Some "jwt") Samples.pinata_empty (Some "7") = Ok r /\ status r = 500) /\
     PinataService.fetchMetadataByCampaignId
       (serve true (Some "jwt") Samples.pinata_empty) "7" = Ok None) /\
  PinataService.fetchMetadataByCampaignId
    (serve false (Some "jwt") Samples.pinata_empty) "7" = Ok None /\
  (forall fetch campaignId,
     exists o, PinataService.fetchMetadataByCampaignId fetch campaignId = Ok o).
Proof.
  apply (lookup_by_id_not_found (Some "jwt") "jwt" Samples.pinata_empty "7" "7").
  - reflexivity.
  - reflexivity.
  - discriminate.
Defined.

End LookupById.

(* ===================================================================== *)
(** * The campaign list *)
(* ===================================================================== *)

Section CampaignList.

Import Js Campaigns CampaignsFacts.
Local Open Scope Z_scope.

(** C10.  Once the provider and the campaign count are there, the list
    operation does not fail, whatever the individual reads do: a campaign
    whose read fails yields [null] and is left out, and so does a record
    without amount raised; every other campaign below the count is listed,
    with the title, the description, the goal, the amount raised and the
    deadline of its ledger record.  The campaigns are listed by decreasing
    id (newest first), and a count of zero gives the empty list and no
    error. *)
Theorem campaign_list_tolerates_failures contract clock total st :
  Ledger.campaignCount contract = Ok total ->
  let run := fetchAllCampaigns (Ok contract) clock st in
  run.1 = Ok tt /\ error run.2 = None /\ loading run.2 = false /\
  (forall i e, Ledger.getCampaign contract i = Throw e ->
               fetchSingleCampaign contract i (clock i) = Ok None) /\
  (forall i, exists o, fetchSingleCampaign contract i (clock i) = Ok o) /\
  campaigns run.2 = reverse (omap (kept contract clock) (indices total)) /\
  id <$> campaigns run.2
  = reverse (filter (fun i => is_Some (kept contract clock i)) (indices total)) /\
  StronglySorted Z.gt (id <$> campaigns run.2) /\
  (forall i e, Ledger.getCampaign contract i = Throw e -> i ∉ id <$> campaigns run.2) /\
  (total = 0 -> campaigns run.2 = []) /\
  (forall v,
     v ∈ campaigns run.2 <->
     exists i d amount,
       0 <= i < total /\
       Ledger.getCampaign contract i = Ok d /\
       Ledger.raisedAmount d = Some amount /\
       v = {| id := i;
              title := Ledger.title d;
              description := Ledger.description d;
              goal := Float64.formatEther (Ledger.goal d);
              raised := Float64.formatEther amount;
              deadline := Float64.of_Z (Ledger.deadline d);
              isActive := negb (Float64.ge (Float64.of_Z (clock i))
                                           (Float64.of_Z (Ledger.deadline d)));
              status := if Float64.ge (Float64.of_Z (clock i))
                                      (Float64.of_Z (Ledger.deadline d))
                        then ENDED else ACTIVE |}) /\
  (forall i,
     i ∈ id <$> campaigns run.2 <->
     0 <= i < total /\
     exists d amount,
       Ledger.getCampaign contract i = Ok d /\ Ledger.raisedAmount d = Some amount) /\
  (forall i d,
     Ledger.getCampaign contract i = Ok d -> Ledger.raisedAmount d = None ->
     fetchSingleCampaign contract i (clock i) = Ok None).
Proof.
  intros Htotal. cbv zeta. rewrite (fetchAllCampaigns_ok _ _ _ _ Htotal). simpl.
  assert (id <$> reverse (omap (kept contract clock) (indices total))
          = reverse (filter (fun i => is_Some (kept contract clock i)) (indices total)))
    as Hids by (rewrite fmap_reverse, omap_kept_ids; reflexivity).
  assert (forall v,
            v ∈ reverse (omap (kept contract clock) (indices total)) <->
            exists i, 0 <= i < total /\ kept contract clock i = Some v) as Hin.
  { intros v. rewrite elem_of_reverse, list_elem_of_omap. split.
    - intros (i & Hi & Hv). exists i. split; [apply elem_of_indices; exact Hi|exact Hv].
    - intros (i & Hi & Hv). exists i. split; [apply elem_of_indices; exact Hi|exact Hv]. }
  split; [reflexivity|]. split; [reflexivity|]. split; [reflexivity|].
  split; [|split; [|split; [|split; [|split; [|split; [|split; [|split; [|split]]]]]]]].
  - intros i e He. exact (fetchSingleCampaign_failure _ _ _ _ He).
  - intros i. eexists. apply fetchSingleCampaign_kept.
  - reflexivity.
  - exact Hids.
  - rewrite Hids. apply StronglySorted_reverse_gt, StronglySorted_filter_lt.
    apply indices_from_sorted.
  - intros i e He Hi. rewrite Hids, elem_of_reverse in Hi.
    apply list_elem_of_filter in Hi as [[v Hv] _].
    unfold kept in Hv. rewrite (fetchSingleCampaign_failure _ _ _ _ He) in Hv.
    discriminate.
  - intros ->. reflexivity.
  - intros v. rewrite Hin. split.
    + intros (i & Hi & Hv). apply kept_spec in Hv as (d & amount & Hd & Hamount & ->).
      exists i, d, amount. auto.
    + intros (i & d & amount & Hi & Hd & Hamount & ->). exists i. split; [exact Hi|].
      apply kept_spec. exists d, amount. auto.
  - intros i. rewrite list_elem_of_fmap. split.
    + intros (v & -> & Hv). apply Hin in Hv as (j & Hj & Hv).
      rewrite (kept_id _ _ _ _ Hv).
      apply kept_spec in Hv as (d & amount & Hd & Hamount & _).
      split; [exact Hj|]. exists d, amount. auto.
    + intros (Hi & d & amount & Hd & Hamount).
      eexists. split; [|apply Hin; exists i; split;
                         [exact Hi|apply kept_spec; exists d, amount; eauto]].
      reflexivity.
  - intros i d Hd Hamount. rewrite (fetchSingleCampaign_record _ _ _ _ Hd), Hamount.
    reflexivity.
Qed.

(** Four campaigns, the read of campaign 1 fails: campaigns 3, 2 and 0 are
    listed, in that order, each with the amounts of its record. *)
Lemma campaign_list_tolerates_failures_witness :
  (fetchAllCampaigns (Ok Samples.contract_of_four) (fun _ => Samples.now) initial).1 = Ok tt /\
  error (fetchAllCampaigns (Ok Samples.contract_of_four) (fun _ => Samples.now) initial).2
  = None /\
  id <$> campaigns
           (fetchAllCampaigns (Ok Samples.contract_of_four) (fun _ => Samples.now) initial).2
  = reverse (filter (fun i => is_Some (kept Samples.contract_of_four (fun _ => Samples.now) i))
                    (indices 4)) /\
  (forall i,
     i ∈ id <$> campaigns
                  (fetchAllCampaigns (Ok Samples.contract_of_four)
                     (fun _ => Samples.now) initial).2 <->
     0 <= i < 4 /\
     exists d amount,
       Ledger.getCampaign Samples.contract_of_four i = Ok d /\
       Ledger.raisedAmount d = Some amount).
Proof.
  pose proof (campaign_list_tolerates_failures Samples.contract_of_four
                (fun _ => Samples.now) 4 initial eq_refl) as H.
  cbv zeta in H. destruct H as (H1 & H2 & _ & _ & _ & _ & H3 & _ & _ & _ & _ & H4 & _).
  exact (conj H1 (conj H2 (conj H3 H4))).
Defined.

(** The card of campaign 2 carries the goal and the amount raised of its
    record. *)
Example campaign_list_card :
  campaigns
    (fetchAllCampaigns (Ok Samples.contract_of_four) (fun _ => Samples.now) initial).2
  !! 1%nat
  = Some {| id := 2;
            title := "Community center";
            description := "";
            goal := Float64.formatEther (10 * 10 ^ 18);
            raised := Float64.formatEther (2 * 10 ^ 18);
            deadline := Float64.of_Z 2000000000;
            isActive := true;
            status := ACTIVE |}.
Proof. vm_compute. reflexivity. Qed.

Example campaign_list_of_four :
  id <$> campaigns
           (fetchAllCampaigns (Ok Samples.contract_of_four) (fun _ => Samples.now) initial).2
  = [3; 2; 0].
Proof. vm_compute. reflexivity. Qed.

End CampaignList.

(* ===================================================================== *)
(** * Lower bounds through division, multiplication and [Math.min] *)
(* ===================================================================== *)

Module Float64BoundsFacts.

Import Js Float64 Float64Facts Float64Bounds.
Local Open Scope Z_scope.

(** Rounding a mantissa of at least 53 bits gives a normal number (or
    overflows), and the result is not below a double the exact value is not
    below. *)
Lemma binary_round_aux_above mx ex lx M E :
  2 ^ 52 <= mx ->
  let d := Zdigits2 mx in
  -1074 <= d + ex - 53 ->
  2 ^ 52 <= M < 2 ^ 53 ->
  E < d + ex - 53 \/ (E = d + ex - 53 /\ M * 2 ^ (d - 53) <= mx) ->
  above M E (binary_round_aux prec emax false mx ex lx).
Proof.
  intros Hmx d Het HM Hle.
  assert (0 < mx) as Hpos by lia.
  destruct (Zdigits2_bounds mx Hpos) as [Hlo Hhi]. fold d in Hlo, Hhi.
  assert (53 <= d) as Hd.
  { destruct (Z_le_gt_dec 53 d) as [|Hgt]; [assumption|exfalso].
    assert (2 ^ d <= 2 ^ 52) by (apply Z.pow_le_mono_r; lia). lia. }
  unfold binary_round_aux.
  pose proof (shr_fexp_spec mx ex lx ltac:(lia)) as H1. cbv zeta in H1.
  destruct (shr_fexp prec emax mx ex lx) as [mrs1 e1].
  simpl fst in H1. simpl snd in H1. destruct H1 as [Hm1 He1].
  fold d in Hm1, He1. rewrite fexp_eq in Hm1, He1.
  replace (Z.max 0 (Z.max (d + ex - 53) (-1074) - ex)) with (d - 53) in Hm1, He1 by lia.
  pose proof (pow2_pos (d - 53) ltac:(lia)) as Hp.
  assert (2 ^ d = 2 ^ 53 * 2 ^ (d - 53)) as Hsplit.
  { rewrite <- Z.pow_add_r by lia. f_equal. lia. }
  assert (2 ^ (d - 1) = 2 ^ 52 * 2 ^ (d - 53)) as Hsplit'.
  { rewrite <- Z.pow_add_r by lia. f_equal. lia. }
  assert (2 ^ 52 <= shr_m mrs1 < 2 ^ 53) as Hb1.
  { rewrite Hm1. split.
    - apply Z.div_le_lower_bound; [assumption|]. lia.
    - apply Z.div_lt_upper_bound; [assumption|]. lia. }
  set (m1' := round_nearest_even (shr_m mrs1) (loc_of_shr_record mrs1)).
  pose proof (round_nearest_even_bounds (shr_m mrs1) (loc_of_shr_record mrs1)) as Hr.
  fold m1' in Hr.
  pose proof (shr_fexp_spec m1' e1 loc_Exact ltac:(lia)) as H2. cbv zeta in H2.
  destruct (shr_fexp prec emax m1' e1 loc_Exact) as [mrs2 e2].
  simpl fst in H2. simpl snd in H2. destruct H2 as [Hm2 He2].
  rewrite fexp_eq in Hm2, He2.
  assert (M <= shr_m mrs1 \/ E < e1) as HM1.
  { destruct Hle as [Hlt|[-> Hle]]; [right; lia|left].
    rewrite Hm1. apply Z.div_le_lower_bound; [assumption|]. lia. }
  destruct (Z_lt_ge_dec m1' (2 ^ 53)) as [Hlt|Hge].
  - assert (Zdigits2 m1' = 53) as Hd1 by (apply Zdigits2_unique; simpl; lia).
    rewrite Hd1 in Hm2, He2.
    replace (Z.max 0 (Z.max (53 + e1 - 53) (-1074) - e1)) with 0 in Hm2, He2 by lia.
    simpl (2 ^ 0) in Hm2. rewrite Z.div_1_r in Hm2.
    rewrite Hm2. destruct m1' as [|p|p] eqn:Em; try lia.
    destruct (e2 <=? emax - prec); [|exact I].
    simpl. unfold canonical. split; [lia|]. lia.
  - assert (m1' = 2 ^ 53) as Heq by lia.
    assert (Zdigits2 m1' = 54) as Hd1 by (rewrite Heq; reflexivity).
    rewrite Hd1 in Hm2, He2.
    replace (Z.max 0 (Z.max (54 + e1 - 53) (-1074) - e1)) with 1 in Hm2, He2 by lia.
    rewrite Heq in Hm2. change (2 ^ 53 / 2 ^ 1) with (2 ^ 52) in Hm2.
    rewrite Hm2. change (2 ^ 52) with (Z.pos (2 ^ 52)%positive).
    cbv iota.
    destruct (e2 <=? emax - prec); [|exact I].
    simpl. unfold canonical. split; [simpl; lia|]. lia.
Qed.

Lemma SFleb_finite_pos_inv mx ex my ey :
  SFleb (S754_finite false mx ex) (S754_finite false my ey) = true ->
  ex < ey \/ (ex = ey /\ Z.pos mx <= Z.pos my).
Proof.
  unfold SFleb, SFcompare.
  destruct (Z.compare_spec ex ey) as [Heq|Hlt|Hgt]; [|lia|discriminate].
  rewrite Pos.compare_cont_spec. simpl.
  change (mx ?= my)%positive with (Z.pos mx ?= Z.pos my).
  destruct (Z.compare_spec (Z.pos mx) (Z.pos my)); intros; try discriminate; lia.
Qed.

(** The quotient of two doubles is at least 1 when the dividend is at least
    the divisor. *)
Lemma div_above_one ma ea mb eb :
  canonical ma -> canonical mb ->
  ge (S754_finite false ma ea) (S754_finite false mb eb) = true ->
  above (2 ^ 52) (-52) (div (S754_finite false ma ea) (S754_finite false mb eb)).
Proof.
  unfold canonical. intros Ha Hb Hge. apply SFleb_finite_pos_inv in Hge.
  unfold div, SFdiv. cbv [xorb].
  assert (Zdigits2 (Z.pos ma) = 53) as Hda by (apply Zdigits2_unique; simpl; lia).
  assert (Zdigits2 (Z.pos mb) = 53) as Hdb by (apply Zdigits2_unique; simpl; lia).
  destruct (SFdiv_core_binary_spec (Z.pos ma) ea (Z.pos mb) eb ltac:(lia) ltac:(lia))
    as [l Hl].
  cbv zeta in Hl. rewrite Hl. clear Hl. rewrite Hda, Hdb, fexp_eq.
  replace (Z.min (Z.max (53 + ea - (53 + eb) - 53) (-1074)) (ea - eb))
    with (ea - eb - 53) by lia.
  replace (ea - eb - (ea - eb - 53)) with 53 by lia.
  set (q := Z.pos ma * 2 ^ 53 / Z.pos mb).
  assert (2 ^ 52 <= q) as Hqlo.
  { unfold q. apply Z.div_le_lower_bound; [lia|]. nia. }
  assert (q < 2 ^ 54) as Hqhi.
  { unfold q. apply Z.div_lt_upper_bound; [lia|].
    change (2 ^ 54) with (2 * 2 ^ 53). nia. }
  destruct (Z_lt_ge_dec q (2 ^ 53)) as [Hlt|Hge53].
  - assert (Zdigits2 q = 53) as Hdq by (apply Zdigits2_unique; simpl; lia).
    assert (eb < ea) as Hlt'.
    { destruct Hge as [Hlt'|[-> Hm]]; [assumption|exfalso].
      assert (2 ^ 53 <= q); [|lia].
      unfold q. apply Z.div_le_lower_bound; [lia|]. nia. }
    clearbody q.
    apply binary_round_aux_above; rewrite ?Hdq;
      first [lia | simpl (2 ^ (53 - 53)); lia].
  - assert (Zdigits2 q = 54) as Hdq by (apply Zdigits2_unique; simpl; lia).
    clearbody q.
    apply binary_round_aux_above; rewrite ?Hdq;
      first [lia | simpl (2 ^ (54 - 53)); lia].
Qed.

Lemma hundred_eq : hundred = S754_finite false 7036874417766400 (-46).
Proof. reflexivity. Qed.

(** A number that is at least 1, times 100, is at least 100. *)
Lemma mul_hundred_above x :
  above (2 ^ 52) (-52) x -> above 7036874417766400 (-46) (mul x hundred).
Proof.
  intros H. destruct x as [sx|[|]| |[|] mx ex]; simpl in H; try contradiction.
  - exact I.
  - unfold canonical in H. destruct H as [Hc He].
    unfold mul, SFmul. rewrite hundred_eq. cbv [xorb].
    set (p := Z.pos (mx * 7036874417766400)).
    assert (p = Z.pos mx * 7036874417766400) as Hp by reflexivity.
    assert (2 ^ 104 <= p < 2 ^ 106) as Hb.
    { rewrite Hp. split.
      - change (2 ^ 104) with (2 ^ 52 * 2 ^ 52). nia.
      - change (2 ^ 106) with (2 ^ 53 * 2 ^ 53). nia. }
    destruct (Z_lt_ge_dec p (2 ^ 105)) as [Hlt|Hge105].
    + assert (Zdigits2 p = 105) as Hdq by (apply Zdigits2_unique; simpl; lia).
      assert (ex = -52 -> 7036874417766400 * 2 ^ (105 - 53) <= p) as Hm.
      { intros _. rewrite Hp. change (105 - 53) with 52. nia. }
      clearbody p.
      apply binary_round_aux_above; rewrite ?Hdq; lia.
    + assert (Zdigits2 p = 106) as Hdq by (apply Zdigits2_unique; simpl; lia).
      clearbody p.
      apply binary_round_aux_above; rewrite ?Hdq; lia.
Qed.

(** The smaller of a double and a number that is at least that double is
    that double. *)
Lemma Math_min_of_above x (M : positive) E :
  above (Z.pos M) E x -> Math_min x (S754_finite false M E) = S754_finite false M E.
Proof.
  intros H. destruct x as [sx|[|]| |[|] mx ex]; simpl in H; try contradiction.
  - reflexivity.
  - destruct H as [Hc He]. unfold Math_min, SFcompare.
    destruct (Z.compare_spec ex E) as [Heq|Hlt|Hgt]; [|lia|reflexivity].
    rewrite Pos.compare_cont_spec. cbn [Pos.switch_Eq].
    rewrite Pos2Z.inj_compare.
    destruct (Z.compare_spec (Z.pos mx) (Z.pos M)); try reflexivity; lia.
Qed.

Lemma Math_min_above x :
  above 7036874417766400 (-46) x -> Math_min x hundred = hundred.
Proof. rewrite hundred_eq. apply Math_min_of_above. Qed.

(** The double of a positive amount is a normal number. *)
Lemma Number_canonical (s : EtherString) :
  0 < wei s < 2 ^ 256 ->
  exists m e, Number s = S754_finite false m e /\ canonical m.
Proof.
  intros H. destruct (Number_rounds s H) as (e1 & m2 & e2 & Heq & _ & _ & Hlo & Hc).
  exists m2, e2. split; [exact Heq|]. unfold canonical.
  destruct Hc as [(H1 & H2 & _)|(H1 & H2 & _)]; lia.
Qed.

End Float64BoundsFacts.

Module ProgressFacts.

Import Js Float64 Float64Facts Float64Bounds Float64BoundsFacts.
Import CampaignDetails CampaignDetailsFacts.
Local Open Scope Z_scope.

(** Once the goal is reached the progress is exactly 100. *)
Lemma computeProgress_full raised goal :
  uint256 (wei raised) -> 0 < wei goal < 2 ^ 256 ->
  goalReached raised goal = true ->
  computeProgress raised goal = hundred.
Proof.
  intros Hr Hg Hreached. unfold goalReached in Hreached. unfold computeProgress.
  destruct (Number_canonical goal Hg) as (mb & eb & Hb & Hcb).
  rewrite (gt_zero_of_finite_nonzero (Number goal)) by (rewrite Hb; reflexivity).
  destruct (Z.eq_dec (wei raised) 0) as [H0|H0].
  { rewrite (Number_zero raised H0), Hb in Hreached. discriminate Hreached. }
  destruct (Number_canonical raised ltac:(unfold uint256 in Hr; lia))
    as (ma & ea & Ha & Hca).
  rewrite Ha, Hb in Hreached |- *.
  apply Math_min_above, mul_hundred_above, div_above_one; assumption.
Qed.

(** Nothing raised: the progress is 0. *)
Lemma computeProgress_nothing raised goal :
  wei raised = 0 -> 0 <= wei goal < 2 ^ 256 -> computeProgress raised goal = zero.
Proof.
  intros Hr Hg. unfold computeProgress. rewrite (Number_zero raised Hr).
  destruct (Z.eq_dec (wei goal) 0) as [H0|H0].
  { rewrite (Number_zero goal H0). reflexivity. }
  destruct (Number_canonical goal ltac:(lia)) as (mb & eb & -> & Hcb).
  reflexivity.
Qed.

(** A goal that was reached stays reached when more is raised. *)
Lemma goalReached_more raised raised' goal :
  uint256 (wei raised) -> uint256 (wei raised') -> uint256 (wei goal) ->
  wei raised <= wei raised' ->
  goalReached raised goal = true -> goalReached raised' goal = true.
Proof.
  unfold uint256. intros Hr Hr' Hg Hle Hreached.
  destruct (Z.eq_dec (wei goal) 0) as [Hg0|Hg0].
  { apply goalReached_goal_zero; lia. }
  unfold goalReached in *.
  destruct (Number_canonical goal ltac:(lia)) as (mg & eg & Hgoal & _).
  destruct (Z.eq_dec (wei raised) 0) as [Hr0|Hr0].
  { rewrite (Number_zero raised Hr0), Hgoal in Hreached. discriminate Hreached. }
  pose proof (Number_mono raised raised' ltac:(lia) Hle ltac:(lia)) as Hmono.
  destruct (Number_canonical raised ltac:(lia)) as (m & e & Hraised & _).
  destruct (Number_canonical raised' ltac:(lia)) as (m' & e' & Hraised' & _).
  rewrite Hraised, Hraised' in Hmono. rewrite Hraised, Hgoal in Hreached.
  rewrite Hraised', Hgoal. unfold ge in *.
  apply SFleb_finite_pos_inv in Hmono, Hreached. apply SFleb_finite_pos. lia.
Qed.

End ProgressFacts.

(* ===================================================================== *)
(** * The progress bar of a funded campaign *)
(* ===================================================================== *)

Section FundedProgress.

Import Js Float64 Float64Facts CampaignDetails CampaignDetailsFacts ProgressFacts.
Local Open Scope Z_scope.

(** X1.  For a campaign with a positive goal, the details view whose status
    is SUCCESSFUL shows a progress of exactly 100; this is the case whenever
    the amount raised is at least the goal.  When nothing was raised the
    progress is exactly 0. *)
Theorem progress_full_when_goal_reached w campaignId now st contract d count :
  Ledger.getReadOnlyContract w = Ok contract ->
  Ledger.getCampaign contract campaignId = Ok d ->
  Ledger.getDonorCount contract campaignId = Ok count ->
  Ledger.well_formed d ->
  0 < Ledger.goal d ->
  exists c,
    campaign (fetchCampaign w campaignId now st).2 = Some c /\
    (status c = SUCCESSFUL -> progress c = hundred) /\
    (Ledger.goal d <= raisedValue d -> progress c = hundred) /\
    (raisedValue d = 0 -> progress c = zero).
Proof.
  intros H1 H2 H3 Hwf Hgoal. rewrite (fetchCampaign_ok _ _ _ _ _ _ _ H1 H2 H3).
  eexists. split; [reflexivity|]. simpl.
  pose proof (raisedValue_uint256 d Hwf) as Hr.
  destruct Hwf as (Hg & _).
  assert (forall r g, goalReached r g = true -> uint256 (wei r) -> 0 < wei g < 2 ^ 256 ->
                      computeProgress r g = hundred) as Hfull.
  { intros r g ? ? ?. apply computeProgress_full; assumption. }
  split; [|split].
  - intros Hs. apply Hfull; [|exact Hr|unfold uint256 in Hg; simpl; lia].
    unfold computeStatus in Hs.
    destruct (goalReached _ _); [reflexivity|].
    destruct (isExpired _ _); discriminate.
  - intros Hle. apply Hfull; [|exact Hr|unfold uint256 in Hg; simpl; lia].
    apply goalReached_mono; simpl; unfold uint256 in *; lia.
  - intros H0. apply computeProgress_nothing; [exact H0|simpl; unfold uint256 in Hg; lia].
Qed.

(** A goal of 10 ether and 25 ether raised: the bar is full. *)
Lemma progress_full_when_goal_reached_witness :
  exists c,
    campaign (fetchCampaign
                (Samples.world
                   (Samples.contract_with
                      (Samples.record (10 * 10 ^ 18) (25 * 10 ^ 18) 2000000000)))
                7 Samples.now initial).2 = Some c /\
    (status c = SUCCESSFUL -> progress c = hundred) /\
    (10 * 10 ^ 18 <= 25 * 10 ^ 18 -> progress c = hundred) /\
    (25 * 10 ^ 18 = 0 -> progress c = zero).
Proof.
  apply (progress_full_when_goal_reached
           (Samples.world
              (Samples.contract_with
                 (Samples.record (10 * 10 ^ 18) (25 * 10 ^ 18) 2000000000)))
           7 Samples.now initial
           (Samples.contract_with
              (Samples.record (10 * 10 ^ 18) (25 * 10 ^ 18) 2000000000))
           (Samples.record (10 * 10 ^ 18) (25 * 10 ^ 18) 2000000000) 3);
    try reflexivity.
  split; [unfold uint256; vm_compute; split; [discriminate|reflexivity]|].
  split; intros r; simpl; intros [= <-];
    unfold uint256; vm_compute; (split; [discriminate|reflexivity]).
Defined.

(** X21.  A campaign never reopens.  Take two readings of the same
    campaign, the second at a later clock and with at least as much raised,
    the goal and the deadline unchanged, the deadline and the two clock
    readings being seconds below 2^53 (integers that a double holds
    exactly): a view that was SUCCESSFUL is still SUCCESSFUL, a view that
    was ENDED is not ACTIVE again, and a view that is open for donations at
    the second reading was open at the first. *)
Theorem campaign_never_reopens
        w w' campaignId now now' st st' contract contract' d d' count count' :
  Ledger.getReadOnlyContract w = Ok contract ->
  Ledger.getCampaign contract campaignId = Ok d ->
  Ledger.getDonorCount contract campaignId = Ok count ->
  Ledger.getReadOnlyContract w' = Ok contract' ->
  Ledger.getCampaign contract' campaignId = Ok d' ->
  Ledger.getDonorCount contract' campaignId = Ok count' ->
  Ledger.well_formed d -> Ledger.well_formed d' ->
  Ledger.goal d' = Ledger.goal d ->
  Ledger.deadline d' = Ledger.deadline d ->
  raisedValue d <= raisedValue d' ->
  0 <= now <= now' -> now' < 2 ^ 53 -> 0 <= Ledger.deadline d < 2 ^ 53 ->
  exists c c',
    campaign (fetchCampaign w campaignId now st).2 = Some c /\
    campaign (fetchCampaign w' campaignId now' st').2 = Some c' /\
    (status c = SUCCESSFUL -> status c' = SUCCESSFUL) /\
    (status c = ENDED -> status c' <> ACTIVE) /\
    (isActive c' = true -> isActive c = true).
Proof.
  intros H1 H2 H3 H1' H2' H3' Hwf Hwf' Hgoal Hdeadline Hraised Hnow Hnow' Hd.
  rewrite (fetchCampaign_ok _ _ _ _ _ _ _ H1 H2 H3).
  rewrite (fetchCampaign_ok _ _ _ _ _ _ _ H1' H2' H3').
  eexists _, _. split; [reflexivity|]. split; [reflexivity|]. simpl.
  rewrite Hgoal, Hdeadline.
  pose proof (raisedValue_uint256 d Hwf) as Hr.
  pose proof (raisedValue_uint256 d' Hwf') as Hr'.
  destruct Hwf as (Hg & _).
  assert (goalReached (formatEther (raisedValue d)) (formatEther (Ledger.goal d)) = true ->
          goalReached (formatEther (raisedValue d')) (formatEther (Ledger.goal d)) = true)
    as Hmore.
  { apply goalReached_more; assumption. }
  assert (isExpired now (of_Z (Ledger.deadline d)) = true ->
          isExpired now' (of_Z (Ledger.deadline d)) = true) as Hlater.
  { unfold isExpired. rewrite !ge_of_Z by lia. lia. }
  unfold computeStatus.
  destruct (goalReached (formatEther (raisedValue d)) _) eqn:E1;
    destruct (goalReached (formatEther (raisedValue d')) _) eqn:E2;
    destruct (isExpired now _) eqn:E3; destruct (isExpired now' _) eqn:E4;
    simpl; repeat split; intros; try discriminate; try reflexivity;
    try (specialize (Hmore eq_refl); discriminate);
    try (specialize (Hlater eq_refl); discriminate).
Qed.

(** Ten ether asked, deadline 2000000000.  Twelve ether raised at both
    readings: SUCCESSFUL, and SUCCESSFUL still after the deadline.  Four
    ether raised at both readings, taken after the deadline: ENDED, and not
    ACTIVE again.  Four, then five ether raised, both readings before the
    deadline: open at the second reading, and open at the first. *)
Lemma campaign_never_reopens_witness :
  (exists c c',
     campaign (fetchCampaign
                 (Samples.world (Samples.contract_with
                                   (Samples.record (10 * 10 ^ 18) (12 * 10 ^ 18) 2000000000)))
                 7 1999999999 initial).2 = Some c /\
     campaign (fetchCampaign
                 (Samples.world (Samples.contract_with
                                   (Samples.record (10 * 10 ^ 18) (12 * 10 ^ 18) 2000000000)))
                 7 2000000001 initial).2 = Some c' /\
     status c = SUCCESSFUL /\ status c' = SUCCESSFUL) /\
  (exists c c',
     campaign (fetchCampaign
                 (Samples.world (Samples.contract_with
                                   (Samples.record (10 * 10 ^ 18) (4 * 10 ^ 18) 2000000000)))
                 7 2000000001 initial).2 = Some c /\
     campaign (fetchCampaign
                 (Samples.world (Samples.contract_with
                                   (Samples.record (10 * 10 ^ 18) (4 * 10 ^ 18) 2000000000)))
                 7 2000000002 initial).2 = Some c' /\
     status c = ENDED /\ status c' <> ACTIVE) /\
  (exists c c',
     campaign (fetchCampaign
                 (Samples.world (Samples.contract_with
                                   (Samples.record (10 * 10 ^ 18) (4 * 10 ^ 18) 2000000000)))
                 7 1999999998 initial).2 = Some c /\
     campaign (fetchCampaign
                 (Samples.world (Samples.contract_with
                                   (Samples.record (10 * 10 ^ 18) (5 * 10 ^ 18) 2000000000)))
                 7 1999999999 initial).2 = Some c' /\
     isActive c' = true /\ isActive c = true).
Proof.
  assert (forall goal amount deadline,
            0 <= goal < 2 ^ 256 -> 0 <= amount < 2 ^ 256 ->
            Ledger.well_formed (Samples.record goal amount deadline)) as Hrecord.
  { intros goal amount deadline Hgoal Hamount. split; [exact Hgoal|].
    split; intros r; simpl; intros [= <-]. exact Hamount. }
  split; [|split].
  - assert (Ledger.well_formed (Samples.record (10 * 10 ^ 18) (12 * 10 ^ 18) 2000000000)) as Hwf
      by (apply Hrecord; vm_compute; (split; [discriminate|reflexivity])).
    assert (Ledger.well_formed (Samples.record (10 * 10 ^ 18) (12 * 10 ^ 18) 2000000000)) as Hwf'
      by (apply Hrecord; vm_compute; (split; [discriminate|reflexivity])).
    assert (raisedValue (Samples.record (10 * 10 ^ 18) (12 * 10 ^ 18) 2000000000) <= raisedValue (Samples.record (10 * 10 ^ 18) (12 * 10 ^ 18) 2000000000)) as Hraised
      by (vm_compute; discriminate).
    assert (0 <= 1999999999 <= 2000000001) as Hnow by (split; vm_compute; discriminate).
    assert (0 <= 2000000000 < 2 ^ 53) as Hdeadline
      by (vm_compute; split; [discriminate|reflexivity]).
    destruct (campaign_never_reopens
                (Samples.world (Samples.contract_with (Samples.record (10 * 10 ^ 18) (12 * 10 ^ 18) 2000000000)))
                (Samples.world (Samples.contract_with (Samples.record (10 * 10 ^ 18) (12 * 10 ^ 18) 2000000000)))
                7 1999999999 2000000001 initial initial
                (Samples.contract_with (Samples.record (10 * 10 ^ 18) (12 * 10 ^ 18) 2000000000))
                (Samples.contract_with (Samples.record (10 * 10 ^ 18) (12 * 10 ^ 18) 2000000000))
                (Samples.record (10 * 10 ^ 18) (12 * 10 ^ 18) 2000000000) (Samples.record (10 * 10 ^ 18) (12 * 10 ^ 18) 2000000000) 3 3
                eq_refl eq_refl eq_refl eq_refl eq_refl eq_refl Hwf Hwf'
                eq_refl eq_refl Hraised Hnow eq_refl Hdeadline)
      as (c & c' & Hc & Hc' & Hsuccessful & _ & _).
    exists c, c'. split; [exact Hc|]. split; [exact Hc'|].
    assert (status c = SUCCESSFUL) as Hstatus
      by (vm_compute in Hc; injection Hc as <-; reflexivity).
    split; [exact Hstatus|exact (Hsuccessful Hstatus)].
  - assert (Ledger.well_formed (Samples.record (10 * 10 ^ 18) (4 * 10 ^ 18) 2000000000)) as Hwf
      by (apply Hrecord; vm_compute; (split; [discriminate|reflexivity])).
    assert (Ledger.well_formed (Samples.record (10 * 10 ^ 18) (4 * 10 ^ 18) 2000000000)) as Hwf'
      by (apply Hrecord; vm_compute; (split; [discriminate|reflexivity])).
    assert (raisedValue (Samples.record (10 * 10 ^ 18) (4 * 10 ^ 18) 2000000000) <= raisedValue (Samples.record (10 * 10 ^ 18) (4 * 10 ^ 18) 2000000000)) as Hraised
      by (vm_compute; discriminate).
    assert (0 <= 2000000001 <= 2000000002) as Hnow by (split; vm_compute; discriminate).
    assert (0 <= 2000000000 < 2 ^ 53) as Hdeadline
      by (vm_compute; split; [discriminate|reflexivity]).
    destruct (campaign_never_reopens
                (Samples.world (Samples.contract_with (Samples.record (10 * 10 ^ 18) (4 * 10 ^ 18) 2000000000)))
                (Samples.world (Samples.contract_with (Samples.record (10 * 10 ^ 18) (4 * 10 ^ 18) 2000000000)))
                7 2000000001 2000000002 initial initial
                (Samples.contract_with (Samples.record (10 * 10 ^ 18) (4 * 10 ^ 18) 2000000000))
                (Samples.contract_with (Samples.record (10 * 10 ^ 18) (4 * 10 ^ 18) 2000000000))
                (Samples.record (10 * 10 ^ 18) (4 * 10 ^ 18) 2000000000) (Samples.record (10 * 10 ^ 18) (4 * 10 ^ 18) 2000000000) 3 3
                eq_refl eq_refl eq_refl eq_refl eq_refl eq_refl Hwf Hwf'
                eq_refl eq_refl Hraised Hnow eq_refl Hdeadline)
      as (c & c' & Hc & Hc' & _ & Hended & _).
    exists c, c'. split; [exact Hc|]. split; [exact Hc'|].
    assert (status c = ENDED) as Hstatus
      by (vm_compute in Hc; injection Hc as <-; reflexivity).
    split; [exact Hstatus|exact (Hended Hstatus)].
  - assert (Ledger.well_formed (Samples.record (10 * 10 ^ 18) (4 * 10 ^ 18) 2000000000)) as Hwf
      by (apply Hrecord; vm_compute; (split; [discriminate|reflexivity])).
    assert (Ledger.well_formed (Samples.record (10 * 10 ^ 18) (5 * 10 ^ 18) 2000000000)) as Hwf'
      by (apply Hrecord; vm_compute; (split; [discriminate|reflexivity])).
    assert (raisedValue (Samples.record (10 * 10 ^ 18) (4 * 10 ^ 18) 2000000000) <= raisedValue (Samples.record (10 * 10 ^ 18) (5 * 10 ^ 18) 2000000000)) as Hraised
      by (vm_compute; discriminate).
    assert (0 <= 1999999998 <= 1999999999) as Hnow by (split; vm_compute; discriminate).
    assert (0 <= 2000000000 < 2 ^ 53) as Hdeadline
      by (vm_compute; split; [discriminate|reflexivity]).
    destruct (campaign_never_reopens
                (Samples.world (Samples.contract_with (Samples.record (10 * 10 ^ 18) (4 * 10 ^ 18) 2000000000)))
                (Samples.world (Samples.contract_with (Samples.record (10 * 10 ^ 18) (5 * 10 ^ 18) 2000000000)))
                7 1999999998 1999999999 initial initial
                (Samples.contract_with (Samples.record (10 * 10 ^ 18) (4 * 10 ^ 18) 2000000000))
                (Samples.contract_with (Samples.record (10 * 10 ^ 18) (5 * 10 ^ 18) 2000000000))
                (Samples.record (10 * 10 ^ 18) (4 * 10 ^ 18) 2000000000) (Samples.record (10 * 10 ^ 18) (5 * 10 ^ 18) 2000000000) 3 3
                eq_refl eq_refl eq_refl eq_refl eq_refl eq_refl Hwf Hwf'
                eq_refl eq_refl Hraised Hnow eq_refl Hdeadline)
      as (c & c' & Hc & Hc' & _ & _ & Hopen).
    exists c, c'. split; [exact Hc|]. split; [exact Hc'|].
    assert (isActive c' = true) as Hactive
      by (vm_compute in Hc'; injection Hc' as <-; reflexivity).
    split; [exact Hactive|exact (Hopen Hactive)].
Defined.

End FundedProgress.

(* ===================================================================== *)
(** * The list and the details page on the same campaign *)
(* ===================================================================== *)

Section TwoPages.

Import Js Float64 CampaignDetailsFacts CampaignsFacts.
Local Open Scope Z_scope.

(** X2.  The list page and the details page, built from the same ledger
    record at the same clock reading.  The list reads the amount raised
    under the name [raisedAmount] only: a record without it has a details
    view and no card.  When the record has a [raisedAmount], the card and
    the view carry the same id, goal and deadline, and the details title is
    the card's title or the placeholder.  They carry the same amount raised
    exactly when the field [raised] of the record, which the details page
    reads first, is absent, zero or equal to [raisedAmount].  A view that is
    ACTIVE (or ENDED) on the details page is ACTIVE (or ENDED) on the list;
    the two pages disagree on whether the campaign is open only when the
    details status is SUCCESSFUL. *)
Theorem list_and_details_agree w contract campaignId now st d count :
  Ledger.getReadOnlyContract w = Ok contract ->
  Ledger.getCampaign contract campaignId = Ok d ->
  Ledger.getDonorCount contract campaignId = Ok count ->
  exists c,
    CampaignDetails.campaign (CampaignDetails.fetchCampaign w campaignId now st).2 = Some c /\
    (Ledger.raisedAmount d = None ->
     Campaigns.fetchSingleCampaign contract campaignId now = Ok None) /\
    (forall amount,
       Ledger.raisedAmount d = Some amount ->
       exists v,
         Campaigns.fetchSingleCampaign contract campaignId now = Ok (Some v) /\
         Campaigns.id v = CampaignDetails.id c /\
         Campaigns.goal v = CampaignDetails.goal c /\
         Campaigns.deadline v = CampaignDetails.deadline c /\
         CampaignDetails.title c = or_string (Campaigns.title v) "Untitled Campaign" /\
         Campaigns.raised v = formatEther amount /\
         CampaignDetails.raised c = formatEther (CampaignDetails.raisedValue d) /\
         (Campaigns.raised v = CampaignDetails.raised c <->
          Ledger.raised d = None \/ Ledger.raised d = Some 0 \/
          Ledger.raised d = Some amount) /\
         (CampaignDetails.status c = CampaignDetails.ACTIVE ->
          Campaigns.status v = Campaigns.ACTIVE) /\
         (CampaignDetails.status c = CampaignDetails.ENDED ->
          Campaigns.status v = Campaigns.ENDED) /\
         (Campaigns.isActive v = CampaignDetails.isActive c \/
          CampaignDetails.status c = CampaignDetails.SUCCESSFUL)).
Proof.
  intros H1 H2 H3.
  rewrite (fetchCampaign_ok _ _ _ _ _ _ _ H1 H2 H3).
  rewrite (fetchSingleCampaign_record _ _ _ _ H2).
  eexists. split; [reflexivity|]. split; [intros ->; reflexivity|].
  intros amount Hamount. rewrite Hamount.
  eexists. split; [reflexivity|]. simpl.
  repeat (split; [reflexivity|]).
  split.
  - unfold CampaignDetails.raisedValue. rewrite Hamount.
    destruct (Ledger.raised d) as [[|r|r]|]; split.
    + auto.
    + intros _. destruct amount; reflexivity.
    + intros [= ->]. auto.
    + intros [H|[H|H]]; [discriminate H|discriminate H|]. injection H as <-. reflexivity.
    + intros [= ->]. auto.
    + intros [H|[H|H]]; [discriminate H|discriminate H|]. injection H as <-. reflexivity.
    + auto.
    + intros _. destruct amount; reflexivity.
  - unfold CampaignDetails.computeStatus, CampaignDetails.isExpired.
    destruct (CampaignDetails.goalReached _ _), (ge (of_Z now) (of_Z (Ledger.deadline d)));
      simpl; repeat split; try discriminate; auto.
Qed.

(** A campaign of goal 10 ether that raised 4 ether, deadline ahead: the
    card and the view show the same 4 ether. *)
Lemma list_and_details_agree_witness :
  exists c v,
    CampaignDetails.campaign
      (CampaignDetails.fetchCampaign
         (Samples.world (Samples.contract_with
                           (Samples.record (10 * 10 ^ 18) (4 * 10 ^ 18) 2000000000)))
         7 Samples.now CampaignDetails.initial).2 = Some c /\
    Campaigns.fetchSingleCampaign
      (Samples.contract_with (Samples.record (10 * 10 ^ 18) (4 * 10 ^ 18) 2000000000))
      7 Samples.now = Ok (Some v) /\
    Campaigns.id v = CampaignDetails.id c /\
    Campaigns.goal v = CampaignDetails.goal c /\
    Campaigns.deadline v = CampaignDetails.deadline c /\
    Campaigns.raised v = formatEther (4 * 10 ^ 18) /\
    Campaigns.raised v = CampaignDetails.raised c /\
    CampaignDetails.status c = CampaignDetails.ACTIVE /\
    Campaigns.status v = Campaigns.ACTIVE.
Proof.
  destruct (list_and_details_agree
              (Samples.world (Samples.contract_with
                                (Samples.record (10 * 10 ^ 18) (4 * 10 ^ 18) 2000000000)))
              (Samples.contract_with (Samples.record (10 * 10 ^ 18) (4 * 10 ^ 18) 2000000000))
              7 Samples.now CampaignDetails.initial
              (Samples.record (10 * 10 ^ 18) (4 * 10 ^ 18) 2000000000) 3)
    as (c & Hc & _ & Hcard); try reflexivity.
  destruct (Hcard (4 * 10 ^ 18) eq_refl)
    as (v & Hv & Hid & Hgoal & Hdeadline & _ & Hraised & _ & Hsame & Hactive & _).
  exists c, v. split; [exact Hc|]. split; [exact Hv|].
  split; [exact Hid|]. split; [exact Hgoal|]. split; [exact Hdeadline|].
  split; [exact Hraised|]. split; [apply Hsame; left; reflexivity|].
  assert (CampaignDetails.status c = CampaignDetails.ACTIVE) as Hstatus
    by (vm_compute in Hc; injection Hc as <-; reflexivity).
  split; [exact Hstatus|exact (Hactive Hstatus)].
Defined.

(** A record whose [raised] and [raisedAmount] differ: the details page
    shows the first and the list the second. *)
Example list_and_details_differ :
  let d := {| Ledger.creator := "0x00000000000000000000000000000000000000A1";
              Ledger.title := "Community center";
              Ledger.description := "";
              Ledger.goal := 10 * 10 ^ 18;
              Ledger.raised := Some (1 * 10 ^ 18);
              Ledger.raisedAmount := Some (4 * 10 ^ 18);
              Ledger.deadline := 2000000000 |} in
  exists c v,
    CampaignDetails.campaign
      (CampaignDetails.fetchCampaign (Samples.world (Samples.contract_with d))
         7 Samples.now CampaignDetails.initial).2 = Some c /\
    Campaigns.fetchSingleCampaign (Samples.contract_with d) 7 Samples.now = Ok (Some v) /\
    CampaignDetails.raised c = formatEther (1 * 10 ^ 18) /\
    Campaigns.raised v = formatEther (4 * 10 ^ 18).
Proof. eexists _, _. repeat split; vm_compute; reflexivity. Qed.

End TwoPages.

(* ===================================================================== *)
(** * What the pages show once the data was fetched *)
(* ===================================================================== *)

Module ScreenFacts.

Import Js.

Lemma or_string_truthy s d : truthy_string d = true -> truthy_string (or_string s d) = true.
Proof. intros Hd. unfold or_string. destruct (truthy_string s) eqn:E; assumption. Qed.

Lemma or_string_of_truthy s d : truthy_string s = true -> or_string s d = s.
Proof. intros Hs. unfold or_string. rewrite Hs. reflexivity. Qed.

(** The screen of the details page in a state left by a failure. *)
Lemma render_failed isReady e st :
  CampaignDetailsScreen.render isReady (CampaignDetails.failed e st)
  = CampaignDetailsScreen.ErrorBox
      (or_string (message e) "Failed to load campaign details").
Proof.
  unfold CampaignDetailsScreen.render, CampaignDetails.failed. simpl.
  assert (truthy_string (or_string (message e) "Failed to load campaign details") = true)
    as Ht by (apply or_string_truthy; reflexivity).
  rewrite Ht, (or_string_of_truthy _ _ Ht). destruct (CampaignDetails.campaign st); reflexivity.
Qed.

End ScreenFacts.

Section Screens.

Import Js Float64 CampaignDetailsFacts CampaignsFacts ScreenFacts.
Local Open Scope Z_scope.

(** X3.  After [fetchCampaign] the details page never shows the spinner.
    When the provider, the record read or the donor-count read failed it
    shows the error box with the message of the failure (a fixed text when
    the message is empty), even if a view was on display before.  Otherwise
    it shows the view, with the donate button exactly when the status is
    ACTIVE, the text "Campaign goal reached!" exactly when it is SUCCESSFUL
    and "Campaign has ended" exactly when it is ENDED. *)
Theorem details_screen_after_fetch w campaignId now st isReady :
  let st' := (CampaignDetails.fetchCampaign w campaignId now st).2 in
  let failure e :=
    CampaignDetailsScreen.render isReady st'
    = CampaignDetailsScreen.ErrorBox
        (or_string (message e) "Failed to load campaign details") in
  CampaignDetailsScreen.render isReady st' <> CampaignDetailsScreen.Spinner /\
  match Ledger.getReadOnlyContract w with
  | Throw e => failure e
  | Ok contract =>
      match Ledger.getCampaign contract campaignId with
      | Throw e => failure e
      | Ok d =>
          match Ledger.getDonorCount contract campaignId with
          | Throw e => failure e
          | Ok count =>
              exists c panel,
                CampaignDetails.campaign st' = Some c /\
                CampaignDetailsScreen.render isReady st'
                = CampaignDetailsScreen.Details c panel /\
                (CampaignDetails.status c = CampaignDetails.ACTIVE <->
                 panel = CampaignDetailsScreen.DonateButton
                           (if isReady then "Donate Now" else "Connect to Donate")) /\
                (CampaignDetails.status c = CampaignDetails.SUCCESSFUL <->
                 panel = CampaignDetailsScreen.Closed "Campaign goal reached!") /\
                (CampaignDetails.status c = CampaignDetails.ENDED <->
                 panel = CampaignDetailsScreen.Closed "Campaign has ended")
          end
      end
  end.
Proof.
  cbv zeta.
  destruct (Ledger.getReadOnlyContract w) as [contract|e] eqn:H1.
  2:{ rewrite (fetchCampaign_no_provider _ _ _ _ _ H1). simpl snd.
      rewrite render_failed. split; [discriminate|reflexivity]. }
  destruct (Ledger.getCampaign contract campaignId) as [d|e] eqn:H2.
  2:{ rewrite (fetchCampaign_no_record _ _ _ _ _ _ H1 H2). simpl snd.
      rewrite render_failed. split; [discriminate|reflexivity]. }
  destruct (Ledger.getDonorCount contract campaignId) as [count|e] eqn:H3.
  2:{ rewrite (fetchCampaign_no_donor_count _ _ _ _ _ _ _ H1 H2 H3). simpl snd.
      rewrite render_failed. split; [discriminate|reflexivity]. }
  rewrite (fetchCampaign_ok _ _ _ _ _ _ _ H1 H2 H3). simpl snd.
  unfold CampaignDetailsScreen.render. simpl.
  split; [discriminate|].
  eexists _, _. split; [reflexivity|]. split; [reflexivity|].
  unfold CampaignDetailsScreen.panel_of. simpl.
  unfold CampaignDetails.computeStatus.
  destruct (CampaignDetails.goalReached _ _), (CampaignDetails.isExpired _ _); simpl;
    repeat split; intros; try discriminate; try reflexivity.
Qed.

(** X4.  After [fetchAllCampaigns] the list page never shows the spinner.
    It shows the error box exactly when the provider or the campaign count
    could not be read.  Otherwise it shows the cards of the campaigns that
    could be read, newest first, and the empty state "No Campaigns Yet"
    exactly when no campaign below the count could be read: this includes a
    count of zero, and also a ledger all of whose reads fail. *)
Theorem list_screen_after_fetch getReadOnlyContract clock st :
  let st' := (Campaigns.fetchAllCampaigns getReadOnlyContract clock st).2 in
  let failure e :=
    CampaignsScreen.render st'
    = CampaignsScreen.ErrorBox
        (or_string (message e) "Failed to load campaigns. Please try again later.") in
  CampaignsScreen.render st' <> CampaignsScreen.Spinner /\
  match getReadOnlyContract with
  | Throw e => failure e
  | Ok contract =>
      match Ledger.campaignCount contract with
      | Throw e => failure e
      | Ok total =>
          let cards := reverse (omap (Campaigns.kept contract clock)
                                     (Campaigns.indices total)) in
          (CampaignsScreen.render st' = CampaignsScreen.NoCampaignsYet <->
           forall i, 0 <= i < total -> Campaigns.kept contract clock i = None) /\
          (CampaignsScreen.render st' = CampaignsScreen.NoCampaignsYet \/
           CampaignsScreen.render st' = CampaignsScreen.Grid cards) /\
          (forall i, Campaigns.kept contract clock i = None <->
                     (exists e, Ledger.getCampaign contract i = Throw e) \/
                     (exists d, Ledger.getCampaign contract i = Ok d /\
                                Ledger.raisedAmount d = None))
      end
  end.
Proof.
  cbv zeta.
  assert (forall e st0,
            CampaignsScreen.render
              {| Campaigns.campaigns := Campaigns.campaigns st0; Campaigns.loading := false;
                 Campaigns.error := Some (or_string (message e)
                    "Failed to load campaigns. Please try again later.") |}
            = CampaignsScreen.ErrorBox
                (or_string (message e) "Failed to load campaigns. Please try again later."))
    as Hfail.
  { intros e st0. unfold CampaignsScreen.render. simpl.
    rewrite or_string_truthy by reflexivity. reflexivity. }
  destruct getReadOnlyContract as [contract|e] eqn:H1.
  2:{ rewrite (fetchAllCampaigns_failure (Throw e) clock st e) by (left; reflexivity).
      simpl snd. rewrite Hfail. split; [discriminate|reflexivity]. }
  destruct (Ledger.campaignCount contract) as [total|e] eqn:H2.
  2:{ rewrite (fetchAllCampaigns_failure (Ok contract) clock st e)
        by (right; exists contract; split; [reflexivity|assumption]).
      simpl snd. rewrite Hfail. split; [discriminate|reflexivity]. }
  rewrite (fetchAllCampaigns_ok _ _ _ _ H2). simpl snd.
  unfold CampaignsScreen.render. simpl.
  set (survivors := omap (Campaigns.kept contract clock) (Campaigns.indices total)).
  assert (survivors = [] <->
          forall i, 0 <= i < total -> Campaigns.kept contract clock i = None) as Hnone.
  { unfold survivors. split.
    - intros Hnil i Hi.
      destruct (Campaigns.kept contract clock i) as [v|] eqn:Hk; [exfalso|reflexivity].
      assert (v ∈ omap (Campaigns.kept contract clock) (Campaigns.indices total)) as Hin.
      { apply list_elem_of_omap. exists i. split; [|exact Hk].
        unfold Campaigns.indices. apply list_elem_of_fmap.
        exists (Z.to_nat i). split; [lia|]. apply elem_of_seq. lia. }
      rewrite Hnil in Hin. inversion Hin.
    - intros Hall.
      destruct (omap (Campaigns.kept contract clock) (Campaigns.indices total))
        as [|v l] eqn:Hl; [reflexivity|exfalso].
      assert (v ∈ omap (Campaigns.kept contract clock) (Campaigns.indices total)) as Hin
        by (rewrite Hl; left).
      apply list_elem_of_omap in Hin as (i & Hi & Hk).
      unfold Campaigns.indices in Hi. apply list_elem_of_fmap in Hi as (n & -> & Hn).
      apply elem_of_seq in Hn. rewrite Hall in Hk by lia. discriminate. }
  split; [|split; [|split]].
  - destruct (reverse survivors); discriminate.
  - rewrite <- Hnone. destruct survivors as [|v l] eqn:Hs.
    + split; reflexivity.
    + destruct (reverse (v :: l)) as [|v' l'] eqn:Hr.
      * apply (f_equal length) in Hr. rewrite length_reverse in Hr. discriminate.
      * split; discriminate.
  - destruct (reverse survivors); [left|right]; reflexivity.
  - intros i. unfold Campaigns.kept.
    destruct (Ledger.getCampaign contract i) as [d|e] eqn:Hg.
    + rewrite (fetchSingleCampaign_record _ _ _ _ Hg).
      destruct (Ledger.raisedAmount d) as [a|] eqn:Ha.
      * split; [discriminate|]. intros [[e He]|(d' & Hd' & Hnone')]; [discriminate|].
        injection Hd' as <-. congruence.
      * split; [|reflexivity]. intros _. right. exists d. split; [reflexivity|assumption].
    + rewrite (fetchSingleCampaign_failure _ _ _ _ Hg).
      split; [|reflexivity]. intros _. left. exists e. reflexivity.
Qed.

End Screens.

(* ===================================================================== *)
(** * The client service: addresses, uploads and lookups *)
(* ===================================================================== *)

Module StringFacts.

Import Js.

Lemma prefix_inv (p s : string) :
  String.prefix p s = true -> exists rest, s = p +:+ rest.
Proof.
  revert s. induction p as [|a p IH]; intros s H.
  - exists s. reflexivity.
  - destruct s as [|b s]; [discriminate|]. simpl in H.
    destruct (Ascii.ascii_dec a b) as [->|]; [|discriminate].
    destruct (IH s H) as [rest ->]. exists rest. reflexivity.
Qed.

Lemma substring_all (s : string) (n : nat) :
  String.length s <= n -> String.substring 0 n s = s.
Proof.
  revert n. induction s as [|c s IH]; intros n Hn.
  - destruct n; reflexivity.
  - destruct n as [|n]; simpl in Hn; [lia|]. simpl. f_equal. apply IH. lia.
Qed.

Lemma length_append (a b : string) :
  String.length (a +:+ b) = String.length a + String.length b.
Proof. induction a as [|c a IH]; simpl; [reflexivity|]. rewrite IH. reflexivity. Qed.

Lemma replace_cons (pattern replacement : string) c s :
  replace pattern replacement (String c s)
  = if String.prefix pattern (String c s)
    then replacement +:+ String.substring (String.length pattern)
                           (String.length (String c s)) (String c s)
    else String c (replace pattern replacement s).
Proof. reflexivity. Qed.

(** A string that holds no occurrence of the pattern is left as it is. *)
Lemma replace_absent (pattern replacement s : string) :
  (forall a b, s <> a +:+ pattern +:+ b) -> replace pattern replacement s = s.
Proof.
  induction s as [|c s IH]; intros Habsent.
  - destruct pattern as [|a pattern]; [|reflexivity].
    exfalso. apply (Habsent "" ""). reflexivity.
  - rewrite replace_cons. destruct (String.prefix pattern (String c s)) eqn:Hp.
    + destruct (prefix_inv _ _ Hp) as [rest Hrest].
      exfalso. apply (Habsent "" rest). exact Hrest.
    + f_equal. apply IH. intros a b Hs. apply (Habsent (String c a) b).
      rewrite Hs. reflexivity.
Qed.

Lemma prefix_append (p s : string) : String.prefix p (p +:+ s) = true.
Proof.
  induction p as [|a p IH]; simpl.
  - destruct s; reflexivity.
  - destruct (Ascii.ascii_dec a a); [exact IH|congruence].
Qed.

Lemma substring_skip (p s : string) (m : nat) :
  String.length s <= m -> String.substring (String.length p) m (p +:+ s) = s.
Proof. intros Hm. induction p as [|a p IH]; simpl; [apply substring_all; exact Hm|exact IH]. Qed.

(** A pattern at the head of the string is the occurrence replaced. *)
Lemma replace_prefix (pattern replacement s : string) :
  replace pattern replacement (pattern +:+ s) = replacement +:+ s.
Proof.
  destruct (pattern +:+ s) as [|c t] eqn:E.
  - destruct pattern; [|discriminate]. change (s = "") in E. rewrite E. reflexivity.
  - rewrite replace_cons, <- E, prefix_append, substring_skip; [reflexivity|].
    rewrite length_append. lia.
Qed.

End StringFacts.

Module UploadFacts.

Import Js Route UploadRoute UploadRouteFacts.

(** The answer of the upload route and the calls it makes, case by case. *)
Lemma POST_cases PINATA_JWT pinata Date_now req trace :
  POST PINATA_JWT pinata Date_now req trace =
  match configured PINATA_JWT with
  | None =>
      (Ok (json_response (JObj [("error", JStr "Server configuration error")]) 500), trace)
  | Some jwt =>
      match json req with
      | Throw e =>
          (Ok (json_response (failure_body "Failed to upload to IPFS" e) 500),
           trace ++ [ReadBody])
      | Ok JNull =>
          (Ok (json_response
                 (failure_body "Failed to upload to IPFS"
                    (new_Error "Cannot read properties of null (reading 'campaignId')")) 500),
           trace ++ [ReadBody])
      | Ok body =>
          let campaignId := get_opt (Some body) "campaignId" in
          if truthy campaignId && truthy (get_opt (Some body) "title") then
            let write := PinJSONToIPFS (with_createdAt body Date_now)
                           ("campaign-" +:+ from_option String_of "undefined" campaignId)
                           campaignId jwt in
            match pinata (with_createdAt body Date_now) with
            | Ok response =>
                (Ok (json_response
                       (JObj [("success", JBool true);
                              ("ipfsHash", JStr (IpfsHash response));
                              ("ipfsUri", JStr ("ipfs://" +:+ IpfsHash response))]) 200),
                 (trace ++ [ReadBody]) ++ [write])
            | Throw e =>
                (Ok (json_response (failure_body "Failed to upload to IPFS" e) 500),
                 (trace ++ [ReadBody]) ++ [write])
            end
          else
            (Ok (json_response
                   (JObj [("error", JStr "Missing required fields: campaignId, title")]) 400),
             trace ++ [ReadBody])
      end
  end.
Proof.
  unfold POST. destruct (configured PINATA_JWT) as [jwt|]; [|reflexivity].
  unfold try_catch_M, req_json, lift, axios_post. unfold mbind, M_bind, mret, M_ret.
  cbn beta iota. destruct (json req) as [body|e]; [|reflexivity].
  assert (body = JNull \/ body <> JNull) as [->|Hnull]
    by (destruct body; (left; reflexivity) || (right; discriminate)).
  { reflexivity. }
  rewrite !(get_not_null body) by assumption.
  assert (forall (X : Type) (a b : X),
            match body with JNull => a | _ => b end = b) as Hmatch
    by (intros X a b; destruct body; congruence).
  rewrite Hmatch.
  destruct (truthy (get_opt (Some body) "campaignId")); cbn [negb andb]; [|reflexivity].
  destruct (truthy (get_opt (Some body) "title")); cbn [negb]; [|reflexivity].
  destruct (pinata (with_createdAt body Date_now)); reflexivity.
Qed.

Lemma last_binding_app key fields k v :
  last_binding key (fields ++ [(k, v)])
  = if decide (k = key) then Some v else last_binding key fields.
Proof.
  induction fields as [|[k' v'] fields IH]; simpl.
  - reflexivity.
  - rewrite IH. destruct (decide (k = key)); [reflexivity|].
    destruct (last_binding key fields); reflexivity.
Qed.

(** The failure body always carries the summary and a [details] field. *)
Lemma failure_body_fields summary e :
  exists details,
    failure_body summary e = JObj [("error", JStr summary); ("details", details)] /\
    details = (if truthy (get_opt (response_data e) "error")
               then from_option (fun d => d) JNull (get_opt (response_data e) "error")
               else JStr (message e)).
Proof.
  unfold failure_body, failure_details, or_value.
  destruct (truthy (get_opt (response_data e) "error")) eqn:Ht.
  - destruct (get_opt (response_data e) "error") as [d|]; [|discriminate].
    eexists. split; reflexivity.
  - eexists. split; reflexivity.
Qed.

End UploadFacts.

Module UploadClientFacts.

Import Js.

(** The client of the upload route: one request, and every failure under
    the same error. *)
Lemma uploadMetadataToPinata_spec {S} endpoint
        (fetch : string -> json -> M S PinataService.Response) metadata (s : S) :
  let run := PinataUpload.uploadMetadataToPinata endpoint fetch metadata s in
  run.2 = (fetch endpoint metadata s).2 /\
  (forall e, run.1 = Throw e -> e = new_Error "Failed to upload metadata to IPFS") /\
  (forall uri,
     run.1 = Ok uri <->
     exists response data,
       (fetch endpoint metadata s).1 = Ok response /\
       PinataService.ok response = true /\
       PinataService.json response = Ok data /\
       get data "ipfsUri" = Ok uri).
Proof.
  cbv zeta. unfold PinataUpload.uploadMetadataToPinata, try_catch_M, lift.
  unfold mbind, M_bind, mret, M_ret. cbn beta iota.
  destruct (fetch endpoint metadata s) as [[response|e] s'] eqn:Hf; simpl.
  2:{ split; [reflexivity|]. split; [intros e' [= <-]; reflexivity|].
      intros uri. split; [discriminate|]. intros (r & d & [=] & _). }
  destruct (PinataService.ok response) eqn:Hok; cbn [negb].
  - destruct (PinataService.json response) as [data|e] eqn:Hj; simpl.
    + destruct (get data "ipfsUri") as [uri|e] eqn:Hg; simpl.
      * split; [reflexivity|]. split; [discriminate|].
        intros uri'. split.
        -- intros [= <-]. exists response, data. auto.
        -- intros (r & d & [= <-] & _ & Hd & Hu). congruence.
      * split; [reflexivity|]. split; [intros e' [= <-]; reflexivity|].
        intros uri'. split; [discriminate|].
        intros (r & d & [= <-] & _ & Hd & Hu). congruence.
    + split; [reflexivity|]. split; [intros e' [= <-]; reflexivity|].
      intros uri'. split; [discriminate|].
      intros (r & d & [= <-] & _ & Hd & Hu). congruence.
  - assert (forall s1 : S,
              (s1 = s1 /\
               (forall e', Throw (A := option json)
                             (new_Error "Failed to upload metadata to IPFS") = Throw e' ->
                           e' = new_Error "Failed to upload metadata to IPFS") /\
               (forall uri,
                  Throw (new_Error "Failed to upload metadata to IPFS") = Ok uri <->
                  exists r d, Ok response = Ok r /\ PinataService.ok r = true /\
                              PinataService.json r = Ok d /\ get d "ipfsUri" = Ok uri)))
      as Hleaf.
    { intros s1. split; [reflexivity|]. split; [intros e' [= <-]; reflexivity|].
      intros uri'. split; [discriminate|].
      intros (r & d & [= <-] & Hok' & _). congruence. }
    destruct (PinataService.json response) as [error|e]; simpl; [|apply Hleaf].
    destruct (get error "details") as [details|e]; simpl; [|apply Hleaf].
    destruct (truthy details); simpl; [apply Hleaf|].
    destruct (get error "error") as [error'|e]; simpl; apply Hleaf.
Qed.

End UploadClientFacts.

Section ClientService.

Import Js Route StringFacts UploadFacts UploadClientFacts.

(** X5.  [fetchMetadataFromIPFS] accepts an [ipfs://] address and a raw
    hash alike: for a hash [h] that holds no [ipfs://] itself, both forms
    ask the gateway for [<gateway>/h] and return what it returns; whatever
    makes the request fail, the error thrown is the fixed
    "Failed to fetch metadata from IPFS". *)
Theorem fetchMetadataFromIPFS_address axios_get h :
  (forall a b, h <> a +:+ "ipfs://" +:+ b) ->
  let outcome :=
    match axios_get (PinataServiceByUri.PINATA_GATEWAY +:+ "/" +:+ h) with
    | Ok data => Ok data
    | Throw _ => Throw (new_Error "Failed to fetch metadata from IPFS")
    end in
  PinataServiceByUri.fetchMetadataFromIPFS axios_get ("ipfs://" +:+ h) = outcome /\
  PinataServiceByUri.fetchMetadataFromIPFS axios_get h = outcome.
Proof.
  intros Habsent. cbv zeta. unfold PinataServiceByUri.fetchMetadataFromIPFS, try_catch.
  unfold mbind, result_bind, mret, result_ret.
  rewrite replace_prefix, (replace_absent _ _ h Habsent). simpl ("" +:+ h).
  split; destruct (axios_get _); reflexivity.
Qed.

Lemma fetchMetadataFromIPFS_address_witness :
  let outcome :=
    match Samples.gateway_AC (PinataServiceByUri.PINATA_GATEWAY +:+ "/" +:+ "QmA") with
    | Ok data => Ok data
    | Throw _ => Throw (new_Error "Failed to fetch metadata from IPFS")
    end in
  PinataServiceByUri.fetchMetadataFromIPFS Samples.gateway_AC ("ipfs://" +:+ "QmA") = outcome /\
  PinataServiceByUri.fetchMetadataFromIPFS Samples.gateway_AC "QmA" = outcome.
Proof.
  apply (fetchMetadataFromIPFS_address Samples.gateway_AC "QmA").
  intros a b H. apply (f_equal String.length) in H.
  rewrite !length_append in H. simpl in H. lia.
Defined.

(** X6.  [uploadMetadataToPinata] issues exactly one request.  It returns
    the [ipfsUri] field of the answer exactly when the request got through,
    the status was 2xx and the body parsed to a value other than [null];
    in every other case it throws the fixed error
    "Failed to upload metadata to IPFS", whatever the server reported. *)
Theorem uploadMetadataToPinata_outcomes {S} endpoint
        (fetch : string -> json -> M S PinataService.Response) metadata (s : S) :
  let run := PinataUpload.uploadMetadataToPinata endpoint fetch metadata s in
  run.2 = (fetch endpoint metadata s).2 /\
  (forall e, run.1 = Throw e -> e = new_Error "Failed to upload metadata to IPFS") /\
  (forall uri,
     run.1 = Ok uri <->
     exists response data,
       (fetch endpoint metadata s).1 = Ok response /\
       PinataService.ok response = true /\
       PinataService.json response = Ok data /\
       get data "ipfsUri" = Ok uri).
Proof. exact (uploadMetadataToPinata_spec endpoint fetch metadata s). Qed.

End ClientService.

Module RouteFacts.

Import Js Route FetchRoute FetchRouteFacts.

(** The answer of the lookup route, case by case. *)
Lemma GET_cases PINATA_JWT pinata campaignId :
  GET PINATA_JWT pinata campaignId =
  Ok match configured PINATA_JWT with
     | None => json_response (JObj [("error", JStr "Server configuration error")]) 500
     | Some jwt =>
         match campaignId with
         | None =>
             json_response (JObj [("error", JStr "campaignId query parameter required")]) 400
         | Some id =>
             if truthy_string id then
               match pinList pinata id jwt with
               | Throw e => json_response (failure_body "Failed to fetch metadata" e) 500
               | Ok data =>
                   if (count data =? 0)%Z
                   then json_response (JObj [("error", JStr "Metadata not found")]) 404
                   else
                     match rows data with
                     | [] =>
                         json_response
                           (failure_body "Failed to fetch metadata"
                              (new_Error
                                 "Cannot read properties of undefined (reading 'ipfs_pin_hash')"))
                           500
                     | row :: _ =>
                         match gateway_get pinata
                                 (PINATA_GATEWAY +:+ "/" +:+ ipfs_pin_hash row) with
                         | Throw e =>
                             json_response (failure_body "Failed to fetch metadata" e) 500
                         | Ok metadata =>
                             json_response
                               (JObj [("success", JBool true);
                                      ("ipfsHash", JStr (ipfs_pin_hash row));
                                      ("ipfsUri", JStr ("ipfs://" +:+ ipfs_pin_hash row));
                                      ("metadata", metadata)]) 200
                         end
                     end
               end
             else
               json_response (JObj [("error", JStr "campaignId query parameter required")]) 400
         end
     end.
Proof.
  unfold GET. destruct (configured PINATA_JWT) as [jwt|]; [|reflexivity].
  unfold try_catch. unfold mbind, result_bind, mret, result_ret.
  destruct campaignId as [id|]; [|reflexivity].
  destruct (truthy_string id); cbn [negb]; [|reflexivity].
  destruct (pinList pinata id jwt) as [data|e]; [|reflexivity].
  destruct (count data =? 0)%Z; [reflexivity|].
  destruct (rows data) as [|row rest]; [reflexivity|].
  destruct (gateway_get pinata _); reflexivity.
Qed.

Lemma truthy_string_spec id : truthy_string id = true <-> id <> "".
Proof. unfold truthy_string. destruct (decide (id = "")); split; congruence. Qed.

(** What the upload route answers to the browser. *)
Lemma serve_upload PINATA_JWT pinata Date_now url body trace :
  PinataUpload.serve PINATA_JWT pinata Date_now url body trace =
  let run := UploadRoute.POST PINATA_JWT pinata Date_now {| UploadRoute.json := Ok body |} trace in
  (match run.1 with
   | Ok response => Ok {| PinataService.status := status response;
                          PinataService.json := Ok (Route.body response) |}
   | Throw e => Throw e
   end, run.2).
Proof.
  unfold PinataUpload.serve. unfold mbind, M_bind, mret, M_ret. cbv zeta.
  destruct (UploadRoute.POST _ _ _ _ _) as [[r|e] t]; reflexivity.
Qed.

End RouteFacts.

Section UploadEndToEnd.

Import Js Route UploadRoute UploadFacts UploadClientFacts RouteFacts StringFacts.
Local Open Scope Z_scope.

(** X7.  Through the upload route, the client reports success exactly when
    the metadata was pinned: the credential is configured, the metadata
    carries a campaignId and a title, and the store accepted the content
    stamped with the server clock.  The address returned is [ipfs://]
    followed by the hash the store gave, and the request made one write. *)
Theorem upload_succeeds_iff_pinned PINATA_JWT pinata Date_now endpoint metadata trace :
  let run := PinataUpload.uploadMetadataToPinata endpoint
               (PinataUpload.serve PINATA_JWT pinata Date_now) metadata trace in
  let campaignId := get_opt (Some metadata) "campaignId" in
  forall uri,
    run.1 = Ok uri <->
    exists jwt response,
      configured PINATA_JWT = Some jwt /\
      truthy campaignId = true /\
      truthy (get_opt (Some metadata) "title") = true /\
      pinata (with_createdAt metadata Date_now) = Ok response /\
      uri = Some (JStr ("ipfs://" +:+ IpfsHash response)) /\
      run.2 = trace ++ [ReadBody;
                        PinJSONToIPFS (with_createdAt metadata Date_now)
                          ("campaign-" +:+ from_option String_of "undefined" campaignId)
                          campaignId jwt].
Proof.
  cbv zeta. intros uri.
  destruct (uploadMetadataToPinata_spec endpoint
              (PinataUpload.serve PINATA_JWT pinata Date_now) metadata trace)
    as (Hstate & _ & Hok).
  cbv zeta in Hstate, Hok. rewrite Hok, Hstate. clear Hok Hstate.
  rewrite serve_upload, POST_cases. cbv zeta. cbn [UploadRoute.json].
  destruct (configured PINATA_JWT) as [jwt|].
  2:{ simpl. split; [intros (r & d & [= <-] & [=] & _)|intros (? & ? & [=] & _)]. }
  assert (metadata = JNull \/ metadata <> JNull) as [->|Hnull]
    by (destruct metadata; (left; reflexivity) || (right; discriminate)).
  { simpl. split; [intros (r & d & [= <-] & [=] & _)|intros (? & ? & _ & [=] & _)]. }
  assert (forall (X : Type) (a b : X),
            match metadata with JNull => a | _ => b end = b) as Hmatch
    by (intros X a b; destruct metadata; congruence).
  rewrite Hmatch.
  destruct (truthy (get_opt (Some metadata) "campaignId")) eqn:Hc; cbn [andb].
  2:{ simpl. split; [intros (r & d & [= <-] & [=] & _)|intros (? & ? & _ & [=] & _)]. }
  destruct (truthy (get_opt (Some metadata) "title")) eqn:Ht.
  2:{ simpl. split; [intros (r & d & [= <-] & [=] & _)|intros (? & ? & _ & _ & [=] & _)]. }
  destruct (pinata (with_createdAt metadata Date_now)) as [response|e] eqn:Hp.
  2:{ simpl. split; [intros (r & d & [= <-] & [=] & _)|intros (? & ? & _ & _ & _ & [=] & _)]. }
  simpl. split.
  - intros (r & d & [= <-] & _ & [= <-] & [= <-]).
    exists jwt, response. repeat split; try reflexivity.
    rewrite <- app_assoc. reflexivity.
  - intros (jwt' & response' & _ & _ & _ & [= <-] & -> & _).
    eexists _, _. repeat split.
Qed.



End UploadEndToEnd.

Module LookupRouteFacts.

Import Js Route FetchRoute FetchRouteFacts RouteFacts LookupFacts.
Local Open Scope Z_scope.

(** The client lookup through the route, [received] being what the route
    reads as the [campaignId] parameter of the URL the client builds. *)
Lemma lookup_through_route online PINATA_JWT pinata id received :
  searchParams_get "campaignId" ("/api/fetch-metadata?campaignId=" +:+ id) = received ->
  (forall metadata,
     PinataService.fetchMetadataByCampaignId (serve online PINATA_JWT pinata) id
     = Ok (Some metadata) <->
     online = true /\
     exists campaignId jwt data row rest,
       received = Some campaignId /\ campaignId <> "" /\
       configured PINATA_JWT = Some jwt /\
       pinList pinata campaignId jwt = Ok data /\
       count data <> 0 /\
       rows data = row :: rest /\
       gateway_get pinata (PINATA_GATEWAY +:+ "/" +:+ ipfs_pin_hash row) = Ok metadata) /\
  (PinataService.fetchMetadataByCampaignId (serve online PINATA_JWT pinata) id = Ok None \/
   exists metadata,
     PinataService.fetchMetadataByCampaignId (serve online PINATA_JWT pinata) id
     = Ok (Some metadata)).
Proof.
  intros Hreceived.
  set (url := "/api/fetch-metadata?campaignId=" +:+ id) in *.
  assert (forall r,
            serve online PINATA_JWT pinata url
            = Ok {| PinataService.status := status r; PinataService.json := Ok (body r) |} ->
            PinataService.ok {| PinataService.status := status r;
                                PinataService.json := Ok (body r) |} = false ->
            PinataService.fetchMetadataByCampaignId (serve online PINATA_JWT pinata) id
            = Ok None) as Hrefused.
  { intros r Hserve Hok. eapply fetchMetadataByCampaignId_not_ok; [exact Hserve|exact Hok]. }
  destruct online.
  2:{ assert (PinataService.fetchMetadataByCampaignId (serve false PINATA_JWT pinata) id
              = Ok None) as Hnone
        by (eapply fetchMetadataByCampaignId_network; reflexivity).
      rewrite Hnone. split; [|left; reflexivity].
      intros metadata. split; [discriminate|]. intros ([=] & _). }
  pose proof (GET_cases PINATA_JWT pinata received) as HGET.
  assert (forall r, GET PINATA_JWT pinata received = Ok r ->
                    serve true PINATA_JWT pinata url
                    = Ok {| PinataService.status := status r;
                            PinataService.json := Ok (body r) |}) as Hserve.
  { intros r Hr. apply serve_online. rewrite Hreceived. exact Hr. }
  destruct (configured PINATA_JWT) as [jwt|].
  2:{ rewrite (Hrefused _ (Hserve _ HGET) eq_refl). split; [|left; reflexivity].
      intros metadata. split; [discriminate|].
      intros (_ & ? & ? & ? & ? & ? & _ & _ & [=] & _). }
  destruct received as [campaignId|].
  2:{ rewrite (Hrefused _ (Hserve _ HGET) eq_refl). split; [|left; reflexivity].
      intros metadata. split; [discriminate|].
      intros (_ & ? & ? & ? & ? & ? & [=] & _). }
  destruct (truthy_string campaignId) eqn:Hid.
  2:{ rewrite (Hrefused _ (Hserve _ HGET) eq_refl). split; [|left; reflexivity].
      intros metadata. split; [discriminate|].
      intros (_ & ? & ? & ? & ? & ? & [= <-] & Hne & _).
      apply truthy_string_spec in Hne. congruence. }
  apply truthy_string_spec in Hid.
  destruct (pinList pinata campaignId jwt) as [data|e] eqn:Hlist.
  2:{ rewrite (Hrefused _ (Hserve _ HGET) eq_refl). split; [|left; reflexivity].
      intros metadata. split; [discriminate|].
      intros (_ & ? & jwt' & ? & ? & ? & [= <-] & _ & [= <-] & Hl & _). congruence. }
  destruct (Z.eqb_spec (count data) 0) as [Hcount|Hcount].
  { rewrite (Hrefused _ (Hserve _ HGET) eq_refl). split; [|left; reflexivity].
    intros metadata. split; [discriminate|].
    intros (_ & ? & jwt' & ? & ? & ? & [= <-] & _ & [= <-] & Hl & Hc & _). congruence. }
  destruct (rows data) as [|row rest] eqn:Hrows.
  { rewrite (Hrefused _ (Hserve _ HGET) eq_refl). split; [|left; reflexivity].
    intros metadata. split; [discriminate|].
    intros (_ & ? & jwt' & ? & ? & ? & [= <-] & _ & [= <-] & Hl & _ & Hr & _). congruence. }
  destruct (gateway_get pinata (PINATA_GATEWAY +:+ "/" +:+ ipfs_pin_hash row))
    as [content|e] eqn:Hgw.
  2:{ rewrite (Hrefused _ (Hserve _ HGET) eq_refl). split; [|left; reflexivity].
      intros metadata. split; [discriminate|].
      intros (_ & ? & jwt' & ? & ? & ? & [= <-] & _ & [= <-] & Hl & _ & Hr & Hg).
      congruence. }
  assert (PinataService.fetchMetadataByCampaignId (serve true PINATA_JWT pinata) id
          = Ok (Some content)) as Hfound.
  { unfold PinataService.fetchMetadataByCampaignId, try_catch.
    unfold mbind, result_bind. fold url. rewrite (Hserve _ HGET). reflexivity. }
  rewrite Hfound. split; [|right; eexists; reflexivity].
  intros metadata. split.
  - intros [= <-]. split; [reflexivity|].
    exists campaignId, jwt, data, row, rest. auto 10.
  - intros (_ & ? & jwt' & data' & row' & rest' & [= <-] & _ & [= <-] & Hl & _ & Hr & Hg).
    congruence.
Qed.

End LookupRouteFacts.

Section LookupEndToEnd.

Import Js Route FetchRoute FetchRouteFacts RouteFacts LookupFacts.
Local Open Scope Z_scope.

(** X9.  The lookup route reads the campaign id from the query of the URL
    the client builds: an id made of unreserved characters (letters,
    digits, [-], [.], [_], [~]) is read as it is.  Through the route, the
    client returns metadata for a campaign id exactly when the request got
    through, the credential is configured, the id as the route reads it is
    not empty, the store lists at least one pin for it and the gateway
    serves the content of the first pin listed; the metadata returned is
    that content.  In every other case it returns [null]. *)
Theorem lookup_by_id_returns_first_pin online PINATA_JWT pinata id :
  (url_safe id = true ->
   searchParams_get "campaignId" ("/api/fetch-metadata?campaignId=" +:+ id) = Some id) /\
  (forall metadata,
     PinataService.fetchMetadataByCampaignId (serve online PINATA_JWT pinata) id
     = Ok (Some metadata) <->
     online = true /\
     exists campaignId jwt data row rest,
       searchParams_get "campaignId" ("/api/fetch-metadata?campaignId=" +:+ id)
       = Some campaignId /\
       campaignId <> "" /\
       configured PINATA_JWT = Some jwt /\
       pinList pinata campaignId jwt = Ok data /\
       count data <> 0 /\
       rows data = row :: rest /\
       gateway_get pinata (PINATA_GATEWAY +:+ "/" +:+ ipfs_pin_hash row) = Ok metadata) /\
  (PinataService.fetchMetadataByCampaignId (serve online PINATA_JWT pinata) id = Ok None \/
   exists metadata,
     PinataService.fetchMetadataByCampaignId (serve online PINATA_JWT pinata) id
     = Ok (Some metadata)).
Proof.
  split; [apply searchParams_get_safe|].
  exact (LookupRouteFacts.lookup_through_route online PINATA_JWT pinata id _ eq_refl).
Qed.

(** The store lists a pin for campaign 7: the lookup returns its content.
    The id [7&x=1] is read as [7] by the route and gives the same content;
    the store is never asked about [7&x=1]. *)
Example lookup_of_sample_ids :
  PinataService.fetchMetadataByCampaignId
    (serve true (Some "jwt") MoreSamples.pinata_with_pin) "7"
  = Ok (Some (Samples.metadata "Community center")) /\
  PinataService.fetchMetadataByCampaignId
    (serve true (Some "jwt") MoreSamples.pinata_with_pin) "7&x=1"
  = Ok (Some (Samples.metadata "Community center")) /\
  PinataService.fetchMetadataByCampaignId
    (serve true (Some "jwt") MoreSamples.pinata_with_pin) "8"
  = Ok None.
Proof. repeat apply conj; vm_compute; reflexivity. Qed.

(** X10.  The lookup route always answers, with one of the statuses 200,
    400, 404 and 500.  It answers 400 exactly when the credential is
    configured and the campaignId parameter is missing or empty, 404 exactly
    when the store lists no pin for the id, and 200 exactly when the gateway
    served the first pin listed.  A store that reports a non-zero count and
    no row, like every failure of the store or of the gateway, gives 500. *)
Theorem lookup_route_statuses PINATA_JWT pinata campaignId :
  exists r,
    GET PINATA_JWT pinata campaignId = Ok r /\
    (status r = 200 \/ status r = 400 \/ status r = 404 \/ status r = 500) /\
    (status r = 400 <->
     is_Some (configured PINATA_JWT) /\ (campaignId = None \/ campaignId = Some "")) /\
    (status r = 404 <->
     exists jwt id data,
       configured PINATA_JWT = Some jwt /\ campaignId = Some id /\ id <> "" /\
       pinList pinata id jwt = Ok data /\ count data = 0) /\
    (status r = 200 <->
     exists jwt id data row rest metadata,
       configured PINATA_JWT = Some jwt /\ campaignId = Some id /\ id <> "" /\
       pinList pinata id jwt = Ok data /\ count data <> 0 /\ rows data = row :: rest /\
       gateway_get pinata (PINATA_GATEWAY +:+ "/" +:+ ipfs_pin_hash row) = Ok metadata /\
       body r = JObj [("success", JBool true);
                      ("ipfsHash", JStr (ipfs_pin_hash row));
                      ("ipfsUri", JStr ("ipfs://" +:+ ipfs_pin_hash row));
                      ("metadata", metadata)]).
Proof.
  eexists. split; [apply GET_cases|].
  destruct (configured PINATA_JWT) as [jwt|].
  2:{ simpl. split; [auto|]. split; [|split].
      - split; [discriminate|]. intros [[? [=]] _].
      - split; [discriminate|]. intros (? & ? & ? & [=] & _).
      - split; [discriminate|]. intros (? & ? & ? & ? & ? & ? & [=] & _). }
  destruct campaignId as [id|].
  2:{ simpl. split; [auto|]. split; [|split].
      - split; [|reflexivity]. intros _. split; [eexists; reflexivity|left; reflexivity].
      - split; [discriminate|]. intros (? & ? & ? & _ & [=] & _).
      - split; [discriminate|]. intros (? & ? & ? & ? & ? & ? & _ & [=] & _). }
  destruct (truthy_string id) eqn:Hid.
  2:{ assert (id = "") as -> by (unfold truthy_string in Hid; destruct (decide (id = ""));
                                 [assumption|discriminate]).
      simpl. split; [auto|]. split; [|split].
      - split; [|reflexivity]. intros _. split; [eexists; reflexivity|right; reflexivity].
      - split; [discriminate|]. intros (? & ? & ? & _ & [= <-] & Hne & _). congruence.
      - split; [discriminate|].
        intros (? & ? & ? & ? & ? & ? & _ & [= <-] & Hne & _). congruence. }
  apply truthy_string_spec in Hid.
  assert (forall X : Prop, (Some id = None \/ Some id = Some "") -> X) as Hnot400.
  { intros X [[=]|[= ->]]. congruence. }
  destruct (pinList pinata id jwt) as [data|e] eqn:Hlist.
  2:{ simpl. split; [auto|]. split; [|split].
      - split; [discriminate|]. intros [_ H]. exact (Hnot400 _ H).
      - split; [discriminate|].
        intros (? & ? & ? & [= <-] & [= <-] & _ & Hl & _). congruence.
      - split; [discriminate|].
        intros (? & ? & ? & ? & ? & ? & [= <-] & [= <-] & _ & Hl & _). congruence. }
  destruct (Z.eqb_spec (count data) 0) as [Hcount|Hcount].
  { simpl. split; [auto|]. split; [|split].
    - split; [discriminate|]. intros [_ H]. exact (Hnot400 _ H).
    - split; [|reflexivity]. intros _. exists jwt, id, data. auto.
    - split; [discriminate|].
      intros (? & ? & ? & ? & ? & ? & [= <-] & [= <-] & _ & Hl & Hc & _). congruence. }
  destruct (rows data) as [|row rest] eqn:Hrows.
  { simpl. split; [auto|]. split; [|split].
    - split; [discriminate|]. intros [_ H]. exact (Hnot400 _ H).
    - split; [discriminate|].
      intros (? & ? & ? & [= <-] & [= <-] & _ & Hl & Hc). congruence.
    - split; [discriminate|].
      intros (? & ? & ? & ? & ? & ? & [= <-] & [= <-] & _ & Hl & _ & Hr & _). congruence. }
  destruct (gateway_get pinata (PINATA_GATEWAY +:+ "/" +:+ ipfs_pin_hash row))
    as [content|e] eqn:Hgw.
  2:{ simpl. split; [auto|]. split; [|split].
      - split; [discriminate|]. intros [_ H]. exact (Hnot400 _ H).
      - split; [discriminate|].
        intros (? & ? & ? & [= <-] & [= <-] & _ & Hl & Hc). congruence.
      - split; [discriminate|].
        intros (? & ? & ? & ? & ? & ? & [= <-] & [= <-] & _ & Hl & _ & Hr & Hg & _).
        congruence. }
  simpl. split; [auto|]. split; [|split].
  - split; [discriminate|]. intros [_ H]. exact (Hnot400 _ H).
  - split; [discriminate|].
    intros (? & ? & ? & [= <-] & [= <-] & _ & Hl & Hc). congruence.
  - split; [|reflexivity]. intros _.
    exists jwt, id, data, row, rest, content. repeat split; auto.
Qed.

(** X23.  The batch by campaign id, run against the lookup route: it
    fulfils whatever the order of completion, and its map holds a value at
    an id exactly when the id was asked for, the request got through, the
    store lists a pin for the id as the route reads it from the URL, the
    gateway served the first pin listed and the content served is truthy;
    the value is that content. *)
Theorem batch_through_route online PINATA_JWT pinata settle (campaignIds : list string) :
  Batch.rearranges settle ->
  exists m : gmap string json,
    PinataService.fetchMetadataBatch (serve online PINATA_JWT pinata) settle campaignIds
    = Ok m /\
    forall id metadata,
      m !! id = Some metadata <->
      id ∈ campaignIds /\ truthy (Some metadata) = true /\
      online = true /\
      exists campaignId jwt data row rest,
        searchParams_get "campaignId" ("/api/fetch-metadata?campaignId=" +:+ id)
        = Some campaignId /\
        campaignId <> "" /\
        configured PINATA_JWT = Some jwt /\
        pinList pinata campaignId jwt = Ok data /\
        count data <> 0 /\
        rows data = row :: rest /\
        gateway_get pinata (PINATA_GATEWAY +:+ "/" +:+ ipfs_pin_hash row) = Ok metadata.
Proof.
  intros Hsettle.
  destruct (PinataServiceFacts.fetchMetadataBatch_by_id_spec
              (serve online PINATA_JWT pinata) settle campaignIds Hsettle) as (m & Hm & Hlookup).
  exists m. split; [exact Hm|]. intros id metadata. rewrite Hlookup.
  destruct (LookupRouteFacts.lookup_through_route online PINATA_JWT pinata id _ eq_refl)
    as [Hfound _].
  specialize (Hfound metadata).
  destruct (decide (id ∈ campaignIds)) as [Hin|Hnin].
  2:{ split; [discriminate|]. intros [? _]. contradiction. }
  unfold PinataService.found.
  destruct (PinataService.fetchMetadataByCampaignId (serve online PINATA_JWT pinata) id)
    as [[content|]|e] eqn:Hfetch.
  - destruct (truthy (Some content)) eqn:Ht.
    + split.
      * intros [= <-]. split; [exact Hin|]. split; [exact Ht|].
        apply Hfound. reflexivity.
      * intros (_ & _ & H). apply Hfound in H. congruence.
    + split; [discriminate|]. intros (_ & Ht' & H). apply Hfound in H.
      injection H as <-. congruence.
  - split; [discriminate|]. intros (_ & _ & H). apply Hfound in H. discriminate.
  - split; [discriminate|]. intros (_ & _ & H). apply Hfound in H. discriminate.
Qed.

(** The store lists a pin for campaign 7 and none for campaign 8: the map
    of the batch for 7 and 8 holds the content of that pin at 7, and nothing
    at 8. *)
Lemma batch_through_route_witness :
  exists m : gmap string json,
    PinataService.fetchMetadataBatch (serve true (Some "jwt") MoreSamples.pinata_with_pin)
      Samples.in_order ["7"; "8"] = Ok m /\
    m !! "7" = Some (Samples.metadata "Community center") /\
    m !! "8" = None.
Proof.
  destruct (batch_through_route true (Some "jwt") MoreSamples.pinata_with_pin
              Samples.in_order ["7"; "8"]) as (m & Hm & Hiff).
  - intros l. reflexivity.
  - exists m. split; [exact Hm|]. split.
    + apply Hiff. split; [apply list_elem_of_here|]. split; [reflexivity|].
      split; [reflexivity|].
      exists "7", "jwt", {| count := 1; rows := [{| ipfs_pin_hash := "QmHash" |}] |},
             {| ipfs_pin_hash := "QmHash" |}, [].
      repeat split; try reflexivity; discriminate.
    + destruct (m !! "8") as [metadata|] eqn:H8; [|reflexivity].
      apply Hiff in H8 as (_ & _ & _ & campaignId & jwt & data & row & rest
                           & [= <-] & _ & _ & Hlist & Hcount & _).
      injection Hlist as <-. contradiction Hcount. reflexivity.
Defined.

End LookupEndToEnd.

Section UploadRouteOutcomes.

Import Js Route UploadRoute UploadFacts.
Local Open Scope Z_scope.

(** X11.  The upload route always answers, with one of the statuses 200,
    400 and 500.  It answers 200 exactly when the credential is configured,
    the body carries a campaignId and a title and the store accepted the
    pin; the answer then carries the hash the store gave and the address
    [ipfs://<hash>].  When the store refuses the pin the answer is 500, with
    the summary "Failed to upload to IPFS" and, as details, the error field
    of the store's response when it has one and the message of the failure
    otherwise. *)
Theorem upload_route_outcomes PINATA_JWT pinata Date_now req trace :
  exists r trace',
    POST PINATA_JWT pinata Date_now req trace = (Ok r, trace') /\
    (status r = 200 \/ status r = 400 \/ status r = 500) /\
    (status r = 200 <->
     exists jwt body response,
       configured PINATA_JWT = Some jwt /\ json req = Ok body /\
       truthy (get_opt (Some body) "campaignId") = true /\
       truthy (get_opt (Some body) "title") = true /\
       pinata (with_createdAt body Date_now) = Ok response /\
       Route.body r = JObj [("success", JBool true);
                            ("ipfsHash", JStr (IpfsHash response));
                            ("ipfsUri", JStr ("ipfs://" +:+ IpfsHash response))]) /\
    (forall jwt body e,
       configured PINATA_JWT = Some jwt -> json req = Ok body ->
       truthy (get_opt (Some body) "campaignId") = true ->
       truthy (get_opt (Some body) "title") = true ->
       pinata (with_createdAt body Date_now) = Throw e ->
       status r = 500 /\
       Route.body r
       = JObj [("error", JStr "Failed to upload to IPFS");
               ("details",
                if truthy (get_opt (response_data e) "error")
                then from_option (fun d => d) JNull (get_opt (response_data e) "error")
                else JStr (message e))]).
Proof.
  rewrite POST_cases.
  destruct (configured PINATA_JWT) as [jwt|].
  2:{ eexists _, _. split; [reflexivity|]. unfold json_response; cbn [Route.status Route.body]. split; [auto|]. split.
      - split; [discriminate|]. intros (? & ? & ? & [=] & _).
      - intros ? ? ? [=]. }
  destruct (json req) as [body|e] eqn:Hbody.
  2:{ eexists _, _. split; [reflexivity|]. unfold json_response; cbn [Route.status Route.body]. split; [auto|]. split.
      - split; [discriminate|]. intros (? & ? & ? & _ & [=] & _).
      - intros ? ? ? _ [=]. }
  assert (body = JNull \/ body <> JNull) as [->|Hnull]
    by (destruct body; (left; reflexivity) || (right; discriminate)).
  { eexists _, _. split; [reflexivity|]. unfold json_response; cbn [Route.status Route.body]. split; [auto|]. split.
    - split; [discriminate|]. intros (? & ? & ? & _ & [= <-] & [=] & _).
    - intros ? ? ? _ [= <-] [=]. }
  assert (forall (X : Type) (a b : X),
            match body with JNull => a | _ => b end = b) as Hmatch
    by (intros X a b; destruct body; congruence).
  rewrite Hmatch. cbv zeta.
  destruct (truthy (get_opt (Some body) "campaignId")) eqn:Hc; cbn [andb].
  2:{ eexists _, _. split; [reflexivity|]. unfold json_response; cbn [Route.status Route.body]. split; [auto|]. split.
      - split; [discriminate|]. intros (? & ? & ? & _ & [= <-] & Hc' & _). congruence.
      - intros ? ? ? _ [= <-] Hc'. congruence. }
  destruct (truthy (get_opt (Some body) "title")) eqn:Ht.
  2:{ eexists _, _. split; [reflexivity|]. unfold json_response; cbn [Route.status Route.body]. split; [auto|]. split.
      - split; [discriminate|]. intros (? & ? & ? & _ & [= <-] & _ & Ht' & _). congruence.
      - intros ? ? ? _ [= <-] _ Ht'. congruence. }
  destruct (pinata (with_createdAt body Date_now)) as [response|e] eqn:Hp.
  - eexists _, _. split; [reflexivity|]. unfold json_response; cbn [Route.status Route.body]. split; [auto|]. split.
    + split; [|reflexivity]. intros _. exists jwt, body, response. auto 10.
    + intros ? ? ? _ [= <-] _ _ Hp'. congruence.
  - eexists _, _. split; [reflexivity|]. unfold json_response; cbn [Route.status Route.body]. split; [auto|]. split.
    + split; [discriminate|].
      intros (? & ? & ? & _ & [= <-] & _ & _ & Hp' & _). congruence.
    + intros jwt' body' e' _ [= <-] _ _ Hp'. rewrite Hp in Hp'. injection Hp' as <-.
      split; [reflexivity|].
      destruct (failure_body_fields "Failed to upload to IPFS" e) as (details & -> & ->).
      reflexivity.
Qed.

(** X12.  Whatever the route pins is the request body with [createdAt]
    set to the server clock: a [createdAt] sent by the client is
    overridden, and every other field of the body is pinned as it was sent.
    The pin is made with the configured credential and is named
    [campaign-] followed by the text JavaScript gives the campaignId of the
    body: a string as it is, a number as the double it is read as prints. *)
Theorem pinned_content_is_stamped
        PINATA_JWT pinata Date_now req trace content name id jwt :
  PinJSONToIPFS content name id jwt ∈ (POST PINATA_JWT pinata Date_now req trace).2 ->
  PinJSONToIPFS content name id jwt ∈ trace \/
  exists fields,
    json req = Ok (JObj fields) /\
    configured PINATA_JWT = Some jwt /\
    content = JObj (fields ++ [("createdAt", JNum Date_now)]) /\
    id = last_binding "campaignId" fields /\
    truthy id = true /\
    name = "campaign-" +:+ from_option String_of "undefined" id /\
    get_opt (Some content) "createdAt" = Some (JNum Date_now) /\
    forall key, key <> "createdAt" ->
                get_opt (Some content) key = last_binding key fields.
Proof.
  rewrite POST_cases.
  assert (forall t : list Event,
            PinJSONToIPFS content name id jwt ∈ t ++ [ReadBody] ->
            PinJSONToIPFS content name id jwt ∈ t) as Hread.
  { intros t Hin. apply elem_of_app in Hin as [Hin|Hin]; [exact Hin|].
    apply list_elem_of_singleton in Hin. discriminate. }
  destruct (configured PINATA_JWT) as [jwt'|]; [|simpl; auto].
  destruct (json req) as [body|e] eqn:Hbody; [|simpl; auto].
  assert (body = JNull \/ body <> JNull) as [->|Hnull]
    by (destruct body; (left; reflexivity) || (right; discriminate)).
  { simpl. auto. }
  assert (forall (X : Type) (a b : X),
            match body with JNull => a | _ => b end = b) as Hmatch
    by (intros X a b; destruct body; congruence).
  rewrite Hmatch. cbv zeta.
  destruct (truthy (get_opt (Some body) "campaignId")) eqn:Hc; cbn [andb];
    [|simpl; auto].
  destruct (truthy (get_opt (Some body) "title")) eqn:Ht; [|simpl; auto].
  assert (exists fields, body = JObj fields) as [fields ->].
  { destruct body; try discriminate Hc. eexists. reflexivity. }
  assert (PinJSONToIPFS content name id jwt
            ∈ (trace ++ [ReadBody]) ++
              [PinJSONToIPFS (with_createdAt (JObj fields) Date_now)
                 ("campaign-" +:+ from_option String_of "undefined"
                                    (get_opt (Some (JObj fields)) "campaignId"))
                 (get_opt (Some (JObj fields)) "campaignId") jwt'] ->
          PinJSONToIPFS content name id jwt ∈ trace \/
          exists fields0,
            Ok (JObj fields) = Ok (JObj fields0) /\
            Some jwt' = Some jwt /\
            content = JObj (fields0 ++ [("createdAt", JNum Date_now)]) /\
            id = last_binding "campaignId" fields0 /\
            truthy id = true /\
            name = "campaign-" +:+ from_option String_of "undefined" id /\
            get_opt (Some content) "createdAt" = Some (JNum Date_now) /\
            forall key, key <> "createdAt" ->
                        get_opt (Some content) key = last_binding key fields0) as Hwrite.
  { intros Hin. apply elem_of_app in Hin as [Hin|Hin]; [left; auto|right].
    apply list_elem_of_singleton in Hin. injection Hin as -> -> -> ->.
    exists fields. simpl. repeat split; try reflexivity.
    - exact Hc.
    - rewrite last_binding_app. destruct (decide ("createdAt" = "createdAt")); congruence.
    - intros key Hkey. rewrite last_binding_app.
      destruct (decide ("createdAt" = key)); congruence. }
  destruct (pinata (with_createdAt (JObj fields) Date_now)); exact Hwrite.
Qed.

(** A request that claims [createdAt = 1] is pinned with the server clock. *)
Lemma pinned_content_is_stamped_witness :
  PinJSONToIPFS
    (JObj (MoreSamples.forged_fields ++ [("createdAt", JNum 1700000000000)]))
    "campaign-7" (Some (JStr "7")) "jwt" ∈ [] \/
  exists fields,
    json MoreSamples.request_with_createdAt = Ok (JObj fields) /\
    configured (Some "jwt") = Some "jwt" /\
    JObj (MoreSamples.forged_fields ++ [("createdAt", JNum 1700000000000)])
    = JObj (fields ++ [("createdAt", JNum 1700000000000)]) /\
    Some (JStr "7") = last_binding "campaignId" fields /\
    truthy (Some (JStr "7")) = true /\
    "campaign-7" = "campaign-" +:+ from_option String_of "undefined" (Some (JStr "7")) /\
    get_opt (Some (JObj (MoreSamples.forged_fields ++ [("createdAt", JNum 1700000000000)])))
            "createdAt" = Some (JNum 1700000000000) /\
    forall key, key <> "createdAt" ->
                get_opt (Some (JObj (MoreSamples.forged_fields
                                       ++ [("createdAt", JNum 1700000000000)]))) key
                = last_binding key fields.
Proof.
  apply (pinned_content_is_stamped (Some "jwt") Samples.pinata_accepts 1700000000000
           MoreSamples.request_with_createdAt []).
  vm_compute. right. left.
Defined.

(** Numbers print as JavaScript prints the double they are read as: every
    digit up to 2^53, the shortest digits that denote the double beyond,
    and with an exponent from 10^21 on. *)
Example Number_toString_samples :
  Number_toString 7 = "7" /\
  Number_toString (-7) = "-7" /\
  Number_toString 1700000000000 = "1700000000000" /\
  Number_toString (2 ^ 53) = "9007199254740992" /\
  Number_toString (2 ^ 53 + 1) = "9007199254740992" /\
  Number_toString (2 ^ 63) = "9223372036854776000" /\
  Number_toString (2 ^ 64) = "18446744073709552000" /\
  Number_toString (10 ^ 21) = "1e+21" /\
  Number_toString (2 ^ 70) = "1.1805916207174113e+21" /\
  Number_toString (2 ^ 100) = "1.2676506002282294e+30" /\
  Number_toString (2 ^ 1024) = "Infinity".
Proof. repeat apply conj; vm_compute; reflexivity. Qed.

(** A campaignId sent as the number 10^21 is pinned under the name
    [campaign-1e+21]. *)
Example pinned_under_number_name :
  (POST (Some "jwt") Samples.pinata_accepts 1700000000000
     MoreSamples.request_with_number []).2
  = [ReadBody;
     PinJSONToIPFS
       (JObj [("campaignId", JNum (10 ^ 21)); ("title", JStr "Community center");
              ("createdAt", JNum 1700000000000)])
       "campaign-1e+21" (Some (JNum (10 ^ 21))) "jwt"].
Proof. vm_compute. reflexivity. Qed.

End UploadRouteOutcomes.

(* ===================================================================== *)
(** * Donations *)
(* ===================================================================== *)

Module DonationFacts.

Import Js Float64 Input Donation.

(** The page after [executeDonation], case by case. *)
Lemma executeDonation_cases lib actions campaign p :
  executeDonation lib actions campaign p =
  (Ok tt,
   match actions, campaign with
   | Some actions, Some campaign =>
       if isExecutingRef p then p
       else
         let amount := parseFloat lib (donationAmount p) in
         if is_falsy amount || le amount zero
         then setDonationError "Please enter a valid amount" p
         else
           match parseEther lib (donationAmount p) with
           | Throw err =>
               {| donationAmount := donationAmount p;
                  showDonateModal := showDonateModal p;
                  isDonating := false;
                  donationError := or_string (message err) "Donation failed";
                  isExecutingRef := false;
                  calls := calls p |}
           | Ok amountWei =>
               match donate actions (CampaignDetails.id campaign) amountWei with
               | Throw err =>
                   {| donationAmount := donationAmount p;
                      showDonateModal := showDonateModal p;
                      isDonating := false;
                      donationError := or_string (message err) "Donation failed";
                      isExecutingRef := false;
                      calls := calls p
                               ++ [Donate (CampaignDetails.id campaign) amountWei] |}
               | Ok _ =>
                   {| donationAmount := donationAmount p;
                      showDonateModal := showDonateModal p;
                      isDonating := false;
                      donationError := "";
                      isExecutingRef := false;
                      calls := (calls p
                                ++ [Donate (CampaignDetails.id campaign) amountWei])
                               ++ [Reload] |}
               end
           end
   | _, _ => p
   end).
Proof.
  unfold executeDonation. destruct actions as [actions|]; [|reflexivity].
  destruct campaign as [campaign|]; [|reflexivity].
  destruct (isExecutingRef p); [reflexivity|]. cbv zeta.
  destruct (is_falsy (parseFloat lib (donationAmount p))
            || le (parseFloat lib (donationAmount p)) zero); [reflexivity|].
  unfold try_finally, try_catch_M, modify, lift, call.
  unfold mbind, M_bind, mret, M_ret. cbn beta iota.
  destruct (parseEther lib (donationAmount p)) as [amountWei|err]; [|reflexivity].
  cbn beta iota.
  destruct (donate actions (CampaignDetails.id campaign) amountWei) as [[]|err]; reflexivity.
Qed.

End DonationFacts.

Section Donations.

Import Js Float64 Input Donation DonationFacts.

(** X13.  [executeDonation] asks the wallet for at most one donation, and
    only when the wallet actions and a campaign view are there, no donation
    is in flight, [parseFloat] of the amount typed is a number above 0 and
    [parseEther] accepts the amount.  The donation goes to the campaign on
    display, for the amount [parseEther] gave; the page is reloaded exactly
    when the donation succeeded. *)
Theorem donation_is_guarded lib actions campaign p :
  let p' := (executeDonation lib actions campaign p).2 in
  exists new,
    calls p' = calls p ++ new /\
    (new = [] \/
     exists a c amountWei,
       actions = Some a /\ campaign = Some c /\
       isExecutingRef p = false /\
       is_falsy (parseFloat lib (donationAmount p)) = false /\
       le (parseFloat lib (donationAmount p)) zero = false /\
       parseEther lib (donationAmount p) = Ok amountWei /\
       (donate a (CampaignDetails.id c) amountWei = Ok tt /\
        new = [Donate (CampaignDetails.id c) amountWei; Reload] \/
        (exists err, donate a (CampaignDetails.id c) amountWei = Throw err) /\
        new = [Donate (CampaignDetails.id c) amountWei])).
Proof.
  cbv zeta. rewrite executeDonation_cases. cbn [snd].
  destruct actions as [a|]; [|exists []; split; [symmetry; apply app_nil_r|left; reflexivity]].
  destruct campaign as [c|]; [|exists []; split; [symmetry; apply app_nil_r|left; reflexivity]].
  destruct (isExecutingRef p) eqn:Hexec;
    [exists []; split; [symmetry; apply app_nil_r|left; reflexivity]|].
  cbv zeta.
  destruct (is_falsy (parseFloat lib (donationAmount p))) eqn:Hfalsy; cbn [orb];
    [exists []; split; [symmetry; apply app_nil_r|left; reflexivity]|].
  destruct (le (parseFloat lib (donationAmount p)) zero) eqn:Hle;
    [exists []; split; [symmetry; apply app_nil_r|left; reflexivity]|].
  destruct (parseEther lib (donationAmount p)) as [amountWei|err] eqn:Hparse;
    [|exists []; split; [symmetry; apply app_nil_r|left; reflexivity]].
  destruct (donate a (CampaignDetails.id c) amountWei) as [[]|err] eqn:Hdonate.
  - eexists. split; [cbn [calls]; rewrite <- app_assoc; reflexivity|].
    right. exists a, c, amountWei. repeat split; try assumption.
    left. split; [exact Hdonate|reflexivity].
  - eexists. split; [reflexivity|].
    right. exists a, c, amountWei. repeat split; try assumption.
    right. split; [eexists; exact Hdonate|reflexivity].
Qed.

(** X14.  [executeDonation] never throws, restores the in-flight flag on
    every path and leaves the amount typed and the modal as they were.
    Without wallet actions, without a campaign view or with a donation in
    flight it changes nothing.  Otherwise, when [parseFloat] of the amount
    typed is NaN, zero or not above 0, the error becomes "Please enter a
    valid amount" and nothing else changes.  Otherwise the donating flag
    ends cleared, and: when [parseEther] throws, the error is the message
    thrown, or "Donation failed" when that message is empty, and the wallet
    is not called; when the wallet throws, the error is its message, or
    "Donation failed", and the page is not reloaded; when the donation goes
    through, the error is empty and the page is reloaded. *)
Theorem donation_releases_lock lib actions campaign p :
  let run := executeDonation lib actions campaign p in
  let amount := parseFloat lib (donationAmount p) in
  run.1 = Ok tt /\
  isExecutingRef run.2 = isExecutingRef p /\
  donationAmount run.2 = donationAmount p /\
  showDonateModal run.2 = showDonateModal p /\
  (actions = None \/ campaign = None \/ isExecutingRef p = true -> run.2 = p) /\
  (forall a c,
     actions = Some a -> campaign = Some c -> isExecutingRef p = false ->
     (is_falsy amount || le amount zero = true ->
      run.2 = setDonationError "Please enter a valid amount" p) /\
     (is_falsy amount || le amount zero = false ->
      isDonating run.2 = false /\
      (forall err,
         parseEther lib (donationAmount p) = Throw err ->
         donationError run.2 = or_string (message err) "Donation failed" /\
         donationError run.2 <> "" /\
         calls run.2 = calls p) /\
      (forall amountWei err,
         parseEther lib (donationAmount p) = Ok amountWei ->
         donate a (CampaignDetails.id c) amountWei = Throw err ->
         donationError run.2 = or_string (message err) "Donation failed" /\
         donationError run.2 <> "" /\
         calls run.2 = calls p ++ [Donate (CampaignDetails.id c) amountWei]) /\
      (forall amountWei,
         parseEther lib (donationAmount p) = Ok amountWei ->
         donate a (CampaignDetails.id c) amountWei = Ok tt ->
         donationError run.2 = "" /\
         calls run.2 = calls p ++ [Donate (CampaignDetails.id c) amountWei; Reload]))).
Proof.
  cbv zeta. rewrite executeDonation_cases. cbn [fst snd].
  assert (forall err, or_string (message err) "Donation failed" <> "") as Hmsg.
  { intros err. unfold or_string, truthy_string.
    destruct (decide (message err = "")); [discriminate|assumption]. }
  split; [reflexivity|].
  split.
  { destruct actions as [a|]; [|reflexivity]. destruct campaign as [c|]; [|reflexivity].
    destruct (isExecutingRef p) eqn:Hexec; [exact Hexec|]. cbv zeta.
    destruct (is_falsy _ || le _ zero); [exact Hexec|].
    destruct (parseEther lib (donationAmount p)) as [amountWei|err]; [|reflexivity].
    destruct (donate a (CampaignDetails.id c) amountWei) as [[]|err]; reflexivity. }
  split.
  { destruct actions as [a|]; [|reflexivity]. destruct campaign as [c|]; [|reflexivity].
    destruct (isExecutingRef p); [reflexivity|]. cbv zeta.
    destruct (is_falsy _ || le _ zero); [reflexivity|].
    destruct (parseEther lib (donationAmount p)) as [amountWei|err]; [|reflexivity].
    destruct (donate a (CampaignDetails.id c) amountWei) as [[]|err]; reflexivity. }
  split.
  { destruct actions as [a|]; [|reflexivity]. destruct campaign as [c|]; [|reflexivity].
    destruct (isExecutingRef p); [reflexivity|]. cbv zeta.
    destruct (is_falsy _ || le _ zero); [reflexivity|].
    destruct (parseEther lib (donationAmount p)) as [amountWei|err]; [|reflexivity].
    destruct (donate a (CampaignDetails.id c) amountWei) as [[]|err]; reflexivity. }
  split.
  { intros [->|[->|Hexec]].
    - reflexivity.
    - destruct actions; reflexivity.
    - destruct actions as [a|]; [|reflexivity]. destruct campaign as [c|]; [|reflexivity].
      rewrite Hexec. reflexivity. }
  intros a c -> -> Hexec. rewrite Hexec. cbv zeta. split.
  { intros ->. reflexivity. }
  intros ->. split.
  { destruct (parseEther lib (donationAmount p)) as [amountWei|err]; [|reflexivity].
    destruct (donate a (CampaignDetails.id c) amountWei) as [[]|err]; reflexivity. }
  split; [|split].
  - intros err ->. cbn. split; [reflexivity|]. split; [apply Hmsg|reflexivity].
  - intros amountWei err -> ->. cbn. split; [reflexivity|]. split; [apply Hmsg|reflexivity].
  - intros amountWei -> Hdonate. rewrite Hdonate. cbn. split; [reflexivity|].
    rewrite <- app_assoc. reflexivity.
Qed.

End Donations.

(* ===================================================================== *)
(** * Campaign creation *)
(* ===================================================================== *)

Module CreateCampaignFacts.

Import Js Float64 Input CreateCampaign.
Local Open Scope Z_scope.

(** The client service makes one request, which the page records. *)
Lemma upload_through_state endpoint fetch metadata p :
  (upload_through endpoint fetch metadata p).2 = record_call (UploadMetadata metadata) p.
Proof.
  unfold upload_through.
  destruct (UploadClientFacts.uploadMetadataToPinata_spec endpoint
              (fun url body => call (UploadMetadata body) (fetch url body)) metadata p)
    as (Hstate & _).
  exact Hstate.
Qed.

(** The result of the two validations of [executeCreateCampaign]. *)
Lemma validations_cases lib Date_now f :
  (goalWei ← validateGoal lib (goal f);
   deadlineTimestamp ← validateDeadline lib Date_now (deadline f);
   mret (goalWei, deadlineTimestamp))
  = match validateGoal lib (goal f) with
    | Throw err => Throw err
    | Ok goalWei =>
        match validateDeadline lib Date_now (deadline f) with
        | Throw err => Throw err
        | Ok deadlineTimestamp => Ok (goalWei, deadlineTimestamp)
        end
    end.
Proof.
  unfold mbind, result_bind, mret, result_ret.
  destruct (validateGoal lib (goal f)); [|reflexivity].
  destruct (validateDeadline lib Date_now (deadline f)); reflexivity.
Qed.

(** The page after [executeCreateCampaign], case by case. *)
Ltac page_simpl :=
  cbv beta iota zeta
      delta [setIsProcessing setShowConfirmModal setWalletMissing setErrorMessage
             setExecuting setFields record_call
             fields showConfirmModal isProcessing walletMissing errorMessage
             isExecutingRef calls fst snd].

Lemma executeCreateCampaign_cases lib wallet Date_now endpoint fetch p :
  executeCreateCampaign lib wallet Date_now (upload_through endpoint fetch) p =
  (Ok tt,
   let f := fields p in
   let closed err :=
     {| fields := f; showConfirmModal := false; isProcessing := false;
        walletMissing := false; errorMessage := err;
        isExecutingRef := false; calls := calls p |} in
   if isExecutingRef p then p
   else if walletMissing p then
     match connectWallet wallet with
     | Ok _ =>
         {| fields := f; showConfirmModal := true; isProcessing := false;
            walletMissing := false; errorMessage := errorMessage p;
            isExecutingRef := false; calls := calls p ++ [ConnectWallet] |}
     | Throw _ =>
         {| fields := f; showConfirmModal := false; isProcessing := false;
            walletMissing := true;
            errorMessage := "Failed to connect wallet. Please try again.";
            isExecutingRef := false; calls := calls p ++ [ConnectWallet] |}
     end
   else
     match validateGoal lib (goal f) with
     | Throw err =>
         {| fields := f; showConfirmModal := false; isProcessing := isProcessing p;
            walletMissing := false; errorMessage := message err;
            isExecutingRef := false; calls := calls p |}
     | Ok goalWei =>
         match validateDeadline lib Date_now (deadline f) with
         | Throw err =>
             {| fields := f; showConfirmModal := false; isProcessing := isProcessing p;
                walletMissing := false; errorMessage := message err;
                isExecutingRef := false; calls := calls p |}
         | Ok deadlineTimestamp =>
             match actions wallet with
             | None =>
                 closed "Cannot read properties of null (reading 'createCampaign')"
             | Some actions =>
                 let tx := {| tx_title := trim (title f);
                              tx_description := trim (description f);
                              tx_videoUrl := trim (videoUrl f);
                              tx_imageUrl := trim (imageUrl f);
                              tx_goalWei := goalWei;
                              tx_deadline := deadlineTimestamp |} in
                 match createCampaign actions tx with
                 | Throw err =>
                     {| fields := f; showConfirmModal := false; isProcessing := false;
                        walletMissing := false;
                        errorMessage := or_string (message err)
                                          "Failed to create campaign. Please try again.";
                        isExecutingRef := false;
                        calls := calls p ++ [CreateCampaignTx tx] |}
                 | Ok receipt =>
                     {| fields := {| title := ""; description := ""; videoUrl := "";
                                     imageUrl := ""; goal := ""; deadline := "" |};
                        showConfirmModal := false; isProcessing := false;
                        walletMissing := false; errorMessage := "";
                        isExecutingRef := false;
                        calls := (calls p ++ [CreateCampaignTx tx])
                                 ++ match extract_campaignId receipt with
                                    | BigInt campaignId =>
                                        [UploadMetadata
                                           (metadata_of f campaignId deadlineTimestamp)]
                                    | Undefined | Null => []
                                    end
                                 ++ [RouterPush "/campaigns"] |}
                 end
             end
         end
     end).
Proof.
  destruct p as [f modal processing missing message executing issued].
  unfold executeCreateCampaign.
  cbn [fields isExecutingRef walletMissing isProcessing errorMessage calls].
  destruct executing; [reflexivity|]. destruct missing.
  { unfold try_finally, try_catch_M, modify, lift, call.
    unfold mbind, M_bind, mret, M_ret. cbn beta iota.
    destruct (connectWallet wallet) as [[]|err]; reflexivity. }
  rewrite validations_cases.
  destruct (validateGoal lib (goal f)) as [goalWei|err]; [|reflexivity].
  destruct (validateDeadline lib Date_now (deadline f)) as [deadlineTimestamp|err];
    [|reflexivity].
  unfold resetForm. unfold try_finally, try_catch_M, modify, lift, call.
  unfold mbind, M_bind, mret, M_ret. cbn beta iota.
  destruct (actions wallet) as [a|]; cbn beta iota; [|reflexivity].
  match goal with
  | |- context [createCampaign a ?t] => destruct (createCampaign a t) as [receipt|err]
  end; cbn beta iota; [|reflexivity].
  destruct (extract_campaignId receipt) as [| |campaignId]; cbn beta iota.
  - page_simpl. rewrite <- ?app_assoc. reflexivity.
  - page_simpl. rewrite <- ?app_assoc. reflexivity.
  - match goal with
    | |- context [upload_through endpoint fetch ?m ?q] =>
        pose proof (upload_through_state endpoint fetch m q) as Hup;
        destruct (upload_through endpoint fetch m q) as [r q']
    end.
    cbn [snd] in Hup. subst q'.
    destruct r; page_simpl; rewrite <- ?app_assoc; reflexivity.
Qed.

(** The page after [handleSubmit], case by case. *)
Lemma handleSubmit_cases lib wallet Date_now p :
  handleSubmit lib wallet Date_now p =
  (Ok tt,
   let f := fields p in
   if negb (truthy_string (trim (title f)))
   then setErrorMessage "Title is required." p
   else
     match validateGoal lib (goal f) with
     | Throw err => setErrorMessage (message err) p
     | Ok _ =>
         match validateDeadline lib Date_now (deadline f) with
         | Throw err => setErrorMessage (message err) p
         | Ok _ =>
             {| fields := f; showConfirmModal := true; isProcessing := isProcessing p;
                walletMissing := negb (isReady wallet)
                                 || negb (bool_decide (is_Some (actions wallet)));
                errorMessage := ""; isExecutingRef := isExecutingRef p;
                calls := calls p |}
         end
     end).
Proof.
  unfold handleSubmit. cbv zeta. unfold modify. unfold mbind, M_bind, mret, M_ret.
  cbn beta iota.
  destruct (negb (truthy_string (trim (title (fields p))))); [reflexivity|].
  destruct (validateGoal lib (goal (fields p))); [|reflexivity].
  destruct (validateDeadline lib Date_now (deadline (fields p))); [|reflexivity].
  destruct (negb (isReady wallet) || negb (bool_decide (is_Some (actions wallet))));
    reflexivity.
Qed.

Lemma validateGoal_spec lib goal w :
  validateGoal lib goal = Ok w <->
  trim goal <> "" /\
  isNaN (parseFloat lib goal) = false /\
  le (parseFloat lib goal) zero = false /\
  parseEther lib goal = Ok w.
Proof.
  unfold validateGoal.
  assert (trim "" = "") as Htrim by reflexivity.
  unfold truthy_string.
  destruct (decide (goal = "")) as [->|Hne]; cbn [negb orb].
  { split; [discriminate|]. intros [H _]. contradiction. }
  destruct (decide (trim goal = "")) as [He|Hne']; cbn [negb].
  { split; [discriminate|]. intros [H _]. contradiction. }
  destruct (isNaN (parseFloat lib goal)); cbn [orb].
  { split; [discriminate|]. intros (_ & [=] & _). }
  destruct (le (parseFloat lib goal) zero).
  { split; [discriminate|]. intros (_ & _ & [=] & _). }
  unfold try_catch. destruct (parseEther lib goal) as [w'|e].
  - split; [intros [= <-]; auto|intros (_ & _ & _ & H); exact H].
  - split; [discriminate|]. intros (_ & _ & _ & [=]).
Qed.

Lemma validateDeadline_spec lib Date_now deadline t :
  validateDeadline lib Date_now deadline = Ok t <->
  deadline <> "" /\
  exists ms, Date_getTime lib deadline = Some ms /\ t = ms / 1000 /\
             Date_now / 1000 < t.
Proof.
  unfold validateDeadline, truthy_string, seconds.
  destruct (decide (deadline = "")) as [->|Hne]; cbn [negb].
  { split; [discriminate|]. intros [H _]. contradiction. }
  destruct (Date_getTime lib deadline) as [ms|]; cbn [fmap option_fmap option_map].
  2:{ split; [discriminate|]. intros (_ & ms & [=] & _). }
  destruct (Z.leb_spec (ms / 1000) (Date_now / 1000)) as [Hle|Hlt].
  - split; [discriminate|]. intros (_ & ms' & [= <-] & -> & Hlt). lia.
  - split.
    + intros [= <-]. split; [assumption|]. exists ms. auto.
    + intros (_ & ms' & [= <-] & -> & _). reflexivity.
Qed.




End CreateCampaignFacts.

Section Creation.

Import Js Float64 Input CreateCampaign CreateCampaignFacts.
Local Open Scope Z_scope.

(** [trim] removes the white space of Unicode, not only that of ASCII: a
    text made of no-break spaces and ideographic spaces is blank, and as a
    goal it is reported as required. *)
Example trim_unicode_white_space :
  trim (MoreSamples.NBSP +:+ " Community center" +:+ MoreSamples.IDEOGRAPHIC_SPACE
          +:+ MoreSamples.NBSP)
  = "Community center" /\
  trim (MoreSamples.NBSP +:+ MoreSamples.IDEOGRAPHIC_SPACE) = "" /\
  trim ("a" +:+ MoreSamples.NBSP +:+ "b") = "a" +:+ MoreSamples.NBSP +:+ "b" /\
  validateGoal MoreSamples.library (MoreSamples.NBSP +:+ MoreSamples.IDEOGRAPHIC_SPACE)
  = Throw (new_Error "Goal amount is required.").
Proof. repeat apply conj; vm_compute; reflexivity. Qed.

(** X15.  [validateGoal] accepts a goal exactly when it is not blank,
    [parseFloat] reads it as a number above 0 and [parseEther] accepts it,
    and returns what [parseEther] gave; a blank goal is reported as
    required before anything is parsed, a goal that is not above 0 before
    [parseEther] is tried.  [validateDeadline] accepts a deadline exactly
    when it is not empty, denotes a date, and its second is strictly after
    the second of the clock; the timestamp it returns is then strictly in
    the future of the clock. *)
Theorem validation_rules lib Date_now goal deadline :
  (forall w,
     validateGoal lib goal = Ok w <->
     trim goal <> "" /\ isNaN (parseFloat lib goal) = false /\
     le (parseFloat lib goal) zero = false /\ parseEther lib goal = Ok w) /\
  (trim goal = "" ->
   validateGoal lib goal = Throw (new_Error "Goal amount is required.")) /\
  (trim goal <> "" ->
   isNaN (parseFloat lib goal) = true \/ le (parseFloat lib goal) zero = true ->
   validateGoal lib goal = Throw (new_Error "Goal must be greater than 0 ETH.")) /\
  (forall e,
     trim goal <> "" -> isNaN (parseFloat lib goal) = false ->
     le (parseFloat lib goal) zero = false -> parseEther lib goal = Throw e ->
     validateGoal lib goal
     = Throw (new_Error "Invalid goal format. Use numbers only (e.g., 1.5).")) /\
  (forall t,
     validateDeadline lib Date_now deadline = Ok t <->
     deadline <> "" /\
     exists ms, Date_getTime lib deadline = Some ms /\ t = ms / 1000 /\
                Date_now / 1000 < t) /\
  (forall t, validateDeadline lib Date_now deadline = Ok t -> Date_now < 1000 * t) /\
  (deadline = "" ->
   validateDeadline lib Date_now deadline = Throw (new_Error "Deadline is required.")) /\
  (forall e, validateDeadline lib Date_now deadline = Throw e ->
             deadline <> "" -> e = new_Error "Deadline must be a valid future date.").
Proof.
  assert (forall s, trim s <> "" -> s <> "") as Hblank.
  { intros s Hs ->. apply Hs. reflexivity. }
  split; [intros w; apply validateGoal_spec|].
  split.
  { intros Ht. unfold validateGoal, truthy_string.
    destruct (decide (goal = "")); [reflexivity|].
    destruct (decide (trim goal = "")); [reflexivity|contradiction]. }
  split.
  { intros Ht Hbad. unfold validateGoal, truthy_string.
    destruct (decide (goal = "")) as [Hg|_]; [exfalso; exact (Hblank _ Ht Hg)|].
    destruct (decide (trim goal = "")); [contradiction|]. cbn [negb orb].
    destruct Hbad as [-> | ->]; [reflexivity|].
    destruct (isNaN _); reflexivity. }
  split.
  { intros e Ht Hnan Hle Hparse. unfold validateGoal, truthy_string.
    destruct (decide (goal = "")) as [Hg|_]; [exfalso; exact (Hblank _ Ht Hg)|].
    destruct (decide (trim goal = "")); [contradiction|]. cbn [negb orb].
    rewrite Hnan, Hle, Hparse. reflexivity. }
  split; [intros t; apply validateDeadline_spec|].
  split.
  { intros t Ht. apply validateDeadline_spec in Ht as (_ & ms & _ & _ & Hlt).
    pose proof (Z.div_mod Date_now 1000 ltac:(lia)).
    pose proof (Z.mod_pos_bound Date_now 1000 ltac:(lia)). lia. }
  split.
  { intros ->. reflexivity. }
  intros e He Hne. unfold validateDeadline, truthy_string in He.
  destruct (decide (deadline = "")); [contradiction|]. cbn [negb] in He.
  destruct (seconds <$> Date_getTime lib deadline) as [t|]; [|congruence].
  destruct (t <=? seconds Date_now); congruence.
Qed.

(** X16.  [handleSubmit] calls nothing and leaves the fields as they are.
    It opens the confirmation, with the error cleared, exactly when the
    title is not blank and both validations pass, and it then notes whether
    the wallet is missing.  Otherwise the confirmation and the wallet note
    stay as they were and the error shown is that of the first check that
    failed: the title, then the goal, then the deadline. *)
Theorem submit_opens_confirmation_when_valid lib wallet Date_now p :
  let p' := (handleSubmit lib wallet Date_now p).2 in
  let f := fields p in
  (handleSubmit lib wallet Date_now p).1 = Ok tt /\
  calls p' = calls p /\ fields p' = f /\
  isProcessing p' = isProcessing p /\ isExecutingRef p' = isExecutingRef p /\
  (trim (title f) <> "" /\
   (exists w, validateGoal lib (goal f) = Ok w) /\
   (exists t, validateDeadline lib Date_now (deadline f) = Ok t) /\
   showConfirmModal p' = true /\ errorMessage p' = "" /\
   walletMissing p' = negb (isReady wallet && bool_decide (is_Some (actions wallet)))
   \/
   showConfirmModal p' = showConfirmModal p /\ walletMissing p' = walletMissing p /\
   (trim (title f) = "" /\ errorMessage p' = "Title is required." \/
    trim (title f) <> "" /\
    (exists e, validateGoal lib (goal f) = Throw e /\ errorMessage p' = message e) \/
    trim (title f) <> "" /\
    (exists w, validateGoal lib (goal f) = Ok w) /\
    (exists e, validateDeadline lib Date_now (deadline f) = Throw e /\
               errorMessage p' = message e))).
Proof.
  cbv zeta. rewrite handleSubmit_cases. cbn [fst snd]. cbv zeta.
  split; [reflexivity|].
  unfold truthy_string. destruct (decide (trim (title (fields p)) = "")) as [Ht|Ht];
    cbn [negb].
  { repeat (split; [reflexivity|]). right. repeat (split; [reflexivity|]).
    left. split; [exact Ht|reflexivity]. }
  destruct (validateGoal lib (goal (fields p))) as [w|e].
  2:{ repeat (split; [reflexivity|]). right. repeat (split; [reflexivity|]).
      right. left. split; [exact Ht|]. exists e. split; reflexivity. }
  destruct (validateDeadline lib Date_now (deadline (fields p))) as [t|e].
  2:{ repeat (split; [reflexivity|]). right. repeat (split; [reflexivity|]).
      right. right. split; [exact Ht|]. split; [exists w; reflexivity|].
      exists e. split; reflexivity. }
  repeat (split; [reflexivity|]). left.
  split; [exact Ht|]. split; [exists w; reflexivity|]. split; [exists t; reflexivity|].
  cbn. repeat split. destruct (isReady wallet), (bool_decide _); reflexivity.
Qed.

(** X17.  [executeCreateCampaign] sends a transaction only for input that
    passes both validations at the time of the call, and never while
    another run is in flight or while the wallet is missing: the goal of the
    transaction is the value [validateGoal] returned, its deadline is the
    timestamp [validateDeadline] returned, which is strictly in the future
    of the clock, and its texts are the trimmed fields of the form. *)
Theorem transaction_only_for_valid_input lib wallet Date_now endpoint fetch p tx :
  CreateCampaignTx tx
    ∈ calls (executeCreateCampaign lib wallet Date_now
               (upload_through endpoint fetch) p).2 ->
  CreateCampaignTx tx ∈ calls p \/
  isExecutingRef p = false /\ walletMissing p = false /\
  is_Some (actions wallet) /\
  validateGoal lib (goal (fields p)) = Ok (tx_goalWei tx) /\
  validateDeadline lib Date_now (deadline (fields p)) = Ok (tx_deadline tx) /\
  Date_now < 1000 * tx_deadline tx /\
  tx_title tx = trim (title (fields p)) /\
  tx_description tx = trim (description (fields p)) /\
  tx_videoUrl tx = trim (videoUrl (fields p)) /\
  tx_imageUrl tx = trim (imageUrl (fields p)).
Proof.
  rewrite executeCreateCampaign_cases. cbn [snd]. cbv zeta.
  destruct (isExecutingRef p) eqn:Hexec; [auto|].
  destruct (walletMissing p) eqn:Hwallet.
  { destruct (connectWallet wallet); cbn [calls]; intros Hin;
      apply elem_of_app in Hin as [Hin|Hin]; auto;
      apply list_elem_of_singleton in Hin; discriminate. }
  destruct (validateGoal lib (goal (fields p))) as [goalWei|e] eqn:Hgoal; [|auto].
  destruct (validateDeadline lib Date_now (deadline (fields p))) as [t|e] eqn:Hdeadline;
    [|auto].
  assert (Date_now < 1000 * t) as Hfuture.
  { apply validateDeadline_spec in Hdeadline as (_ & ms & _ & _ & Hlt).
    pose proof (Z.div_mod Date_now 1000 ltac:(lia)).
    pose proof (Z.mod_pos_bound Date_now 1000 ltac:(lia)). lia. }
  destruct (actions wallet) as [a|] eqn:Hactions; [|auto].
  match goal with
  | |- context [createCampaign a ?t0] => set (sent := t0)
  end.
  assert (CreateCampaignTx tx ∈ calls p ++ [CreateCampaignTx sent] ->
          CreateCampaignTx tx ∈ calls p \/ tx = sent) as Hsent.
  { intros Hin. apply elem_of_app in Hin as [Hin|Hin]; [left; exact Hin|right].
    apply list_elem_of_singleton in Hin. congruence. }
  assert (tx = sent -> CreateCampaignTx tx ∈ calls p \/
          false = false /\ false = false /\ is_Some (Some a) /\
          Ok goalWei = Ok (tx_goalWei tx) /\ Ok t = Ok (tx_deadline tx) /\
          Date_now < 1000 * tx_deadline tx /\
          tx_title tx = trim (title (fields p)) /\
          tx_description tx = trim (description (fields p)) /\
          tx_videoUrl tx = trim (videoUrl (fields p)) /\
          tx_imageUrl tx = trim (imageUrl (fields p))) as Hvalid.
  { intros ->. right. unfold sent. cbn. repeat split; auto; eexists; reflexivity. }
  destruct (createCampaign a sent) as [receipt|e]; cbn [calls]; intros Hin.
  - apply elem_of_app in Hin as [Hin|Hin].
    + destruct (Hsent Hin) as [?|Heq]; [auto|exact (Hvalid Heq)].
    + exfalso. destruct (extract_campaignId receipt); cbn [app] in Hin.
      * apply list_elem_of_singleton in Hin. discriminate.
      * apply list_elem_of_singleton in Hin. discriminate.
      * apply elem_of_cons in Hin as [Hin|Hin]; [discriminate|].
        apply list_elem_of_singleton in Hin. discriminate.
  - destruct (Hsent Hin) as [?|Heq]; [auto|exact (Hvalid Heq)].
Qed.

Lemma transaction_only_for_valid_input_witness :
  CreateCampaignTx MoreSamples.transaction ∈ calls MoreSamples.confirming \/
  isExecutingRef MoreSamples.confirming = false /\
  walletMissing MoreSamples.confirming = false /\
  is_Some (actions MoreSamples.wallet) /\
  validateGoal MoreSamples.library (goal (fields MoreSamples.confirming))
  = Ok (tx_goalWei MoreSamples.transaction) /\
  validateDeadline MoreSamples.library MoreSamples.Date_now
    (deadline (fields MoreSamples.confirming))
  = Ok (tx_deadline MoreSamples.transaction) /\
  MoreSamples.Date_now < 1000 * tx_deadline MoreSamples.transaction /\
  tx_title MoreSamples.transaction = trim (title (fields MoreSamples.confirming)) /\
  tx_description MoreSamples.transaction
  = trim (description (fields MoreSamples.confirming)) /\
  tx_videoUrl MoreSamples.transaction = trim (videoUrl (fields MoreSamples.confirming)) /\
  tx_imageUrl MoreSamples.transaction = trim (imageUrl (fields MoreSamples.confirming)).
Proof.
  apply (transaction_only_for_valid_input MoreSamples.library MoreSamples.wallet
           MoreSamples.Date_now PinataUpload.ENDPOINT MoreSamples.fetch_down
           MoreSamples.confirming MoreSamples.transaction).
  vm_compute. left.
Defined.

(** X18.  [executeCreateCampaign] never throws and restores the in-flight
    flag on every path, so a page that was free before is free after.  A run
    issues nothing, or one wallet connection, or one transaction followed,
    when it succeeded, by at most one metadata upload and then the move to
    the campaign list; whenever it issued something the processing flag is
    cleared at the end.  A run that finds another one in flight changes
    nothing, and while the wallet is missing a run only connects the wallet
    and sends no transaction. *)
Theorem creation_releases_lock lib wallet Date_now endpoint fetch p :
  let run := executeCreateCampaign lib wallet Date_now (upload_through endpoint fetch) p in
  run.1 = Ok tt /\
  isExecutingRef run.2 = isExecutingRef p /\
  (isExecutingRef p = true -> run.2 = p) /\
  exists new,
    calls run.2 = calls p ++ new /\
    (new <> [] -> isProcessing run.2 = false) /\
    (isExecutingRef p = false -> walletMissing p = true -> new = [ConnectWallet]) /\
    (new = [] \/ new = [ConnectWallet] \/
     exists tx,
       new = [CreateCampaignTx tx] \/
       new = [CreateCampaignTx tx; RouterPush "/campaigns"] \/
       exists metadata,
         new = [CreateCampaignTx tx; UploadMetadata metadata; RouterPush "/campaigns"]).
Proof.
  cbv zeta. rewrite executeCreateCampaign_cases. cbn [fst snd]. cbv zeta.
  split; [reflexivity|].
  destruct (isExecutingRef p) eqn:Hexec.
  { split; [exact Hexec|]. split; [reflexivity|].
    exists []. rewrite app_nil_r. repeat split; try congruence. left. reflexivity. }
  destruct (walletMissing p) eqn:Hwallet.
  { destruct (connectWallet wallet); cbn [isExecutingRef calls isProcessing];
      (split; [reflexivity|]); (split; [discriminate|]);
      exists [ConnectWallet]; repeat split; auto. }
  destruct (validateGoal lib (goal (fields p))) as [goalWei|e].
  2:{ cbn [isExecutingRef calls isProcessing].
      split; [reflexivity|]. split; [discriminate|].
      exists []. rewrite app_nil_r. repeat split; try congruence. left. reflexivity. }
  destruct (validateDeadline lib Date_now (deadline (fields p))) as [t|e].
  2:{ cbn [isExecutingRef calls isProcessing].
      split; [reflexivity|]. split; [discriminate|].
      exists []. rewrite app_nil_r. repeat split; try congruence. left. reflexivity. }
  destruct (actions wallet) as [a|].
  2:{ cbn [isExecutingRef calls isProcessing].
      split; [reflexivity|]. split; [discriminate|].
      exists []. rewrite app_nil_r. repeat split; try congruence. left. reflexivity. }
  match goal with
  | |- context [createCampaign a ?t0] => set (sent := t0)
  end.
  destruct (createCampaign a sent) as [receipt|e];
    cbn [isExecutingRef calls isProcessing];
    (split; [reflexivity|]); (split; [discriminate|]).
  - destruct (extract_campaignId receipt) as [| |campaignId]; cbn [app];
      rewrite <- app_assoc; cbn [app]; eexists; (split; [reflexivity|]);
      (split; [reflexivity|]); (split; [congruence|]); right; right; exists sent.
    + right. left. reflexivity.
    + right. left. reflexivity.
    + right. right. eexists. reflexivity.
  - eexists. split; [reflexivity|]. split; [reflexivity|]. split; [congruence|].
    right. right. exists sent. left. reflexivity.
Qed.

(** X19.  Once the transaction went through, the creation completes
    whatever happens to the metadata: the form is reset, no error is shown
    and the page moves to the campaign list, whether or not an id could be
    read from the logs and whatever the upload endpoint answers.  The
    metadata is uploaded exactly when the logs gave an id, and carries that
    id, the trimmed texts, the goal as typed and the deadline of the
    transaction.  When the transaction fails nothing is uploaded, the page
    stays, the form is kept and the failure is shown with its message, or
    with a fixed text when the message is empty. *)
Theorem metadata_failure_is_not_fatal
        lib wallet Date_now endpoint fetch p a goalWei deadlineTimestamp :
  isExecutingRef p = false ->
  walletMissing p = false ->
  validateGoal lib (goal (fields p)) = Ok goalWei ->
  validateDeadline lib Date_now (deadline (fields p)) = Ok deadlineTimestamp ->
  actions wallet = Some a ->
  let f := fields p in
  let tx := {| tx_title := trim (title f);
               tx_description := trim (description f);
               tx_videoUrl := trim (videoUrl f);
               tx_imageUrl := trim (imageUrl f);
               tx_goalWei := goalWei;
               tx_deadline := deadlineTimestamp |} in
  let p' := (executeCreateCampaign lib wallet Date_now
               (upload_through endpoint fetch) p).2 in
  (forall fetch',
     (executeCreateCampaign lib wallet Date_now (upload_through endpoint fetch') p).2 = p') /\
  match createCampaign a tx with
  | Ok receipt =>
      fields p' = {| title := ""; description := ""; videoUrl := "";
                     imageUrl := ""; goal := ""; deadline := "" |} /\
      errorMessage p' = "" /\ showConfirmModal p' = false /\ isProcessing p' = false /\
      calls p'
      = calls p ++ [CreateCampaignTx tx]
          ++ match extract_campaignId receipt with
             | BigInt campaignId =>
                 [UploadMetadata
                    (JObj [("campaignId", JStr (pretty campaignId));
                           ("title", JStr (trim (title f)));
                           ("description", JStr (trim (description f)));
                           ("imageUrl", JStr (trim (imageUrl f)));
                           ("videoUrl", JStr (trim (videoUrl f)));
                           ("goal", JStr (goal f));
                           ("deadline", JNum deadlineTimestamp)])]
             | Undefined | Null => []
             end
          ++ [RouterPush "/campaigns"]
  | Throw err =>
      fields p' = f /\
      errorMessage p' = or_string (message err)
                          "Failed to create campaign. Please try again." /\
      errorMessage p' <> "" /\
      showConfirmModal p' = false /\ isProcessing p' = false /\
      calls p' = calls p ++ [CreateCampaignTx tx]
  end.
Proof.
  intros Hexec Hwallet Hgoal Hdeadline Hactions. cbv zeta.
  split.
  { intros fetch'. rewrite !executeCreateCampaign_cases. reflexivity. }
  rewrite executeCreateCampaign_cases. cbn [snd]. cbv zeta.
  rewrite Hexec, Hwallet, Hgoal, Hdeadline, Hactions.
  match goal with
  | |- context [createCampaign a ?t0] => destruct (createCampaign a t0) as [receipt|err]
  end.
  - cbn [fields errorMessage showConfirmModal isProcessing calls].
    repeat (split; [reflexivity|]). rewrite <- app_assoc. reflexivity.
  - cbn [fields errorMessage showConfirmModal isProcessing calls].
    repeat (split; [reflexivity|]). split; [|repeat split].
    unfold or_string, truthy_string.
    destruct (decide (message err = "")); [discriminate|assumption].
Qed.

(** The sample form, with an upload endpoint that cannot be reached: the
    campaign is created, the upload is attempted, and the page moves on. *)
Lemma metadata_failure_is_not_fatal_witness :
  let f := fields MoreSamples.confirming in
  let tx := {| tx_title := trim (title f);
               tx_description := trim (description f);
               tx_videoUrl := trim (videoUrl f);
               tx_imageUrl := trim (imageUrl f);
               tx_goalWei := 1500000000000000000;
               tx_deadline := 1999999980 |} in
  let p' := (executeCreateCampaign MoreSamples.library MoreSamples.wallet
               MoreSamples.Date_now
               (upload_through PinataUpload.ENDPOINT MoreSamples.fetch_down)
               MoreSamples.confirming).2 in
  (forall fetch',
     (executeCreateCampaign MoreSamples.library MoreSamples.wallet MoreSamples.Date_now
        (upload_through PinataUpload.ENDPOINT fetch') MoreSamples.confirming).2 = p') /\
  match createCampaign (MoreSamples.actions_creating 7) tx with
  | Ok receipt =>
      fields p' = {| title := ""; description := ""; videoUrl := "";
                     imageUrl := ""; goal := ""; deadline := "" |} /\
      errorMessage p' = "" /\ showConfirmModal p' = false /\ isProcessing p' = false /\
      calls p'
      = calls MoreSamples.confirming ++ [CreateCampaignTx tx]
          ++ match extract_campaignId receipt with
             | BigInt campaignId =>
                 [UploadMetadata
                    (JObj [("campaignId", JStr (pretty campaignId));
                           ("title", JStr (trim (title f)));
                           ("description", JStr (trim (description f)));
                           ("imageUrl", JStr (trim (imageUrl f)));
                           ("videoUrl", JStr (trim (videoUrl f)));
                           ("goal", JStr (goal f));
                           ("deadline", JNum 1999999980)])]
             | Undefined | Null => []
             end
          ++ [RouterPush "/campaigns"]
  | Throw err =>
      fields p' = f /\
      errorMessage p' = or_string (message err)
                          "Failed to create campaign. Please try again." /\
      errorMessage p' <> "" /\
      showConfirmModal p' = false /\ isProcessing p' = false /\
      calls p' = calls MoreSamples.confirming ++ [CreateCampaignTx tx]
  end.
Proof.
  apply (metadata_failure_is_not_fatal MoreSamples.library MoreSamples.wallet
           MoreSamples.Date_now PinataUpload.ENDPOINT MoreSamples.fetch_down
           MoreSamples.confirming (MoreSamples.actions_creating 7)
           1500000000000000000 1999999980); reflexivity.
Defined.



(** X22.  The campaign id is read from the first log named
    [CampaignCreated] that carries an id: the logs after it are not looked
    at.  A receipt that is [null] or has no logs, logs none of which
    matches, and a [null] entry met before any match all leave the id
    [undefined]; with [executeCreateCampaign] this means that no metadata is
    uploaded. *)
Theorem campaign_id_from_first_matching_log :
  let matches log :=
    fragment_name log = Some "CampaignCreated" /\ args_campaignId log <> Undefined in
  let passed entry := exists log, entry = Some log /\ ~ matches log in
  extract_campaignId None = Undefined /\
  extract_campaignId (Some {| logs := None |}) = Undefined /\
  (forall before log after,
     Forall passed before -> matches log ->
     extract_campaignId (Some {| logs := Some (before ++ Some log :: after) |})
     = args_campaignId log) /\
  (forall before after,
     Forall passed before ->
     extract_campaignId (Some {| logs := Some (before ++ None :: after) |}) = Undefined) /\
  (forall all,
     Forall passed all ->
     extract_campaignId (Some {| logs := Some all |}) = Undefined).
Proof.
  cbv zeta.
  assert (forall log,
            bool_decide (fragment_name log = Some "CampaignCreated")
            && negb (is_undefined (args_campaignId log)) = true <->
            fragment_name log = Some "CampaignCreated" /\ args_campaignId log <> Undefined)
    as Hmatch.
  { intros log. rewrite andb_true_iff, bool_decide_eq_true, negb_true_iff.
    destruct (args_campaignId log); simpl; split; intros [? ?]; split;
      congruence. }
  assert (forall before rest,
            Forall (fun entry => exists log, entry = Some log /\
                      ~ (fragment_name log = Some "CampaignCreated" /\
                         args_campaignId log <> Undefined)) before ->
            scan (before ++ rest) = scan rest) as Hskip.
  { intros before rest Hall. induction Hall as [|entry before (log & -> & Hno) _ IH].
    - reflexivity.
    - simpl. destruct (bool_decide _ && negb _) eqn:E; [|exact IH].
      exfalso. apply Hno. apply Hmatch. exact E. }
  split; [reflexivity|]. split; [reflexivity|]. split; [|split].
  - intros before log after Hall Hlog. unfold extract_campaignId. cbn [logs from_option].
    rewrite (Hskip _ _ Hall). simpl.
    rewrite (proj2 (Hmatch log) Hlog). reflexivity.
  - intros before after Hall. unfold extract_campaignId. cbn [logs from_option].
    rewrite (Hskip _ _ Hall). reflexivity.
  - intros all Hall. unfold extract_campaignId. cbn [logs from_option].
    rewrite <- (app_nil_r all), (Hskip _ _ Hall). reflexivity.
Qed.

End Creation.
